(** * surreality-logging: a shallow embedding of the two configuration modules

    The repository holds two alternative implementations of one feature:

    - [src/surreality_logging/__init__.py], built on Python's [logging]
      package (module [StdImpl] below);
    - [src/python/surreality_logging/__init__.py], built on Loguru with a
      shim that forwards [logging] records to it (module [LoguruImpl]).

    Both are configuration code: what a record finally does is decided by
    the logging libraries they configure.  The libraries' dispatch rules are
    therefore modelled too ([PyLogging], [Loguru], [Rotation]); each such
    definition names the library routine it follows. *)

From Stdlib Require Import ZArith Lia List Bool Ascii String DecimalString.
From stdpp Require Import base option list gmap strings.

Local Open Scope string_scope.
Local Open Scope list_scope.
Local Open Scope Z_scope.

(* ===================================================================== *)
(** ** Text helpers: Python [str] operations used by the sources *)
(* ===================================================================== *)

Module Text.

(** The escape character, written ['\033'] in the sources. *)
Definition ESC : ascii := "027"%char.

(** [has_esc s]: some character of [s] is ESC, that is, [s] holds the
    start of an ANSI control sequence. *)
Fixpoint has_esc (s : string) : bool :=
  match s with
  | EmptyString => false
  | String c s' => Ascii.eqb c ESC || has_esc s'
  end.

(** [str(n)] / [%d] for a non-negative integer. *)
Definition dec (n : nat) : string :=
  NilEmpty.string_of_uint (Nat.to_uint n).

Fixpoint replicate_char (n : nat) (c : ascii) : string :=
  match n with
  | O => EmptyString
  | S k => String c (replicate_char k c)
  end.

(** Zero padding on the left to width [w] ([%02d], [{:03}]). *)
Definition zfill (w : nat) (s : string) : string :=
  replicate_char (w - String.length s) "0" +:+ s.

(** Space padding on the right to width [w] (the [{level: <8}] spec). *)
Definition ljust (w : nat) (s : string) : string :=
  s +:+ replicate_char (w - String.length s) " ".

Definition upper_char (c : ascii) : ascii :=
  let n := nat_of_ascii c in
  if ((97 <=? n)%nat && (n <=? 122)%nat)%bool then ascii_of_nat (n - 32) else c.

(** [s.upper()] on ASCII text. *)
Fixpoint upper (s : string) : string :=
  match s with
  | EmptyString => EmptyString
  | String c s' => String (upper_char c) (upper s')
  end.

(** [s[-1:] != "\n"] is the negation of this test. *)
Fixpoint ends_with_newline (s : string) : bool :=
  match s with
  | EmptyString => false
  | String c EmptyString => Ascii.eqb c "010"%char
  | String _ s' => ends_with_newline s'
  end.

Definition NL : string := String "010"%char EmptyString.

(** Python truthiness of an optional string attribute: [None] and [""]
    are false. *)
Definition truthy (o : option string) : bool :=
  match o with
  | Some s => negb (String.eqb s "")
  | None => false
  end.

Definition opt_has_esc (o : option string) : bool :=
  match o with Some s => has_esc s | None => false end.

(** A character of a [string] stands for a code point below 256.  In
    UTF-8 the code points below 128 take one byte and the others two:
    [utf8_len s] is [len(s.encode("utf-8"))], while [String.length s] is
    [len(s)]. *)
Definition utf8_width (c : ascii) : nat :=
  if (nat_of_ascii c <? 128)%nat then 1%nat else 2%nat.

Fixpoint utf8_len (s : string) : nat :=
  match s with
  | EmptyString => 0%nat
  | String c s' => (utf8_width c + utf8_len s')%nat
  end.

(** [s.isascii()]. *)
Fixpoint is_ascii (s : string) : bool :=
  match s with
  | EmptyString => true
  | String c s' => (nat_of_ascii c <? 128)%nat && is_ascii s'
  end.

End Text.

(* ===================================================================== *)
(** ** Levels *)
(* ===================================================================== *)

(** The five levels of the specification's ordered enumeration. *)
Inductive Level := DEBUG | INFO | WARNING | ERROR | CRITICAL.

(** [logging.DEBUG] ... [logging.CRITICAL]; Loguru uses the same numbers for
    these five names. *)
Definition levelno_of (l : Level) : Z :=
  match l with
  | DEBUG => 10 | INFO => 20 | WARNING => 30 | ERROR => 40 | CRITICAL => 50
  end.

Definition name_of (l : Level) : string :=
  match l with
  | DEBUG => "DEBUG" | INFO => "INFO" | WARNING => "WARNING"
  | ERROR => "ERROR" | CRITICAL => "CRITICAL"
  end.

(** Broken-down local time of a record, as [time.localtime(record.created)]
    or Loguru's [record["time"]] give it. *)
Record Timestamp := {
  year : nat; month : nat; day : nat;
  hour : nat; minute : nat; second : nat
}.

(** Where a formatted line is written. *)
Inductive Sink :=
| Stdout
| Stderr
| LogFile (path : string).

#[global] Instance Sink_eq_dec : EqDecision Sink.
Proof. solve_decision. Defined.

(** What [get_logger] returns: the logger object through which the caller
    emits records.  Loguru has one global logger; [logging] has one logger
    object per name. *)
Inductive Handle :=
| LoguruLogger
| StdLogger (name : string).

(** One [write] call on a sink. *)
Definition Output : Type := Sink * string.

Definition lines_on (s : Sink) (out : list Output) : list string :=
  map snd (filter (λ o, o.1 = s) out).

(* ===================================================================== *)
(** ** The [logging] package: records, formatters, loggers, dispatch *)
(* ===================================================================== *)

(** A model of the parts of CPython's [logging/__init__.py] that both
    sources drive: [LogRecord], [Formatter.format], the logger hierarchy,
    [Logger.isEnabledFor] and [Logger.callHandlers].  Not modelled, because
    neither source touches them: filters, [Logger.disabled] and
    [logging.disable] (left at its initial value 0). *)
Module PyLogging.
Import Text.

Definition NOTSET : Z := 0.

(** [logging._nameToLevel]. *)
Definition nameToLevel (n : string) : option Z :=
  if String.eqb n "CRITICAL" then Some 50
  else if String.eqb n "FATAL" then Some 50
  else if String.eqb n "ERROR" then Some 40
  else if String.eqb n "WARN" then Some 30
  else if String.eqb n "WARNING" then Some 30
  else if String.eqb n "INFO" then Some 20
  else if String.eqb n "DEBUG" then Some 10
  else if String.eqb n "NOTSET" then Some 0
  else None.

(** [logging.getLevelName] on a number. *)
Definition getLevelName (n : Z) : string :=
  if n =? 50 then "CRITICAL"
  else if n =? 40 then "ERROR"
  else if n =? 30 then "WARNING"
  else if n =? 20 then "INFO"
  else if n =? 10 then "DEBUG"
  else if n =? 0 then "NOTSET"
  else "Level " +:+ NilEmpty.string_of_int (Z.to_int n).

(** What [getattr(logging, NAME)] finds for an upper-case [NAME]: the
    level constants are integers, [BASIC_FORMAT] is a string and
    [_STYLES] a dictionary.  Every other name that [str.upper] can produce
    is absent from the module. *)
Inductive Attr :=
| AttrInt (n : Z)
| AttrStr (s : string)
| AttrObj.

Definition module_attr (n : string) : option Attr :=
  match nameToLevel n with
  | Some k => Some (AttrInt k)
  | None =>
      if String.eqb n "BASIC_FORMAT"
      then Some (AttrStr "%(levelname)s:%(name)s:%(message)s")
      else if String.eqb n "_STYLES" then Some AttrObj
      else None
  end.

(** The exceptions that reach the caller of a configuration function. *)
Inductive Exn :=
| ValueError (what : string)
| TypeError (what : string).

(** [logging._checkLevel], behind every [setLevel]. *)
Definition checkLevel (a : Attr) : Exn + Z :=
  match a with
  | AttrInt n => inr n
  | AttrStr s =>
      match nameToLevel s with
      | Some n => inr n
      | None => inl (ValueError ("Unknown level: " +:+ s))
      end
  | AttrObj => inl (TypeError "Level not an integer or a valid string")
  end.

(** *** Records *)

(** The attributes of a [LogRecord] that the formatters read or write.
    [getMessage] stands for the result of the method of that name,
    [str(msg) % args]: [None] when the interpolation raises.  [exc_info]
    holds the traceback text [formatException] renders for the attached
    exception.  [message] and [asctime] do not exist on a fresh record;
    [Formatter.format] creates them. *)
Record LogRecord := {
  name : string;
  levelno : Z;
  levelname : string;
  module_ : string;
  funcName : string;
  lineno : nat;
  getMessage : option string;
  created : Timestamp;
  msecs : nat;
  exc_info : option string;
  exc_text : option string;
  stack_info : option string;
  message : option string;
  asctime : option string
}.

Definition set_levelname (v : string) (r : LogRecord) : LogRecord :=
  {| name := name r; levelno := levelno r; levelname := v;
     module_ := module_ r; funcName := funcName r; lineno := lineno r;
     getMessage := getMessage r; created := created r; msecs := msecs r;
     exc_info := exc_info r; exc_text := exc_text r;
     stack_info := stack_info r; message := message r;
     asctime := asctime r |}.

Definition set_message (v : option string) (r : LogRecord) : LogRecord :=
  {| name := name r; levelno := levelno r; levelname := levelname r;
     module_ := module_ r; funcName := funcName r; lineno := lineno r;
     getMessage := getMessage r; created := created r; msecs := msecs r;
     exc_info := exc_info r; exc_text := exc_text r;
     stack_info := stack_info r; message := v;
     asctime := asctime r |}.

Definition set_asctime (v : option string) (r : LogRecord) : LogRecord :=
  {| name := name r; levelno := levelno r; levelname := levelname r;
     module_ := module_ r; funcName := funcName r; lineno := lineno r;
     getMessage := getMessage r; created := created r; msecs := msecs r;
     exc_info := exc_info r; exc_text := exc_text r;
     stack_info := stack_info r; message := message r;
     asctime := v |}.

Definition set_exc_text (v : option string) (r : LogRecord) : LogRecord :=
  {| name := name r; levelno := levelno r; levelname := levelname r;
     module_ := module_ r; funcName := funcName r; lineno := lineno r;
     getMessage := getMessage r; created := created r; msecs := msecs r;
     exc_info := exc_info r; exc_text := v;
     stack_info := stack_info r; message := message r;
     asctime := asctime r |}.

(** The call site and payload a logging call captures. *)
Record Call := {
  c_module : string;
  c_funcName : string;
  c_lineno : nat;
  c_message : option string;
  c_time : Timestamp;
  c_msecs : nat;
  c_exc_info : option string
}.

(** [Logger.makeRecord]: the record of a call at level [lvl] on the
    logger [n]. *)
Definition makeRecord (n : string) (lvl : Z) (c : Call) : LogRecord :=
  {| name := n; levelno := lvl; levelname := getLevelName lvl;
     module_ := c_module c; funcName := c_funcName c;
     lineno := c_lineno c; getMessage := c_message c;
     created := c_time c; msecs := c_msecs c;
     exc_info := c_exc_info c; exc_text := None; stack_info := None;
     message := None; asctime := None |}.

(** *** Formatters (the [%] style) *)

Inductive Field := f_asctime | f_levelname | f_name | f_lineno | f_message.

(** A format string, split into literal text and [%(field)s] /
    [%(field)d] references. *)
Inductive Tok :=
| Lit (s : string)
| Fld (f : Field).

(** A formatter instance: its format and its [formatTime] method (an
    instance attribute that [configure_logging] replaces). *)
Record Formatter := {
  fmt : list Tok;
  formatTime : LogRecord → string
}.

(** [time.strftime('%Y-%m-%d %H:%M:%S', ct)]. *)
Definition strftime (t : Timestamp) : string :=
  zfill 4 (dec (year t)) +:+ "-" +:+ zfill 2 (dec (month t)) +:+ "-"
  +:+ zfill 2 (dec (day t)) +:+ " " +:+ zfill 2 (dec (hour t)) +:+ ":"
  +:+ zfill 2 (dec (minute t)) +:+ ":" +:+ zfill 2 (dec (second t)).

Definition is_asctime (t : Tok) : bool :=
  match t with Fld f_asctime => true | _ => false end.

Definition usesTime (f : Formatter) : bool := existsb is_asctime (fmt f).

(** The value [fmt % record.__dict__] substitutes for a field. *)
Definition field_value (r : LogRecord) (f : Field) : string :=
  match f with
  | f_asctime => default "" (asctime r)
  | f_levelname => levelname r
  | f_name => name r
  | f_lineno => dec (lineno r)
  | f_message => default "" (message r)
  end.

Definition tok_value (r : LogRecord) (t : Tok) : string :=
  match t with
  | Lit s => s
  | Fld f => field_value r f
  end.

Fixpoint concat_map {A} (f : A → string) (l : list A) : string :=
  match l with
  | [] => ""
  | x :: l' => f x +:+ concat_map f l'
  end.

Definition formatMessage (f : Formatter) (r : LogRecord) : string :=
  concat_map (tok_value r) (fmt f).

Definition with_trailer (s : string) (extra : string) : string :=
  (if ends_with_newline s then s else s +:+ NL) +:+ extra.

(** The first statements of [Formatter.format]:
    [record.message = record.getMessage()] and, if the format uses the
    time, [record.asctime = self.formatTime(record, self.datefmt)]. *)
Definition store_message (f : Formatter) (m : string) (r : LogRecord)
  : LogRecord :=
  let r1 := set_message (Some m) r in
  if usesTime f then set_asctime (Some (formatTime f r1)) r1 else r1.

(** [if record.exc_info: if not record.exc_text: record.exc_text =
    self.formatException(record.exc_info)]. *)
Definition cache_exc_text (r : LogRecord) : LogRecord :=
  match exc_info r with
  | Some tb => if truthy (exc_text r) then r else set_exc_text (Some tb) r
  | None => r
  end.

(** The two closing [if]s: exception text and stack text, each on a line
    of its own. *)
Definition append_extras (s : string) (r : LogRecord) : string :=
  let s1 := if truthy (exc_text r)
            then with_trailer s (default "" (exc_text r)) else s in
  if truthy (stack_info r)
  then with_trailer s1 (default "" (stack_info r)) else s1.

(** [logging.Formatter.format].  The result is the text, or [None] when
    [record.getMessage()] raises, paired with the record as the call
    leaves it: [message], [asctime] and (for a record with exception
    information) [exc_text] are stored on the record. *)
Definition Formatter_format (f : Formatter) (r : LogRecord)
  : option string * LogRecord :=
  match getMessage r with
  | None => (None, r)
  | Some m =>
      let r2 := store_message f m r in
      let s := formatMessage f r2 in
      let r3 := cache_exc_text r2 in
      (Some (append_extras s r3), r3)
  end.

(** *** Loggers and the hierarchy *)

Record Logger (H : Type) := {
  level : Z;
  handlers : list H;
  propagate : bool
}.
Arguments level {H} _.
Arguments handlers {H} _.
Arguments propagate {H} _.

(** The root logger starts at WARNING; see [fresh]. *)
Record Manager (H : Type) := {
  root : Logger H;
  loggerDict : gmap string (Logger H)
}.
Arguments root {H} _.
Arguments loggerDict {H} _.

(** [name.rfind(".", 0, hi)] and the loop of [Manager._fixupParents]: the
    dotted prefixes of a logger name, nearest first. *)
Fixpoint parents_below (s : string) (hi : nat) : list string :=
  match hi with
  | O => []
  | S h =>
      match String.get h s with
      | Some c =>
          if Ascii.eqb c "."
          then match h with
               | O => []
               | S h' => String.substring 0 h s :: parents_below s h'
               end
          else parents_below s h
      | None => parents_below s h
      end
  end.

Definition parent_names (s : string) : list string :=
  parents_below s (String.length s).

Definition is_root_name (n : string) : bool :=
  String.eqb n "" || String.eqb n "root".

Section Dispatch.
Context {H : Type}.
(** A handler's threshold and its [emit]: the [write] calls it makes
    and the record as it leaves it. *)
Variable hlevel : H → Z.
Variable hemit : H → LogRecord → list Output * LogRecord.

(** A logger as [Logger.__init__] creates it. *)
Definition new_logger : Logger H :=
  {| level := NOTSET; handlers := []; propagate := true |}.

(** The entry of [manager.loggerDict] for a name; a logger that was
    never created behaves as a new one (level NOTSET, no handler,
    propagating), so a missing entry is read as such. *)
Definition lookup_dict (m : Manager H) (n : string) : Logger H :=
  default new_logger (loggerDict m !! n).

(** [logging.getLogger(name)]: the root logger for no name or the
    root's own name, the entry of the dictionary otherwise. *)
Definition getLogger (m : Manager H) (n : string) : Logger H :=
  if is_root_name n then root m else lookup_dict m n.

Definition set_logger (n : string) (lg : Logger H) (m : Manager H)
  : Manager H :=
  if is_root_name n
  then {| root := lg; loggerDict := loggerDict m |}
  else {| root := root m; loggerDict := <[n := lg]> (loggerDict m) |}.

(** The logger named [n] followed by its ancestors up to the root:
    [_fixupParents] looks the dotted prefixes up in the dictionary. *)
Definition chain (m : Manager H) (n : string) : list (Logger H) :=
  if is_root_name n then [root m]
  else map (lookup_dict m) (n :: parent_names n) ++ [root m].

(** [Logger.getEffectiveLevel]. *)
Fixpoint first_level (c : list (Logger H)) : Z :=
  match c with
  | [] => NOTSET
  | lg :: c' => if level lg =? 0 then first_level c' else level lg
  end.

Definition getEffectiveLevel (m : Manager H) (n : string) : Z :=
  first_level (chain m n).

(** [Logger.isEnabledFor], with [manager.disable = 0]. *)
Definition isEnabledFor (m : Manager H) (n : string) (lvl : Z) : bool :=
  if 0 >=? lvl then false else lvl >=? getEffectiveLevel m n.

(** The inner loop of [callHandlers] over one logger's handlers. *)
Fixpoint run_handlers (hs : list H) (r : LogRecord)
  : list Output * LogRecord :=
  match hs with
  | [] => ([], r)
  | h :: hs' =>
      if levelno r >=? hlevel h
      then let '(o1, r1) := hemit h r in
           let '(o2, r2) := run_handlers hs' r1 in
           (o1 ++ o2, r2)
      else run_handlers hs' r
  end.

(** The outer loop: up the hierarchy until a logger does not
    propagate.  The number returned is [found]. *)
Fixpoint walk (c : list (Logger H)) (r : LogRecord)
  : list Output * LogRecord * nat :=
  match c with
  | [] => ([], r, 0%nat)
  | lg :: c' =>
      let '(o1, r1) := run_handlers (handlers lg) r in
      if propagate lg
      then let '(o2, r2, k) := walk c' r1 in
           (o1 ++ o2, r2, (length (handlers lg) + k)%nat)
      else (o1, r1, length (handlers lg))
  end.

(** [logging.lastResort]: a [StreamHandler] on stderr at WARNING with
    the default formatter [%(message)s]. *)
Definition lastResort (r : LogRecord) : list Output * LogRecord :=
  if levelno r >=? 30
  then match Formatter_format
               {| fmt := [Fld f_message]; formatTime := λ _, "" |} r with
       | (Some s, r') => ([(Stderr, s +:+ NL)], r')
       | (None, r') => ([], r')
       end
  else ([], r).

(** [Logger.callHandlers]. *)
Definition callHandlers (m : Manager H) (r : LogRecord)
  : list Output * LogRecord :=
  let '(o, r', found) := walk (chain m (name r)) r in
  if (found =? 0)%nat then lastResort r' else (o, r').

(** [Logger.log(level, ...)] on the logger [n]: what is written. *)
Definition Logger_log (m : Manager H) (n : string) (lvl : Z) (c : Call)
  : list Output :=
  if isEnabledFor m n lvl
  then (callHandlers m (makeRecord n lvl c)).1
  else [].
End Dispatch.

(** The manager of a process that has not configured logging: a root
    logger at WARNING without handlers. *)
Definition fresh {H} : Manager H :=
  {| root := {| level := 30; handlers := []; propagate := true |};
     loggerDict := ∅ |}.

End PyLogging.

(* ===================================================================== *)
(** ** [src/surreality_logging/__init__.py]: the [logging]-based module *)
(* ===================================================================== *)

Module StdImpl.
Import Text PyLogging.

(** [StandardizedFormatter.COLORS] and [RESET]. *)
Definition COLORS (levelname : string) : option string :=
  if String.eqb levelname "DEBUG" then Some (String ESC "[90m")
  else if String.eqb levelname "INFO" then Some (String ESC "[90m")
  else if String.eqb levelname "WARNING" then Some (String ESC "[93m")
  else if String.eqb levelname "ERROR" then Some (String ESC "[91m")
  else if String.eqb levelname "CRITICAL" then Some (String ESC "[91;1m")
  else None.

Definition RESET : string := String ESC "[0m".

(** [StandardizedFormatter.format].  [isatty] is the value of
    [hasattr(sys.stdout, 'isatty') and sys.stdout.isatty()].  When
    [super().format(record)] raises, the exception leaves the method
    before the last assignment. *)
Definition format (isatty : bool) (self : Formatter) (record : LogRecord)
  : option string * LogRecord :=
  let levelname_ := levelname record in
  let colored_levelname :=
    if isatty
    then match COLORS levelname_ with
         | Some c => c +:+ levelname_ +:+ RESET
         | None => levelname_
         end
    else levelname_ in
  let original_levelname := levelname record in
  let record1 := set_levelname colored_levelname record in
  match Formatter_format self record1 with
  | (Some formatted, record2) =>
      (Some formatted, set_levelname original_levelname record2)
  | (None, record2) => (None, record2)
  end.

(** The two handler classes the module instantiates. *)
Inductive Handler :=
| StreamHandler (stream : Sink) (level : Z) (formatter : Formatter)
| RotatingFileHandler (baseFilename : string) (maxBytes backupCount : Z)
                      (level : Z) (formatter : Formatter).

Definition hlevel (h : Handler) : Z :=
  match h with
  | StreamHandler _ l _ => l
  | RotatingFileHandler _ _ _ l _ => l
  end.

Definition hsink (h : Handler) : Sink :=
  match h with
  | StreamHandler s _ _ => s
  | RotatingFileHandler p _ _ _ _ => LogFile p
  end.

Definition hformatter (h : Handler) : Formatter :=
  match h with
  | StreamHandler _ _ f => f
  | RotatingFileHandler _ _ _ _ f => f
  end.

(** [StreamHandler.emit]: format, then write the text and the
    terminator.  An exception raised by [format] is swallowed by
    [handleError], which writes nothing to the sink. *)
Definition stream_emit (isatty : bool) (s : Sink) (f : Formatter)
           (r : LogRecord) : list Output * LogRecord :=
  match format isatty f r with
  | (Some msg, r') => ([(s, msg +:+ NL)], r')
  | (None, r') => ([], r')
  end.

(** [Handler.emit].  A [RotatingFileHandler] with [maxBytes > 0] formats
    the record once in [shouldRollover] to measure it and once more to
    write it; where the line lands among the files is the subject of
    [Rotation]. *)
Definition hemit (isatty : bool) (h : Handler) (r : LogRecord)
  : list Output * LogRecord :=
  match h with
  | StreamHandler s _ f => stream_emit isatty s f r
  | RotatingFileHandler p maxBytes _ _ f =>
      if maxBytes >? 0
      then match format isatty f r with
           | (Some _, r1) => stream_emit isatty (LogFile p) f r1
           | (None, r1) => ([], r1)
           end
      else stream_emit isatty (LogFile p) f r
  end.

(** The arguments of [configure_logging]. *)
Record Args := {
  level : Z;
  service_name : option string;
  include_uvicorn : bool;
  log_file : option string;
  max_bytes : Z;
  backup_count : Z
}.

(** [configure_logging(level)] with every other argument at its default. *)
Definition defaults (lvl : Z) : Args :=
  {| level := lvl; service_name := None; include_uvicorn := true;
     log_file := None; max_bytes := 100 * 1024 * 1024; backup_count := 5 |}.

(** [log_format].  The f-string splices the service name into a
    [%]-format string.  A name without [%] is literal text of the format,
    which is what this definition gives.  A name with [%] is read as part
    of the format by the [%] operator, which then raises or substitutes;
    that is not modelled: the statements that say a line is written, or
    what it reads, for a given service name carry [Props.literal_label],
    which excludes such a name. *)
Definition log_format (service_name : option string) : list Tok :=
  if truthy service_name
  then [Lit "["; Fld f_asctime; Lit "] ["; Fld f_levelname; Lit "] [";
        Lit (default "" service_name); Lit "] ["; Fld f_name; Lit ":";
        Fld f_lineno; Lit "] "; Fld f_message]
  else [Lit "["; Fld f_asctime; Lit "] ["; Fld f_levelname; Lit "] [";
        Fld f_name; Lit ":"; Fld f_lineno; Lit "] "; Fld f_message].

(** The replacement [formatTime]: the base class's text for
    [datefmt='%Y-%m-%d %H:%M:%S'], a comma, and the milliseconds as
    [f"{record.msecs:03.0f}"] ([msecs] being the rounded value). *)
Definition format_time_with_ms (record : LogRecord) : string :=
  let ct := strftime (created record) in
  let msecs_ := zfill 3 (dec (msecs record)) in
  ct +:+ "," +:+ msecs_.

Definition make_formatter (service_name : option string) : Formatter :=
  {| fmt := log_format service_name; formatTime := format_time_with_ms |}.

Definition addHandler (h : Handler) (lg : Logger Handler) : Logger Handler :=
  {| PyLogging.level := PyLogging.level lg;
     handlers := handlers lg ++ [h];
     propagate := propagate lg |}.

Definition setLevel (l : Z) (lg : Logger Handler) : Logger Handler :=
  {| PyLogging.level := l; handlers := handlers lg;
     propagate := propagate lg |}.

Definition clear_handlers (lg : Logger Handler) : Logger Handler :=
  {| PyLogging.level := PyLogging.level lg; handlers := [];
     propagate := propagate lg |}.

Definition set_propagate (b : bool) (lg : Logger Handler) : Logger Handler :=
  {| PyLogging.level := PyLogging.level lg; handlers := handlers lg;
     propagate := b |}.

(** One turn of the loop of [configure_uvicorn_logging]. *)
Definition configure_one (formatter : Formatter) (lvl : Z)
           (log_file : option string) (max_bytes backup_count : Z)
           (m : Manager Handler) (logger_name : string) : Manager Handler :=
  let logger := getLogger m logger_name in
  let logger := clear_handlers logger in
  let logger := setLevel lvl logger in
  let logger := set_propagate false logger in
  let console_handler := StreamHandler Stdout NOTSET formatter in
  let logger := addHandler console_handler logger in
  let logger :=
    if truthy log_file
    then addHandler (RotatingFileHandler (default "" log_file) max_bytes
                       backup_count NOTSET formatter) logger
    else logger in
  set_logger logger_name logger m.

Definition uvicorn_names : list string :=
  ["uvicorn"; "uvicorn.error"; "uvicorn.access"].

(** [configure_uvicorn_logging]. *)
Definition configure_uvicorn_logging (formatter : Formatter) (lvl : Z)
           (log_file : option string) (max_bytes backup_count : Z)
           (m : Manager Handler) : Manager Handler :=
  let m1 := foldl (configure_one formatter lvl log_file max_bytes
                     backup_count) m uvicorn_names in
  set_logger "uvicorn.access"
    (setLevel 30 (getLogger m1 "uvicorn.access")) m1.

(** [configure_logging], as a transformer of the process-wide logging
    state.  The two [logging.info] calls that report the configuration
    write through the handlers just attached and leave the state as it
    is; directory creation and the opening of the file act on the file
    system only. *)
Definition configure_logging (a : Args) (m : Manager Handler)
  : Manager Handler :=
  let formatter := make_formatter (service_name a) in
  let console_handler := StreamHandler Stdout (level a) formatter in
  let root_logger := root m in
  let root_logger := setLevel (level a) root_logger in
  let root_logger := clear_handlers root_logger in
  let root_logger := addHandler console_handler root_logger in
  let root_logger :=
    if truthy (log_file a)
    then addHandler (RotatingFileHandler (default "" (log_file a))
                       (max_bytes a) (backup_count a) (level a) formatter)
           root_logger
    else root_logger in
  let m1 := {| root := root_logger; loggerDict := loggerDict m |} in
  if include_uvicorn a
  then configure_uvicorn_logging formatter (level a) (log_file a)
         (max_bytes a) (backup_count a) m1
  else m1.

(** [get_logger(name)]: [logging.getLogger(name)], the logger object of
    that name (the root logger for the root's names). *)
Definition get_logger (n : string) : Handle :=
  if is_root_name n then StdLogger "root" else StdLogger n.

(** A logging call at level [lvl] on [logging.getLogger(n)]: what
    reaches the sinks. *)
Definition emit (isatty : bool) (m : Manager Handler) (n : string)
           (lvl : Z) (c : Call) : list Output :=
  Logger_log hlevel (hemit isatty) m n lvl c.

(** The sinks attached to a logger. *)
Definition sinks_of (lg : Logger Handler) : list Sink :=
  map hsink (handlers lg).

End StdImpl.

(* ===================================================================== *)
(** ** Loguru: levels, format markup, handlers, dispatch *)
(* ===================================================================== *)

(** A model of the parts of Loguru that the second source drives:
    [logger.remove()], [logger.add(...)], [logger.level(name)],
    [logger.log(level, message)] and the rendering of a format string with
    colour markup. *)
Module Loguru.
Import Text.

Definition code (n : string) : string := String ESC ("[" +:+ n +:+ "m").

(** The built-in level table: number and colour of each level name (its
    [color] markup rendered to ANSI codes). *)
Definition levels (n : string) : option (Z * string) :=
  if String.eqb n "TRACE" then Some (5, code "36" +:+ code "1")
  else if String.eqb n "DEBUG" then Some (10, code "34" +:+ code "1")
  else if String.eqb n "INFO" then Some (20, code "1")
  else if String.eqb n "SUCCESS" then Some (25, code "32" +:+ code "1")
  else if String.eqb n "WARNING" then Some (30, code "33" +:+ code "1")
  else if String.eqb n "ERROR" then Some (40, code "31" +:+ code "1")
  else if String.eqb n "CRITICAL" then Some (50, code "41" +:+ code "1")
  else None.

Inductive Exn :=
| ValueError (what : string).

(** A level given to [logger.add] or [logger.log]: a name or a number. *)
Inductive LevelArg :=
| ByName (n : string)
| ByNo (k : Z).

(** The record Loguru builds for one logging call. *)
Record Record_ := {
  time : Timestamp;
  msec : nat;
  level_name : string;
  level_no : Z;
  level_ansi : string;
  name : option string;
  function : string;
  line : nat;
  message : string;
  exception : option string
}.

Inductive Tag := green | cyan | level.

Inductive Field := f_time | f_level8 | f_name | f_function | f_line | f_message.

(** A format string split into literal text, markup tags and fields:
    [{time:YYYY-MM-DD HH:mm:ss.SSS}], [{level: <8}], [{name}],
    [{function}], [{line}], [{message}]. *)
Inductive Tok :=
| Lit (s : string)
| Open (t : Tag)
| Close (t : Tag)
| Fld (f : Field).

Definition format_time (r : Record_) : string :=
  zfill 4 (dec (year (time r))) +:+ "-" +:+ zfill 2 (dec (month (time r)))
  +:+ "-" +:+ zfill 2 (dec (day (time r))) +:+ " "
  +:+ zfill 2 (dec (hour (time r))) +:+ ":"
  +:+ zfill 2 (dec (minute (time r))) +:+ ":"
  +:+ zfill 2 (dec (second (time r))) +:+ "." +:+ zfill 3 (dec (msec r)).

Definition field_value (r : Record_) (f : Field) : string :=
  match f with
  | f_time => format_time r
  | f_level8 => ljust 8 (level_name r)
  | f_name => default "None" (name r)
  | f_function => function r
  | f_line => dec (line r)
  | f_message => message r
  end.

Definition tag_code (r : Record_) (t : Tag) : string :=
  match t with
  | green => code "32"
  | cyan => code "36"
  | level => level_ansi r
  end.

Fixpoint concat (l : list string) : string :=
  match l with
  | [] => ""
  | x :: l' => x +:+ concat l'
  end.

(** Rendering.  With [colorize] an opening tag becomes its ANSI code and
    a closing tag a reset followed by the codes of the tags still open
    ([open], innermost first); without it the tags are dropped. *)
Fixpoint render (colorize : bool) (r : Record_) (open : list string)
         (ts : list Tok) : string :=
  match ts with
  | [] => ""
  | Lit s :: ts' => s +:+ render colorize r open ts'
  | Fld f :: ts' => field_value r f +:+ render colorize r open ts'
  | Open t :: ts' =>
      if colorize
      then tag_code r t +:+ render colorize r (tag_code r t :: open) ts'
      else render colorize r open ts'
  | Close t :: ts' =>
      if colorize
      then code "0" +:+ concat (rev (tail open))
           +:+ render colorize r (tail open) ts'
      else render colorize r open ts'
  end.

(** A handler as [logger.add] registers it. *)
Record Handler := {
  sink : Sink;
  levelno : Z;
  format : list Tok;
  colorize : bool;
  rotation : option Z;
  retention : option Z;
  compression : option string
}.

(** The handlers of the one global logger, oldest first. *)
Definition Core : Type := list Handler.

(** [logger.remove()] without an id. *)
Definition remove (c : Core) : Core := [].

(** The number of a level argument, as [logger.add] resolves it. *)
Definition resolve_levelno (l : LevelArg) : Exn + Z :=
  match l with
  | ByName n =>
      match levels n with
      | Some (k, _) => inr k
      | None => inl (ValueError ("Level '" +:+ n +:+ "' does not exist"))
      end
  | ByNo k =>
      if k <? 0
      then inl (ValueError "Invalid level value, it should be a positive integer")
      else inr k
  end.

(** [logger.add(sink, format=..., level=..., colorize=..., ...)].  Only
    when [colorize] is [None] does Loguru decide by itself: no colour
    for a file, the stream's [isatty] for a stream.  An explicit value
    is used as given. *)
Definition add (s : Sink) (isatty : bool) (fmt : list Tok) (l : LevelArg)
           (col : option bool) (rot ret : option Z) (comp : option string)
           (c : Core) : Exn + Core :=
  match resolve_levelno l with
  | inl e => inl e
  | inr k =>
      let col' := match col with
                  | Some b => b
                  | None => match s with
                            | LogFile _ => false
                            | _ => isatty
                            end
                  end in
      inr (c ++ [{| sink := s; levelno := k; format := fmt;
                    colorize := col'; rotation := rot; retention := ret;
                    compression := comp |}])
  end.

(** The site and payload of one call on the logger. *)
Record Call := {
  c_time : Timestamp;
  c_msec : nat;
  c_name : option string;
  c_function : string;
  c_line : nat;
  c_message : string;
  c_exception : option string
}.

(** Name, number and colour of the level of a [logger.log] call; a
    number that is not negative is the level ["Level n"] without
    colour. *)
Definition resolve_level (l : LevelArg) : Exn + (string * Z * string) :=
  match l with
  | ByName n =>
      match levels n with
      | Some (k, a) => inr (n, k, a)
      | None => inl (ValueError ("Level '" +:+ n +:+ "' does not exist"))
      end
  | ByNo k =>
      if k <? 0
      then inl (ValueError "Invalid level value, it should be a positive integer")
      else inr ("Level " +:+ NilEmpty.string_of_int (Z.to_int k), k, "")
  end.

Definition make_record (lv : string * Z * string) (c : Call) : Record_ :=
  {| time := c_time c; msec := c_msec c;
     level_name := lv.1.1; level_no := lv.1.2; level_ansi := lv.2;
     name := c_name c; function := c_function c; line := c_line c;
     message := c_message c; exception := c_exception c |}.

(** What a handler writes for a record: the rendered format, a newline
    and the exception text (a string format is completed with
    ["\n{exception}"]). *)
Definition formatted (h : Handler) (r : Record_) : string :=
  render (colorize h) r [] (format h) +:+ NL +:+ default "" (exception r).

(** [Handler.emit]: a record below the handler's level is skipped. *)
Definition handler_emit (h : Handler) (r : Record_) : list Output :=
  if levelno h >? level_no r then [] else [(sink h, formatted h r)].

Definition emit_all (c : Core) (r : Record_) : list Output :=
  flat_map (λ h, handler_emit h r) c.

(** [logger.log(level, message)]. *)
Definition log (c : Core) (l : LevelArg) (call : Call) : Exn + list Output :=
  match resolve_level l with
  | inl e => inl e
  | inr lv => inr (emit_all c (make_record lv call))
  end.

(** [logger.level(name).name]. *)
Definition level_name_of (n : string) : Exn + string :=
  match levels n with
  | Some _ => inr n
  | None => inl (ValueError ("Level '" +:+ n +:+ "' does not exist"))
  end.

End Loguru.

(* ===================================================================== *)
(** ** [src/python/surreality_logging/__init__.py]: the Loguru-based module *)
(* ===================================================================== *)

Module LoguruImpl.
Import Text.

(** The handlers found on [logging] loggers: the module's
    [InterceptHandler], and the plain stream handlers that the facade or
    a framework may have attached before (level, default format
    [%(message)s]). *)
Inductive PyHandler :=
| InterceptHandler
| PlainHandler (stream : Sink) (level : Z).

(** The process-wide state the module configures: Loguru's handlers and
    the [logging] hierarchy. *)
Record World := {
  core : Loguru.Core;
  py : PyLogging.Manager PyHandler
}.

Inductive Exn :=
| LoguruError (e : Loguru.Exn)
| LoggingError (e : PyLogging.Exn).

(** How a configuration call ends, and the state it leaves. *)
Inductive Outcome :=
| Done (w : World)
| Raised (e : Exn) (w : World).

Definition state_of (o : Outcome) : World :=
  match o with Done w => w | Raised _ w => w end.

Definition succeeded (o : Outcome) : bool :=
  match o with Done _ => true | Raised _ _ => false end.

(** A level as the caller may write it in [additional_loggers]: a string
    or a number. *)
Inductive LevelVal :=
| LvlStr (s : string)
| LvlInt (k : Z).

(** An element of [additional_loggers]: a logger name, or a
    [(name, level)] tuple. *)
Inductive LoggerSpec :=
| SpecName (n : string)
| SpecTuple (n : string) (l : LevelVal).

Record Args := {
  level : string;
  service_name : option string;
  intercept_stdlib : bool;
  additional_loggers : option (list LoggerSpec);
  log_file : option string;
  max_bytes : Z;
  backup_count : Z;
  colorize : bool
}.

(** [configure_logging(level)] with every other argument at its default. *)
Definition defaults (lvl : string) : Args :=
  {| level := lvl; service_name := None; intercept_stdlib := true;
     additional_loggers := None; log_file := None;
     max_bytes := 100 * 1024 * 1024; backup_count := 5;
     colorize := true |}.

(** The format with markup (line 64 of the source). *)
Definition colored_format : list Loguru.Tok :=
  [Loguru.Open Loguru.green; Loguru.Fld Loguru.f_time;
   Loguru.Close Loguru.green; Loguru.Lit " | ";
   Loguru.Open Loguru.level; Loguru.Fld Loguru.f_level8;
   Loguru.Close Loguru.level; Loguru.Lit " | ";
   Loguru.Open Loguru.cyan; Loguru.Fld Loguru.f_name;
   Loguru.Close Loguru.cyan; Loguru.Lit ":";
   Loguru.Open Loguru.cyan; Loguru.Fld Loguru.f_function;
   Loguru.Close Loguru.cyan; Loguru.Lit ":";
   Loguru.Open Loguru.cyan; Loguru.Fld Loguru.f_line;
   Loguru.Close Loguru.cyan; Loguru.Lit " - ";
   Loguru.Open Loguru.level; Loguru.Fld Loguru.f_message;
   Loguru.Close Loguru.level].

(** The format without markup (lines 67 and 87). *)
Definition plain_format : list Loguru.Tok :=
  [Loguru.Fld Loguru.f_time; Loguru.Lit " | ";
   Loguru.Fld Loguru.f_level8; Loguru.Lit " | ";
   Loguru.Fld Loguru.f_name; Loguru.Lit ":";
   Loguru.Fld Loguru.f_function; Loguru.Lit ":";
   Loguru.Fld Loguru.f_line; Loguru.Lit " - ";
   Loguru.Fld Loguru.f_message].

Definition hlevel (h : PyHandler) : Z :=
  match h with
  | InterceptHandler => PyLogging.NOTSET
  | PlainHandler _ l => l
  end.

(** What the shim's call of Loguru depends on besides the record: the
    interpreter, and Loguru's own clock.  [getframe1] tells whether
    [logging.currentframe] is [sys._getframe(1)], as it is from Python 3.11
    on (up to 3.10 it is [sys._getframe(3)]; [setup.py] admits 3.8 and
    later); [handle_line] is the line of the call [hdlr.handle(record)] in
    [Logger.callHandlers] of the interpreter's [logging/__init__.py];
    [caller_name] is the [__name__] of the module that made the logging
    call; [now] and [now_msec] are the time Loguru reads when [log] runs,
    which is not the record's [created]. *)
Record Env := {
  getframe1 : bool;
  handle_line : nat;
  caller_name : option string;
  now : Timestamp;
  now_msec : nat
}.

(** The frame walk of [emit] and the frame [logger.opt(depth=depth)]
    selects, as module name, function and line.  Up to Python 3.10
    [logging.currentframe()] is the frame of [Logger.callHandlers]; the
    loop climbs out of [logging/__init__.py], counting, and [depth] ends
    at the frame of the logging call, the one [findCaller] put on the
    record.  From 3.11 on [logging.currentframe()] is the frame of [emit]
    itself, whose file is not [logging/__init__.py]: the loop does not
    run, [depth] stays 2, and two calls above [emit] is
    [Logger.callHandlers] in the module [logging]. *)
Definition call_site (env : Env) (record : PyLogging.LogRecord)
  : option string * string * nat :=
  if getframe1 env
  then (Some "logging", "callHandlers", handle_line env)
  else (caller_name env, PyLogging.funcName record, PyLogging.lineno record).

(** [InterceptHandler.emit]: the Loguru level of the same name if there
    is one, else the record's number; the message and the exception of
    the record; call site and time as Loguru finds them. *)
Definition intercept_emit (c : Loguru.Core) (env : Env)
           (record : PyLogging.LogRecord)
  : list Output :=
  let lvl :=
    match Loguru.level_name_of (PyLogging.levelname record) with
    | inr n => Loguru.ByName n
    | inl _ => Loguru.ByNo (PyLogging.levelno record)
    end in
  match PyLogging.getMessage record with
  | None => []
  | Some msg =>
      match Loguru.log c lvl
              {| Loguru.c_time := now env;
                 Loguru.c_msec := now_msec env;
                 Loguru.c_name := (call_site env record).1.1;
                 Loguru.c_function := (call_site env record).1.2;
                 Loguru.c_line := (call_site env record).2;
                 Loguru.c_message := msg;
                 Loguru.c_exception := PyLogging.exc_info record |} with
      | inr out => out
      | inl _ => []
      end
  end.

Definition plain_emit (s : Sink) (r : PyLogging.LogRecord)
  : list Output * PyLogging.LogRecord :=
  match PyLogging.Formatter_format
          {| PyLogging.fmt := [PyLogging.Fld PyLogging.f_message];
             PyLogging.formatTime := λ _, "" |} r with
  | (Some s', r') => ([(s, s' +:+ NL)], r')
  | (None, r') => ([], r')
  end.

Definition hemit (c : Loguru.Core) (env : Env) (h : PyHandler)
           (r : PyLogging.LogRecord)
  : list Output * PyLogging.LogRecord :=
  match h with
  | InterceptHandler => (intercept_emit c env r, r)
  | PlainHandler s _ => plain_emit s r
  end.

(** [logging.basicConfig(handlers=[InterceptHandler()], level=0,
    force=True)]: the root logger keeps this one handler. *)
Definition basicConfig_force (m : PyLogging.Manager PyHandler)
  : PyLogging.Manager PyHandler :=
  {| PyLogging.root :=
       {| PyLogging.level := 0;
          PyLogging.handlers := [InterceptHandler];
          PyLogging.propagate := PyLogging.propagate (PyLogging.root m) |};
     PyLogging.loggerDict := PyLogging.loggerDict m |}.

(** [loggers_to_configure]: the built-in entries, then the caller's. *)
Definition loggers_to_configure (lvl : string)
           (additional : option (list LoggerSpec))
  : list (string * LevelVal) :=
  [("uvicorn", LvlStr lvl); ("uvicorn.error", LvlStr lvl);
   ("uvicorn.access", LvlStr "WARNING")]
  ++ match additional with
     | Some l =>
         map (λ logger_spec,
                match logger_spec with
                | SpecTuple n l' => (n, l')
                | SpecName n => (n, LvlStr lvl)
                end) l
     | None => []
     end.

(** [getattr(logging, logger_level.upper(), logging.INFO)] for a string,
    the number itself otherwise. *)
Definition convert_level (l : LevelVal) : PyLogging.Attr :=
  match l with
  | LvlStr s => default (PyLogging.AttrInt 20)
                  (PyLogging.module_attr (upper s))
  | LvlInt k => PyLogging.AttrInt k
  end.

(** The body of the loop "Configure all specified loggers": handlers and
    propagation are set before the level is converted and checked. *)
Definition configure_one (m : PyLogging.Manager PyHandler)
           (spec : string * LevelVal)
  : PyLogging.Exn + PyLogging.Manager PyHandler :=
  let '(logger_name, logger_level) := spec in
  let lg := PyLogging.getLogger m logger_name in
  match PyLogging.checkLevel (convert_level logger_level) with
  | inr k =>
      inr (PyLogging.set_logger logger_name
             {| PyLogging.level := k;
                PyLogging.handlers := [InterceptHandler];
                PyLogging.propagate := false |} m)
  | inl e => inl e
  end.

(** The state a failing turn leaves behind: the two assignments are
    done, the level is not. *)
Definition half_configured (m : PyLogging.Manager PyHandler)
           (logger_name : string) : PyLogging.Manager PyHandler :=
  PyLogging.set_logger logger_name
    {| PyLogging.level := PyLogging.level (PyLogging.getLogger m logger_name);
       PyLogging.handlers := [InterceptHandler];
       PyLogging.propagate := false |} m.

Fixpoint configure_all (m : PyLogging.Manager PyHandler)
         (specs : list (string * LevelVal))
  : option PyLogging.Exn * PyLogging.Manager PyHandler :=
  match specs with
  | [] => (None, m)
  | spec :: rest =>
      match configure_one m spec with
      | inr m' => configure_all m' rest
      | inl e => (Some e, half_configured m spec.1)
      end
  end.

(** [intercept_standard_logging(level, additional_loggers)]. *)
Definition intercept_standard_logging (lvl : string)
           (additional : option (list LoggerSpec)) (w : World) : Outcome :=
  let m := basicConfig_force (py w) in
  match configure_all m (loggers_to_configure lvl additional) with
  | (None, m') => Done {| core := core w; py := m' |}
  | (Some e, m') => Raised (LoggingError e) {| core := core w; py := m' |}
  end.

(** [configure_logging].  The two [logger.info] calls that report the
    configuration write through the sinks just added and leave the state
    as it is; directory creation acts on the file system only.
    [stdout_isatty] is [sys.stdout.isatty()]. *)
Definition configure_logging (stdout_isatty : bool) (a : Args) (w : World)
  : Outcome :=
  let c0 := Loguru.remove (core w) in
  let log_format := if colorize a then colored_format else plain_format in
  match Loguru.add Stdout stdout_isatty log_format (Loguru.ByName (level a))
          (Some (colorize a)) None None None c0 with
  | inl e => Raised (LoguruError e) {| core := c0; py := py w |}
  | inr c1 =>
      let file_step :=
        if truthy (log_file a)
        then Loguru.add (LogFile (default "" (log_file a))) false
               plain_format (Loguru.ByName (level a)) None
               (Some (max_bytes a)) (Some (backup_count a)) (Some "zip") c1
        else inr c1 in
      match file_step with
      | inl e => Raised (LoguruError e) {| core := c1; py := py w |}
      | inr c2 =>
          let w2 := {| core := c2; py := py w |} in
          if intercept_stdlib a
          then intercept_standard_logging (level a) (additional_loggers a) w2
          else Done w2
      end
  end.

(** [from loguru import logger]: the one global logger object. *)
Definition logger : Handle := LoguruLogger.

(** [get_logger(name)]. *)
Definition get_logger (name : option string) : Handle := logger.

(** A call [logger.log(level, message)] on the global logger. *)
Definition emit (w : World) (l : Loguru.LevelArg) (c : Loguru.Call)
  : Loguru.Exn + list Output :=
  Loguru.log (core w) l c.

(** A call at level [lvl] on the [logging] logger named [n]. *)
Definition emit_stdlib (w : World) (env : Env) (n : string) (lvl : Z)
           (c : PyLogging.Call) : list Output :=
  PyLogging.Logger_log hlevel (hemit (core w) env) (py w) n lvl c.

(** The state of a process that has configured nothing: Loguru's default
    handler on stderr at DEBUG, and an untouched [logging] hierarchy. *)
Definition initial (stderr_isatty : bool) : World :=
  {| core := [{| Loguru.sink := Stderr; Loguru.levelno := 10;
                 Loguru.format := colored_format;
                 Loguru.colorize := stderr_isatty;
                 Loguru.rotation := None; Loguru.retention := None;
                 Loguru.compression := None |}];
     py := PyLogging.fresh |}.

End LoguruImpl.

(* ===================================================================== *)
(** ** Rotation of the log file *)
(* ===================================================================== *)

(** Both sources delegate rotation to their library: the first to
    [logging.handlers.RotatingFileHandler(log_file, maxBytes=max_bytes,
    backupCount=backup_count)], the second to Loguru's file sink with
    [rotation=max_bytes, retention=backup_count, compression="zip"].  A
    file is its content; its size is the number of bytes of the content
    in UTF-8, the encoding both sources open the file with. *)
Module Rotation.
Import Text.

(** *** [RotatingFileHandler] *)

(** The files of one handler: the active file [base] and the backups
    [base.1], [base.2], ... by their number. *)
Record Dir := {
  active : string;
  backup : gmap nat string
}.

(** The directory when the handler has just opened a file with content
    [c] and no backup exists. *)
Definition opened (c : string) : Dir := {| active := c; backup := ∅ |}.

(** One turn of the loop of [doRollover]: if [base.i] exists, remove
    [base.(i+1)] if it exists and rename [base.i] to it. *)
Definition shift_one {A} (fs : gmap nat A) (i : nat) : gmap nat A :=
  match fs !! i with
  | Some c => <[S i := c]> (delete i (delete (S i) fs))
  | None => fs
  end.

(** [for i in range(k, 0, -1)]. *)
Fixpoint shift_from {A} (k : nat) (fs : gmap nat A) : gmap nat A :=
  match k with
  | O => fs
  | S k' => shift_from k' (shift_one fs (S k'))
  end.

(** [RotatingFileHandler.doRollover]: with [backupCount > 0] the backups
    move up by one, [base.1] is removed if it is still there, the active
    file becomes [base.1], and a new file is opened.  With [backupCount =
    0] the stream is closed and opened again in append mode: nothing
    moves. *)
Definition doRollover (backupCount : nat) (d : Dir) : Dir :=
  match backupCount with
  | O => d
  | S k =>
      {| active := "";
         backup := <[1%nat := active d]> (delete 1%nat (shift_from k (backup d))) |}
  end.

(** [RotatingFileHandler.shouldRollover] for the formatted text [msg]:
    [self.stream.tell() + len(msg) >= self.maxBytes] after
    [self.stream.seek(0, 2)], [msg] being the text and its newline.  The
    file is opened with [encoding='utf-8'], so [tell()] is the size of the
    file in bytes, while [len(msg)] counts characters.  [never_empty]
    tells whether the library refuses to roll over an empty file, as
    later versions of CPython do. *)
Definition shouldRollover (never_empty : bool) (maxBytes : Z) (d : Dir)
           (msg : string) : bool :=
  if maxBytes >? 0
  then if never_empty && (utf8_len (active d) =? 0)%nat
       then false
       else Z.of_nat (utf8_len (active d))
            + Z.of_nat (String.length (msg +:+ NL)) >=? maxBytes
  else false.

Definition write (msg : string) (d : Dir) : Dir :=
  {| active := active d +:+ msg +:+ NL; backup := backup d |}.

(** [BaseRotatingHandler.emit]. *)
Definition emit (never_empty : bool) (maxBytes : Z) (backupCount : nat)
           (d : Dir) (msg : string) : Dir :=
  if shouldRollover never_empty maxBytes d msg
  then write msg (doRollover backupCount d)
  else write msg d.

Definition run (never_empty : bool) (maxBytes : Z) (backupCount : nat)
           (d : Dir) (msgs : list string) : Dir :=
  foldl (emit never_empty maxBytes backupCount) d msgs.

(** The contents of [base.1], ..., [base.n]. *)
Definition slots (n : nat) (d : Dir) : list (option string) :=
  map (λ i, backup d !! i) (seq 1 n).

(** A sequence of rollovers, the active file holding [c] when the
    rollover for [c] happens. *)
Definition rollovers (backupCount : nat) (d : Dir) (cs : list string) : Dir :=
  foldl (λ d c, doRollover backupCount {| active := c; backup := backup d |})
        d cs.

(** *** Loguru's file sink *)

(** The active file and the rotated files, newest first. *)
Record LDir := {
  l_active : string;
  l_rotated : list string
}.

(** [Rotation.rotation_size]: [file.tell() + len(message) > size_limit]
    after [file.seek(0, 2)]; the file is opened with [encoding='utf-8'],
    so [tell()] is its size in bytes, while [len(message)] counts
    characters. *)
Definition should_rotate (limit : Z) (d : LDir) (message : string) : bool :=
  Z.of_nat (utf8_len (l_active d))
  + Z.of_nat (String.length message) >? limit.

(** [FileSink._terminate_file(is_rotating=True)]: the active file is
    renamed and compressed, [Retention.retention_count] keeps the
    [number] most recent rotated files, and a new file is created. *)
Definition terminate_file (number : nat) (d : LDir) : LDir :=
  {| l_active := ""; l_rotated := take number (l_active d :: l_rotated d) |}.

(** [FileSink.write]. *)
Definition l_write (limit : Z) (number : nat) (d : LDir) (message : string)
  : LDir :=
  let d' := if should_rotate limit d message
            then terminate_file number d else d in
  {| l_active := l_active d' +:+ message; l_rotated := l_rotated d' |}.

Definition l_run (limit : Z) (number : nat) (d : LDir)
           (messages : list string) : LDir :=
  foldl (l_write limit number) d messages.


End Rotation.

(* ===================================================================== *)
(** ** Several rotating handlers on one path *)
(* ===================================================================== *)

(** With [log_file] and [include_uvicorn] the [logging]-based module
    creates four [RotatingFileHandler]s on the same path: one on the root
    logger and one on each Uvicorn logger.  Each opens the file for itself
    and decides and performs rollovers on its own.  The file system is a
    POSIX one: a file is an inode, a name is a link to an inode, and an
    open stream stays on its inode when the name is moved or removed.
    With one handler this is the directory of [Rotation]. *)
Module Shared.
Import Text.

(** The contents of the inodes, the inode linked as [base], the inodes
    linked as [base.1], [base.2], ..., and the number of the next inode to
    be created. *)
Record FS := {
  content : gmap nat string;
  base : option nat;
  backup : gmap nat nat;
  next : nat
}.

Definition read (fs : FS) (i : nat) : string := default "" (content fs !! i).

(** [open(baseFilename, "a", encoding="utf-8")]: the file is created if
    the name does not exist; the stream is on the inode of the name. *)
Definition open_append (fs : FS) : FS * nat :=
  match base fs with
  | Some i => (fs, i)
  | None =>
      ({| content := <[next fs := ""]> (content fs); base := Some (next fs);
          backup := backup fs; next := S (next fs) |}, next fs)
  end.

(** A stream opened for appending: the inode it is on and its position
    in bytes, which is the size of the file when the stream was opened
    or after the last write through it.  What other streams append to the
    inode does not move it. *)
Record Stream := {
  inode : nat;
  pos : nat
}.

(** The stream on the inode [i] after [open] or after a write and
    [flush]: at the end of the file. *)
Definition at_end (f : FS) (i : nat) : Stream :=
  {| inode := i; pos := utf8_len (read f i) |}.

(** The file system and the stream of each handler. *)
Record State := {
  fs : FS;
  streams : list Stream
}.

(** A directory holding the file [base] with content [c0] and no backup,
    and [k] handlers just created on it. *)
Definition opened (c0 : string) (k : nat) : State :=
  {| fs := {| content := {[ 0%nat := c0 ]}; base := Some 0%nat;
              backup := ∅; next := 1 |};
     streams := repeat {| inode := 0%nat; pos := utf8_len c0 |} k |}.

(** [self.stream.tell()] in [shouldRollover].  The library of Python 3.11
    calls [self.stream.seek(0, 2)] before: the answer is the size of the
    file the stream is on.  [seeks] tells whether the library does so;
    a library that does not gets the position of the stream. *)
Definition tell (seeks : bool) (f : FS) (s : Stream) : nat :=
  if seeks then utf8_len (read f (inode s)) else pos s.

(** [shouldRollover] of a handler whose stream is [s]; [never_empty]
    tells whether the library refuses to roll over when [tell()] is 0. *)
Definition shouldRollover (never_empty seeks : bool) (maxBytes : Z) (f : FS)
           (s : Stream) (msg : string) : bool :=
  if maxBytes >? 0
  then if never_empty && (tell seeks f s =? 0)%nat
       then false
       else Z.of_nat (tell seeks f s)
            + Z.of_nat (String.length (msg +:+ NL)) >=? maxBytes
  else false.

(** [self.rotate(self.baseFilename, dfn)]: [os.rename] if the source
    exists. *)
Definition rotate (f : FS) (names : gmap nat nat) : FS :=
  match base f with
  | Some i => {| content := content f; base := None;
                 backup := <[1%nat := i]> names; next := next f |}
  | None => {| content := content f; base := None;
               backup := names; next := next f |}
  end.

(** [doRollover]: the stream is closed; with [backupCount > 0] the names
    [base.i] move up, [base.1] is removed if it is still there and [base]
    is renamed to it; then [base] is opened again.  The file system after
    it and the inode of the new stream. *)
Definition doRollover (backupCount : nat) (f : FS) : FS * nat :=
  match backupCount with
  | O => open_append f
  | S k =>
      open_append
        (rotate f (delete 1%nat (Rotation.shift_from k (backup f))))
  end.

Definition write (i : nat) (msg : string) (f : FS) : FS :=
  {| content := <[i := read f i +:+ msg +:+ NL]> (content f);
     base := base f; backup := backup f; next := next f |}.

(** [emit] of the handler number [h]: the rollover when it is due, then
    the line is written and flushed, which leaves the stream at the end
    of its file. *)
Definition emit (never_empty seeks : bool) (maxBytes : Z) (backupCount : nat)
           (st : State) (h : nat) (msg : string) : State :=
  match streams st !! h with
  | None => st
  | Some s =>
      let '(f1, i1) :=
        if shouldRollover never_empty seeks maxBytes (fs st) s msg
        then doRollover backupCount (fs st)
        else (fs st, inode s) in
      {| fs := write i1 msg f1;
         streams := <[h := at_end (write i1 msg f1) i1]> (streams st) |}
  end.

(** Whether the record makes its handler roll over. *)
Definition rolls (never_empty seeks : bool) (maxBytes : Z) (st : State)
           (h : nat) (msg : string) : bool :=
  match streams st !! h with
  | None => false
  | Some s => shouldRollover never_empty seeks maxBytes (fs st) s msg
  end.

(** A sequence of records, each with the number of the handler that
    receives it: the state it leads to and the number of rollovers on the
    way. *)
Fixpoint run (never_empty seeks : bool) (maxBytes : Z) (backupCount : nat)
         (st : State) (records : list (nat * string)) : State * nat :=
  match records with
  | [] => (st, 0%nat)
  | (h, msg) :: rest =>
      let '(st', k) := run never_empty seeks maxBytes backupCount
                         (emit never_empty seeks maxBytes backupCount st h msg)
                         rest in
      (st',
       ((if rolls never_empty seeks maxBytes st h msg then 1 else 0)
        + k)%nat)
  end.

(** The files as their names show them: the directory of [Rotation]. *)
Definition view (f : FS) : Rotation.Dir :=
  {| Rotation.active := match base f with
                        | Some i => read f i
                        | None => ""
                        end;
     Rotation.backup := read f <$> backup f |}.

End Shared.

(* ===================================================================== *)
(** ** Predicates and sample data used in the statements *)
(* ===================================================================== *)

Module Props.
Import Text PyLogging.

(** The attributes a record is created with, apart from [exc_text]:
    everything but the three attributes [Formatter.format] stores. *)
Definition same_inputs (r r' : LogRecord) : Prop :=
  name r' = name r ∧ levelno r' = levelno r ∧ levelname r' = levelname r
  ∧ module_ r' = module_ r ∧ funcName r' = funcName r
  ∧ lineno r' = lineno r ∧ getMessage r' = getMessage r
  ∧ created r' = created r ∧ msecs r' = msecs r
  ∧ exc_info r' = exc_info r ∧ stack_info r' = stack_info r.

(** A [formatTime] that reads the time of the record only. *)
Definition reads_time_only (f : Formatter) : Prop :=
  ∀ r r', created r = created r' → msecs r = msecs r' →
          formatTime f r = formatTime f r'.

(** No [%] in the service name: the f-string then leaves the format
    string with the fields the source wrote and no others. *)
Fixpoint has_percent (s : string) : bool :=
  match s with
  | EmptyString => false
  | String c s' => Ascii.eqb c "%" || has_percent s'
  end.

Definition literal_label (service_name : option string) : Prop :=
  match service_name with
  | Some s => has_percent s = false
  | None => True
  end.

(** The logger [n] and its dotted ancestors were never configured: a
    call on it is decided by the root logger alone. *)
Definition unconfigured {H} (m : Manager H) (n : string) : Prop :=
  is_root_name n = true
  ∨ Forall (λ x, loggerDict m !! x = None) (n :: parent_names n).

(** The text fields of a record hold no escape character. *)
Definition record_esc_free (r : LogRecord) : Prop :=
  has_esc (name r) = false ∧ has_esc (levelname r) = false
  ∧ opt_has_esc (getMessage r) = false ∧ opt_has_esc (exc_info r) = false
  ∧ opt_has_esc (exc_text r) = false ∧ opt_has_esc (stack_info r) = false.

Definition tok_esc_free (t : Tok) : bool :=
  match t with
  | Lit s => negb (has_esc s)
  | Fld _ => true
  end.

(** The literal text of the format and the time text hold no escape
    character. *)
Definition formatter_esc_free (f : Formatter) : Prop :=
  forallb tok_esc_free (fmt f) = true
  ∧ ∀ r, has_esc (formatTime f r) = false.

Definition ltok_esc_free (t : Loguru.Tok) : bool :=
  match t with
  | Loguru.Lit s => negb (has_esc s)
  | _ => true
  end.

Definition call_esc_free (c : Loguru.Call) : Prop :=
  opt_has_esc (Loguru.c_name c) = false
  ∧ has_esc (Loguru.c_function c) = false
  ∧ has_esc (Loguru.c_message c) = false
  ∧ opt_has_esc (Loguru.c_exception c) = false.

(** The level name [StandardizedFormatter.format] puts on the record
    while the base class formats it. *)
Definition colored (isatty : bool) (levelname_ : string) : string :=
  if isatty
  then match StdImpl.COLORS levelname_ with
       | Some c => c +:+ levelname_ +:+ StdImpl.RESET
       | None => levelname_
       end
  else levelname_.

(** The Loguru handlers [configure_logging] adds once the level [k] is
    resolved: the console, and the file if one is asked for. *)
Definition console_handler (a : LoguruImpl.Args) (k : Z) : Loguru.Handler :=
  {| Loguru.sink := Stdout; Loguru.levelno := k;
     Loguru.format := if LoguruImpl.colorize a
                      then LoguruImpl.colored_format
                      else LoguruImpl.plain_format;
     Loguru.colorize := LoguruImpl.colorize a;
     Loguru.rotation := None; Loguru.retention := None;
     Loguru.compression := None |}.

Definition file_handler (a : LoguruImpl.Args) (k : Z) : Loguru.Handler :=
  {| Loguru.sink := LogFile (default "" (LoguruImpl.log_file a));
     Loguru.levelno := k;
     Loguru.format := LoguruImpl.plain_format;
     Loguru.colorize := false;
     Loguru.rotation := Some (LoguruImpl.max_bytes a);
     Loguru.retention := Some (LoguruImpl.backup_count a);
     Loguru.compression := Some "zip" |}.

Definition expected_core (a : LoguruImpl.Args) : Loguru.Core :=
  match Loguru.levels (LoguruImpl.level a) with
  | Some (k, _) =>
      console_handler a k
      :: (if truthy (LoguruImpl.log_file a) then [file_handler a k] else [])
  | None => []
  end.

(** The handlers [configure_logging] of the [logging]-based module puts
    on the root logger, and those [configure_uvicorn_logging] puts on each
    Uvicorn logger. *)
Definition root_handlers (a : StdImpl.Args) : list StdImpl.Handler :=
  StdImpl.StreamHandler Stdout (StdImpl.level a)
    (StdImpl.make_formatter (StdImpl.service_name a))
  :: (if truthy (StdImpl.log_file a)
      then [StdImpl.RotatingFileHandler (default "" (StdImpl.log_file a))
              (StdImpl.max_bytes a) (StdImpl.backup_count a)
              (StdImpl.level a)
              (StdImpl.make_formatter (StdImpl.service_name a))]
      else []).

Definition uvicorn_handlers (a : StdImpl.Args) : list StdImpl.Handler :=
  StdImpl.StreamHandler Stdout NOTSET
    (StdImpl.make_formatter (StdImpl.service_name a))
  :: (if truthy (StdImpl.log_file a)
      then [StdImpl.RotatingFileHandler (default "" (StdImpl.log_file a))
              (StdImpl.max_bytes a) (StdImpl.backup_count a) NOTSET
              (StdImpl.make_formatter (StdImpl.service_name a))]
      else []).

Definition uvicorn_level (a : StdImpl.Args) (n : string) : Z :=
  if String.eqb n "uvicorn.access" then 30 else StdImpl.level a.

(** The sinks a call of the [logging]-based [configure_logging] attaches:
    the console, and the file if one is asked for. *)
Definition std_sinks (a : StdImpl.Args) : list Sink :=
  Stdout :: (if truthy (StdImpl.log_file a)
             then [LogFile (default "" (StdImpl.log_file a))] else []).

Definition loguru_sinks (a : LoguruImpl.Args) : list Sink :=
  Stdout :: (if truthy (LoguruImpl.log_file a)
             then [LogFile (default "" (LoguruImpl.log_file a))] else []).

(** A [logging] logger as the interception leaves it: the shim as its
    only handler, and no propagation. *)
Definition intercepted (lg : Logger LoguruImpl.PyHandler) : Prop :=
  handlers lg = [LoguruImpl.InterceptHandler] ∧ propagate lg = false.

(** The names in use are exactly the numbers 1, ..., n. *)
Definition numbered {A} (n : nat) (m : gmap nat A) : Prop :=
  ∀ i, is_Some (m !! i) ↔ (1 ≤ i ≤ n)%nat.


(** One handler on the path: its stream is at the end of the file named
    [base], and every backup is another inode, created before. *)
Definition single_handler (st : Shared.State) : Prop :=
  ∃ b, Shared.streams st = [Shared.at_end (Shared.fs st) b]
       ∧ Shared.base (Shared.fs st) = Some b
       ∧ (b < Shared.next (Shared.fs st))%nat
       ∧ ∀ i x, Shared.backup (Shared.fs st) !! i = Some x →
                x ≠ b ∧ (x < Shared.next (Shared.fs st))%nat.

(** The backups are exactly [base.1], ..., [base.n]. *)
Definition contiguous (n : nat) (d : Rotation.Dir) : Prop :=
  ∀ i, is_Some (Rotation.backup d !! i) ↔ (1 ≤ i ≤ n)%nat.

End Props.

Module Samples.
Import Text.

Definition t0 : Timestamp :=
  {| year := 2025; month := 1; day := 15;
     hour := 10; minute := 30; second := 45 |}.

(** A call as in the docstring of [get_logger]. *)
Definition call0 : PyLogging.Call :=
  {| PyLogging.c_module := "app"; PyLogging.c_funcName := "main";
     PyLogging.c_lineno := 45;
     PyLogging.c_message := Some "Processing request";
     PyLogging.c_time := t0; PyLogging.c_msecs := 123;
     PyLogging.c_exc_info := None |}.


Definition lcall0 : Loguru.Call :=
  {| Loguru.c_time := t0; Loguru.c_msec := 123;
     Loguru.c_name := Some "app"; Loguru.c_function := "main";
     Loguru.c_line := 45; Loguru.c_message := "Test log message";
     Loguru.c_exception := None |}.

(** The shim's environment on Python 3.11: line 1706 of
    [logging/__init__.py] holds [hdlr.handle(record)]. *)
Definition env311 : LoguruImpl.Env :=
  {| LoguruImpl.getframe1 := true; LoguruImpl.handle_line := 1706;
     LoguruImpl.caller_name := Some "app";
     LoguruImpl.now := t0; LoguruImpl.now_msec := 124 |}.


(** [configure_logging("DEBUG", colorize=False)], as the tests call it. *)
Definition test_args (lvl : string) : LoguruImpl.Args :=
  {| LoguruImpl.level := lvl; LoguruImpl.service_name := None;
     LoguruImpl.intercept_stdlib := true;
     LoguruImpl.additional_loggers := None;
     LoguruImpl.log_file := None;
     LoguruImpl.max_bytes := 100 * 1024 * 1024;
     LoguruImpl.backup_count := 5; LoguruImpl.colorize := false |}.

(** A call whose message cannot be built:
    [logger.warning("%d items", "many")]. *)
Definition call_unbuildable : PyLogging.Call :=
  {| PyLogging.c_module := "app"; PyLogging.c_funcName := "main";
     PyLogging.c_lineno := 60; PyLogging.c_message := None;
     PyLogging.c_time := t0; PyLogging.c_msecs := 123;
     PyLogging.c_exc_info := None |}.

(** [configure_logging(level, include_uvicorn=False)]. *)
Definition console_args (lvl : Z) : StdImpl.Args :=
  {| StdImpl.level := lvl; StdImpl.service_name := None;
     StdImpl.include_uvicorn := false; StdImpl.log_file := None;
     StdImpl.max_bytes := 100 * 1024 * 1024; StdImpl.backup_count := 5 |}.

(** [configure_logging(logging.INFO, log_file="app.log")]. *)
Definition file_args (lvl : Z) : StdImpl.Args :=
  {| StdImpl.level := lvl; StdImpl.service_name := None;
     StdImpl.include_uvicorn := true; StdImpl.log_file := Some "app.log";
     StdImpl.max_bytes := 100 * 1024 * 1024; StdImpl.backup_count := 5 |}.

(** [configure_logging("INFO", additional_loggers=[("boto3", "LOUD")])]. *)
Definition loud_args : LoguruImpl.Args :=
  {| LoguruImpl.level := "INFO"; LoguruImpl.service_name := None;
     LoguruImpl.intercept_stdlib := true;
     LoguruImpl.additional_loggers :=
       Some [LoguruImpl.SpecTuple "boto3" (LoguruImpl.LvlStr "LOUD")];
     LoguruImpl.log_file := None;
     LoguruImpl.max_bytes := 100 * 1024 * 1024;
     LoguruImpl.backup_count := 5; LoguruImpl.colorize := true |}.


End Samples.

(* ===================================================================== *)
(** ** The line [configure_logging] writes about itself *)
(* ===================================================================== *)

(** Both sources end [configure_logging] with an INFO record reporting
    the configuration, emitted through the logger just configured.  The
    clock reading of that call is a parameter. *)
Module Closing.
Import Text.

(** [logging.info("Standardized logging configured")], line 161 of the
    [logging]-based module: a call on the root logger. *)
Definition std_call (now : Timestamp) (ms : nat) : PyLogging.Call :=
  {| PyLogging.c_module := "__init__";
     PyLogging.c_funcName := "configure_logging";
     PyLogging.c_lineno := 161;
     PyLogging.c_message := Some "Standardized logging configured";
     PyLogging.c_time := now; PyLogging.c_msecs := ms;
     PyLogging.c_exc_info := None |}.

(** What the last statement of the [logging]-based [configure_logging]
    writes. *)
Definition std_closing (isatty : bool) (a : StdImpl.Args)
           (m : PyLogging.Manager StdImpl.Handler) (now : Timestamp) (ms : nat)
  : list Output :=
  StdImpl.emit isatty (StdImpl.configure_logging a m) "root" 20
    (std_call now ms).

(** [logger.info("Standardized logging configured with Loguru")], line
    101 of the Loguru-based module. *)
Definition loguru_call (now : Timestamp) (ms : nat) : Loguru.Call :=
  {| Loguru.c_time := now; Loguru.c_msec := ms;
     Loguru.c_name := Some "surreality_logging";
     Loguru.c_function := "configure_logging";
     Loguru.c_line := 101;
     Loguru.c_message := "Standardized logging configured with Loguru";
     Loguru.c_exception := None |}.

(** What the last statement of the Loguru-based [configure_logging]
    writes; it is not reached when an earlier statement raises. *)
Definition loguru_closing (tty : bool) (a : LoguruImpl.Args)
           (w : LoguruImpl.World) (now : Timestamp) (ms : nat)
  : list Output :=
  match LoguruImpl.configure_logging tty a w with
  | LoguruImpl.Done w' =>
      match LoguruImpl.emit w' (Loguru.ByName "INFO") (loguru_call now ms) with
      | inr out => out
      | inl _ => []
      end
  | LoguruImpl.Raised _ _ => []
  end.

End Closing.

Module MoreProps.
Import Text.

(** A Uvicorn logger as [configure_uvicorn_logging] leaves it, at level
    [k]. *)
Definition uvicorn_logger (a : StdImpl.Args) (k : Z)
  : PyLogging.Logger StdImpl.Handler :=
  {| PyLogging.level := k;
     PyLogging.handlers := Props.uvicorn_handlers a;
     PyLogging.propagate := false |}.

(** The three entries [configure_uvicorn_logging] writes into the logger
    dictionary. *)
Definition with_uvicorn (a : StdImpl.Args)
           (d : gmap string (PyLogging.Logger StdImpl.Handler))
  : gmap string (PyLogging.Logger StdImpl.Handler) :=
  <["uvicorn.access" := uvicorn_logger a 30]>
    (<["uvicorn.error" := uvicorn_logger a (StdImpl.level a)]>
       (<["uvicorn" := uvicorn_logger a (StdImpl.level a)]> d)).

(** The handlers of the root logger and of the loggers [names] that
    write to the file [p]. *)
Definition handlers_on (p : string) (m : PyLogging.Manager StdImpl.Handler)
           (names : list string) : list StdImpl.Handler :=
  filter (λ h, StdImpl.hsink h = LogFile p)
         (PyLogging.handlers (PyLogging.root m)
          ++ concat (map (λ n, PyLogging.handlers (PyLogging.getLogger m n))
                         names)).

(** A [logging] logger as the interception leaves it, at level [k]. *)
Definition shim_logger (k : Z) : PyLogging.Logger LoguruImpl.PyHandler :=
  {| PyLogging.level := k;
     PyLogging.handlers := [LoguruImpl.InterceptHandler];
     PyLogging.propagate := false |}.

(** The logger an element of [additional_loggers] names. *)
Definition spec_name (s : LoguruImpl.LoggerSpec) : string :=
  match s with
  | LoguruImpl.SpecName n => n
  | LoguruImpl.SpecTuple n _ => n
  end.

(** The line of the format without markup for a call at the level [lv]:
    [time | level | name:function:line - message], the newline, and the
    exception text if there is one. *)
Definition plain_line (lv : string * Z * string) (c : Loguru.Call) : string :=
  Loguru.format_time (Loguru.make_record lv c) +:+ " | "
  +:+ ljust 8 lv.1.1 +:+ " | "
  +:+ default "None" (Loguru.c_name c) +:+ ":" +:+ Loguru.c_function c
  +:+ ":" +:+ dec (Loguru.c_line c) +:+ " - " +:+ Loguru.c_message c
  +:+ NL +:+ default "" (Loguru.c_exception c).

(** The messages of a sequence of records as the handler writes them,
    each with its terminator. *)
Fixpoint written (msgs : list string) : string :=
  match msgs with
  | [] => ""
  | m :: msgs' => m +:+ NL +:+ written msgs'
  end.

End MoreProps.

(* ===================================================================== *)
(** ** Checks of the model against the sources' own examples *)
(* ===================================================================== *)

Module Checks.
Import Text Samples.

(** The first example line of the docstring of [get_logger]. *)
Example docstring_line :
  StdImpl.emit false (StdImpl.configure_logging (StdImpl.defaults 20)
                        PyLogging.fresh) "module" 20 call0
  = [(Stdout,
      "[2025-01-15 10:30:45,123] [INFO] [module:45] Processing request"
        +:+ NL)].
Proof. vm_compute. reflexivity. Qed.

(** [test_configure_logging] of [tests/test_basic.py]; the line has the
    layout the module docstring gives. *)
Example test_configure_logging :
  LoguruImpl.emit
    (LoguruImpl.state_of
       (LoguruImpl.configure_logging false (test_args "DEBUG")
          (LoguruImpl.initial false)))
    (Loguru.ByName "INFO") lcall0
  = inr [(Stdout,
          "2025-01-15 10:30:45.123 | INFO     | app:main:45 - Test log message"
            +:+ NL)].
Proof. vm_compute. reflexivity. Qed.

Example parents_of_access :
  PyLogging.parent_names "uvicorn.access.http" = ["uvicorn.access"; "uvicorn"].
Proof. reflexivity. Qed.

Example upper_warning : upper "warning" = "WARNING".
Proof. reflexivity. Qed.

End Checks.

(* ===================================================================== *)
(** ** Facts about text *)
(* ===================================================================== *)

Module TextFacts.
Import Text.

Lemma has_esc_app (a b : string) :
  has_esc (a +:+ b) = has_esc a || has_esc b.
Proof.
  induction a as [|c a IH]; simpl; [reflexivity|].
  rewrite IH. apply orb_assoc.
Qed.

Lemma has_esc_replicate (n : nat) (c : ascii) :
  Ascii.eqb c ESC = false → has_esc (replicate_char n c) = false.
Proof. intros Hc. induction n as [|n IH]; simpl; [|rewrite Hc, IH]; reflexivity. Qed.

Lemma has_esc_uint (d : Decimal.uint) :
  has_esc (NilEmpty.string_of_uint d) = false.
Proof. induction d; simpl; auto. Qed.

Lemma has_esc_dec (n : nat) : has_esc (dec n) = false.
Proof. apply has_esc_uint. Qed.

Lemma has_esc_int (i : Decimal.int) :
  has_esc (NilEmpty.string_of_int i) = false.
Proof. destruct i; simpl; apply has_esc_uint. Qed.

Lemma has_esc_zfill (w : nat) (s : string) :
  has_esc (zfill w s) = has_esc s.
Proof.
  unfold zfill. rewrite has_esc_app, has_esc_replicate; reflexivity.
Qed.

Lemma has_esc_ljust (w : nat) (s : string) :
  has_esc (ljust w s) = has_esc s.
Proof.
  unfold ljust. rewrite has_esc_app, has_esc_replicate, ?orb_false_r; reflexivity.
Qed.

Lemma has_esc_NL : has_esc NL = false.
Proof. reflexivity. Qed.

Lemma opt_has_esc_default (o : option string) (d : string) :
  opt_has_esc o = false → has_esc d = false → has_esc (default d o) = false.
Proof. destruct o; simpl; auto. Qed.

End TextFacts.

(* ===================================================================== *)
(** ** Facts about [logging.Formatter.format] and [StandardizedFormatter] *)
(* ===================================================================== *)

Module FormatFacts.
Import Text PyLogging Props TextFacts.

Lemma formatMessage_ext (f : Formatter) (r r' : LogRecord) :
  name r' = name r → levelname r' = levelname r → lineno r' = lineno r →
  message r' = message r → asctime r' = asctime r →
  formatMessage f r' = formatMessage f r.
Proof.
  intros Hn Hl Hln Hm Ha. unfold formatMessage.
  induction (fmt f) as [|t ts IH]; simpl; [reflexivity|].
  rewrite IH. f_equal.
  destruct t as [s|fld]; simpl; [reflexivity|].
  destruct fld; simpl; congruence.
Qed.

Lemma record_ext (r r' : LogRecord) :
  same_inputs r r' → exc_text r' = exc_text r → message r' = message r →
  asctime r' = asctime r → r' = r.
Proof.
  unfold same_inputs. destruct r, r'; simpl.
  intros (-> & -> & -> & -> & -> & -> & -> & -> & -> & -> & ->) -> -> ->.
  reflexivity.
Qed.

Lemma same_inputs_trans (r1 r2 r3 : LogRecord) :
  same_inputs r1 r2 → same_inputs r2 r3 → same_inputs r1 r3.
Proof.
  unfold same_inputs.
  intros (? & ? & ? & ? & ? & ? & ? & ? & ? & ? & ?)
         (? & ? & ? & ? & ? & ? & ? & ? & ? & ? & ?).
  repeat split; congruence.
Qed.

Lemma store_message_inputs (f : Formatter) (m : string) (r : LogRecord) :
  same_inputs r (store_message f m r)
  ∧ exc_text (store_message f m r) = exc_text r
  ∧ message (store_message f m r) = Some m
  ∧ asctime (store_message f m r)
    = if usesTime f then Some (formatTime f (set_message (Some m) r))
      else asctime r.
Proof.
  unfold store_message, same_inputs.
  destruct (usesTime f); simpl; repeat split.
Qed.

Lemma cache_exc_text_inputs (r : LogRecord) :
  same_inputs r (cache_exc_text r)
  ∧ message (cache_exc_text r) = message r
  ∧ asctime (cache_exc_text r) = asctime r.
Proof.
  unfold cache_exc_text, same_inputs.
  destruct (exc_info r) as [tb|] eqn:He;
    [destruct (truthy (exc_text r)) eqn:Ht|]; simpl;
    repeat split; auto.
Qed.

Lemma cache_exc_text_twice (r : LogRecord) :
  cache_exc_text (cache_exc_text r) = cache_exc_text r.
Proof.
  unfold cache_exc_text.
  destruct (exc_info r) as [tb|] eqn:He; rewrite ?He; [|reflexivity].
  destruct (truthy (exc_text r)) eqn:Ht; simpl; rewrite He, ?Ht; [reflexivity|].
  simpl. destruct (negb _); reflexivity.
Qed.

(** The base class returns a text exactly when the message can be
    built. *)
Lemma Formatter_format_total (f : Formatter) (r : LogRecord) (m : string) :
  getMessage r = Some m → ∃ s r', Formatter_format f r = (Some s, r').
Proof. intros Hm. unfold Formatter_format. rewrite Hm. eauto. Qed.

Lemma Formatter_format_raises (f : Formatter) (r : LogRecord) :
  getMessage r = None → Formatter_format f r = (None, r).
Proof. intros Hm. unfold Formatter_format. rewrite Hm. reflexivity. Qed.

(** What the base class leaves on the record. *)
Lemma Formatter_format_inputs (f : Formatter) (r r' : LogRecord) (s : string) :
  Formatter_format f r = (Some s, r') → same_inputs r r'.
Proof.
  unfold Formatter_format. destruct (getMessage r) as [m|] eqn:Hm; [|discriminate].
  intros [= _ <-].
  eapply same_inputs_trans; [apply store_message_inputs|].
  apply cache_exc_text_inputs.
Qed.

(** Formatting the record a first call left behind gives the same text
    and changes nothing more. *)
Lemma Formatter_format_again (f : Formatter) (r r' : LogRecord) (s : string) :
  reads_time_only f →
  Formatter_format f r = (Some s, r') →
  Formatter_format f r' = (Some s, r').
Proof.
  intros Hf. unfold Formatter_format.
  destruct (getMessage r) as [m|] eqn:Hm; [|discriminate].
  intros [= <- <-].
  set (r2 := store_message f m r). set (r3 := cache_exc_text r2).
  destruct (store_message_inputs f m r) as (Hi2 & Hx2 & Hm2 & Ha2).
  destruct (cache_exc_text_inputs r2) as (Hi3 & Hm3 & Ha3).
  fold r2 in Hi2, Hx2, Hm2, Ha2. fold r3 in Hi3, Hm3, Ha3.
  assert (Hi : same_inputs r r3) by (eapply same_inputs_trans; eauto).
  assert (Hg : getMessage r3 = Some m).
  { destruct Hi as (_ & _ & _ & _ & _ & _ & Hg & _). congruence. }
  rewrite Hg.
  assert (Hs : store_message f m r3 = r3).
  { destruct (store_message_inputs f m r3) as (Hi' & Hx' & Hm' & Ha').
    apply record_ext; auto; [congruence|].
    rewrite Ha', Ha3, Ha2. destruct (usesTime f); [|reflexivity].
    f_equal. apply Hf; simpl.
    - destruct Hi as (_ & _ & _ & _ & _ & _ & _ & Hc & _). exact Hc.
    - destruct Hi as (_ & _ & _ & _ & _ & _ & _ & _ & Hc & _). exact Hc. }
  rewrite Hs.
  assert (Hc : cache_exc_text r3 = r3) by apply cache_exc_text_twice.
  rewrite !Hc.
  destruct Hi3 as (Hn & _ & Hl & _ & _ & Hln & _).
  rewrite (formatMessage_ext f r2 r3); auto.
Qed.

End FormatFacts.

Module StdFormatFacts.
Import Text PyLogging Props TextFacts FormatFacts StdImpl.

Lemma set_levelname_back (r : LogRecord) (o : string) :
  set_levelname (levelname r) (set_levelname o r) = r.
Proof. destruct r; reflexivity. Qed.

Lemma format_unfold (isatty : bool) (f : Formatter) (r : LogRecord) :
  format isatty f r
  = match Formatter_format f (set_levelname (colored isatty (levelname r)) r) with
    | (Some s, r2) => (Some s, set_levelname (levelname r) r2)
    | (None, r2) => (None, r2)
    end.
Proof. reflexivity. Qed.

(** [format] returns a text whenever the message of the record can be
    built. *)
Lemma format_total (isatty : bool) (f : Formatter) (r : LogRecord) (m : string) :
  getMessage r = Some m → ∃ s r', format isatty f r = (Some s, r').
Proof.
  intros Hm. rewrite format_unfold.
  destruct (Formatter_format_total f
              (set_levelname (colored isatty (levelname r)) r) m Hm)
    as (s & r' & ->).
  eauto.
Qed.

Lemma format_raises (isatty : bool) (f : Formatter) (r : LogRecord) :
  getMessage r = None → (format isatty f r).1 = None.
Proof.
  intros Hm. rewrite format_unfold, Formatter_format_raises; auto.
Qed.

Lemma format_inputs (isatty : bool) (f : Formatter) (r r' : LogRecord) (s : string) :
  format isatty f r = (Some s, r') → same_inputs r r'.
Proof.
  rewrite format_unfold.
  destruct (Formatter_format f _) as [[s2|] r2] eqn:Hb; [|discriminate].
  intros [= _ <-]. apply Formatter_format_inputs in Hb.
  unfold same_inputs in *. simpl in *.
  destruct Hb as (? & ? & ? & ? & ? & ? & ? & ? & ? & ? & ?).
  repeat split; auto.
Qed.

Lemma format_again (isatty : bool) (f : Formatter) (r r' : LogRecord) (s : string) :
  reads_time_only f →
  format isatty f r = (Some s, r') →
  format isatty f r' = (Some s, r').
Proof.
  intros Hf. rewrite (format_unfold isatty f r).
  destruct (Formatter_format f _) as [[s2|] r2] eqn:Hb; [|discriminate].
  intros [= <- <-]. rewrite format_unfold. simpl.
  pose proof (Formatter_format_inputs _ _ _ _ Hb) as (_ & _ & Hl & _).
  simpl in Hl.
  assert (Hr : set_levelname (colored isatty (levelname r))
                 (set_levelname (levelname r) r2) = r2).
  { rewrite <- Hl. apply set_levelname_back. }
  rewrite Hr, (Formatter_format_again f _ _ _ Hf Hb). reflexivity.
Qed.

(** Without a terminal the method is the base class's. *)
Lemma format_plain (f : Formatter) (r : LogRecord) :
  (format false f r).1 = (Formatter_format f r).1.
Proof.
  rewrite format_unfold. simpl.
  replace (set_levelname (levelname r) r) with r by (destruct r; reflexivity).
  destruct (Formatter_format f r) as [[s|] r2]; reflexivity.
Qed.

Lemma make_formatter_time_only (sn : option string) :
  reads_time_only (make_formatter sn).
Proof.
  intros r r' Hc Hm. simpl. unfold format_time_with_ms. congruence.
Qed.

End StdFormatFacts.

(* ===================================================================== *)
(** ** Escape characters in formatted lines *)
(* ===================================================================== *)

Module EscFacts.
Import Text Props TextFacts FormatFacts StdFormatFacts.

Lemma with_trailer_esc (s e : string) :
  has_esc s = false → has_esc e = false →
  has_esc (PyLogging.with_trailer s e) = false.
Proof.
  intros Hs He. unfold PyLogging.with_trailer.
  destruct (ends_with_newline s);
    rewrite !has_esc_app, ?Hs, ?He, ?has_esc_NL; reflexivity.
Qed.

Lemma strftime_esc (t : Timestamp) : has_esc (PyLogging.strftime t) = false.
Proof.
  unfold PyLogging.strftime.
  rewrite !has_esc_app, !has_esc_zfill, !has_esc_dec. reflexivity.
Qed.

Lemma make_formatter_esc_free (sn : option string) :
  opt_has_esc sn = false → formatter_esc_free (StdImpl.make_formatter sn).
Proof.
  intros Hsn. split.
  - simpl. unfold StdImpl.log_format.
    destruct (truthy sn); simpl; [|reflexivity].
    rewrite (opt_has_esc_default sn "" Hsn eq_refl). reflexivity.
  - intros r. simpl. unfold StdImpl.format_time_with_ms.
    rewrite !has_esc_app, strftime_esc, has_esc_zfill, has_esc_dec.
    reflexivity.
Qed.

Lemma formatMessage_esc (ts : list PyLogging.Tok) (r : PyLogging.LogRecord) :
  forallb tok_esc_free ts = true →
  (existsb PyLogging.is_asctime ts = true →
   opt_has_esc (PyLogging.asctime r) = false) →
  has_esc (PyLogging.name r) = false →
  has_esc (PyLogging.levelname r) = false →
  opt_has_esc (PyLogging.message r) = false →
  has_esc (PyLogging.concat_map (PyLogging.tok_value r) ts) = false.
Proof.
  intros Hts Ha Hn Hl Hm.
  induction ts as [|t ts IH]; simpl in *; [reflexivity|].
  apply andb_true_iff in Hts as [Ht Hts].
  rewrite has_esc_app, IH; auto.
  - rewrite orb_false_r. destruct t as [s|fld]; simpl in *.
    + apply negb_true_iff in Ht. exact Ht.
    + destruct fld; simpl; auto using has_esc_dec.
      * apply opt_has_esc_default; auto.
      * apply opt_has_esc_default; auto.
  - intros He. apply Ha. rewrite He. apply orb_true_r.
Qed.

(** The base class adds no escape character of its own. *)
Lemma Formatter_format_esc (f : PyLogging.Formatter)
      (r r' : PyLogging.LogRecord) (s : string) :
  formatter_esc_free f → record_esc_free r →
  PyLogging.Formatter_format f r = (Some s, r') → has_esc s = false.
Proof.
  intros [Hlit Htime] (Hn & Hl & Hg & Hei & Het & Hst).
  unfold PyLogging.Formatter_format.
  destruct (PyLogging.getMessage r) as [m|] eqn:Hm; [|discriminate].
  intros [= <- <-].
  set (r2 := PyLogging.store_message f m r).
  destruct (store_message_inputs f m r) as (Hi2 & Hx2 & Hm2 & Ha2).
  fold r2 in Hi2, Hx2, Hm2, Ha2.
  destruct (cache_exc_text_inputs r2) as (Hi3 & Hm3 & Ha3).
  destruct Hi2 as (Hn2 & _ & Hl2 & _ & _ & _ & _ & _ & _ & He2 & Hs2).
  destruct Hi3 as (_ & _ & _ & _ & _ & _ & _ & _ & _ & _ & Hs3).
  assert (Hmsg : has_esc (PyLogging.formatMessage f r2) = false).
  { apply formatMessage_esc; auto.
    - intros Hu. rewrite Ha2. unfold PyLogging.usesTime. rewrite Hu.
      simpl. apply Htime.
    - congruence.
    - congruence.
    - rewrite Hm2. exact Hg. }
  assert (Hx3 : opt_has_esc (PyLogging.exc_text (PyLogging.cache_exc_text r2)) = false).
  { unfold PyLogging.cache_exc_text. rewrite He2.
    destruct (PyLogging.exc_info r) as [tb|]; [|congruence].
    destruct (truthy (PyLogging.exc_text r2)); simpl; [congruence|exact Hei]. }
  unfold PyLogging.append_extras.
  assert (H1 : has_esc
                 (if truthy (PyLogging.exc_text (PyLogging.cache_exc_text r2))
                  then PyLogging.with_trailer (PyLogging.formatMessage f r2)
                         (default "" (PyLogging.exc_text (PyLogging.cache_exc_text r2)))
                  else PyLogging.formatMessage f r2) = false).
  { destruct (truthy _); [|exact Hmsg].
    apply with_trailer_esc; auto. apply opt_has_esc_default; auto. }
  destruct (truthy (PyLogging.stack_info _)); [|exact H1].
  apply with_trailer_esc; auto. apply opt_has_esc_default; auto.
  rewrite Hs3, Hs2. exact Hst.
Qed.

(** *** Loguru *)

Lemma levels_name_esc (n : string) (v : Z * string) :
  Loguru.levels n = Some v → has_esc n = false.
Proof.
  unfold Loguru.levels.
  repeat (destruct (String.eqb n _) eqn:E;
          [apply String.eqb_eq in E; subst n; reflexivity | clear E]).
  discriminate.
Qed.

Lemma resolve_level_esc (l : Loguru.LevelArg) (lv : string * Z * string) :
  Loguru.resolve_level l = inr lv → has_esc lv.1.1 = false.
Proof.
  destruct l as [n|k]; simpl.
  - destruct (Loguru.levels n) as [[k a]|] eqn:E; [|discriminate].
    intros [= <-]. simpl. eapply levels_name_esc; eauto.
  - destruct (k <? 0); [discriminate|]. intros [= <-]. simpl.
    rewrite has_esc_app, has_esc_int. reflexivity.
Qed.

Lemma field_value_esc (r : Loguru.Record_) (f : Loguru.Field) :
  has_esc (Loguru.level_name r) = false →
  opt_has_esc (Loguru.name r) = false →
  has_esc (Loguru.function r) = false →
  has_esc (Loguru.message r) = false →
  has_esc (Loguru.field_value r f) = false.
Proof.
  intros Hl Hn Hf Hm. destruct f; simpl; auto using has_esc_dec.
  - unfold Loguru.format_time.
    rewrite !has_esc_app, !has_esc_zfill, !has_esc_dec. reflexivity.
  - rewrite has_esc_ljust. exact Hl.
  - apply opt_has_esc_default; auto.
Qed.

(** Without [colorize] the markup leaves no trace. *)
Lemma render_plain_esc (r : Loguru.Record_) (o : list string)
      (ts : list Loguru.Tok) :
  forallb ltok_esc_free ts = true →
  has_esc (Loguru.level_name r) = false →
  opt_has_esc (Loguru.name r) = false →
  has_esc (Loguru.function r) = false →
  has_esc (Loguru.message r) = false →
  has_esc (Loguru.render false r o ts) = false.
Proof.
  intros Hts Hl Hn Hf Hm.
  induction ts as [|t ts IH]; simpl in *; [reflexivity|].
  apply andb_true_iff in Hts as [Ht Hts].
  destruct t as [s|t|t|f]; simpl in *; auto.
  - rewrite has_esc_app, IH; auto. apply negb_true_iff in Ht.
    rewrite Ht. reflexivity.
  - rewrite has_esc_app, IH, field_value_esc; auto.
Qed.

End EscFacts.

(* ===================================================================== *)
(** ** Facts about the Loguru-based module *)
(* ===================================================================== *)

Module LoguruFacts.
Import Text Props TextFacts EscFacts LoguruImpl.

(** Whatever was attached before, and however the interception ends,
    the Loguru handlers after [configure_logging] are the ones this call
    added. *)
Lemma configure_core (tty : bool) (a : Args) (w : World) :
  core (state_of (configure_logging tty a w)) = expected_core a.
Proof.
  unfold configure_logging, expected_core, Loguru.add, Loguru.remove.
  simpl. destruct (Loguru.levels (level a)) as [[k c]|]; simpl; [|reflexivity].
  destruct (truthy (log_file a)); simpl;
    (destruct (intercept_stdlib a); simpl; [|reflexivity]);
    unfold intercept_standard_logging;
    destruct (configure_all _ _) as [[e|] m']; reflexivity.
Qed.

Lemma expected_core_sinks (a : Args) (k : Z) (c : string) :
  Loguru.levels (level a) = Some (k, c) →
  map Loguru.sink (expected_core a)
  = Stdout :: (if truthy (log_file a)
               then [LogFile (default "" (log_file a))] else []).
Proof.
  intros Hl. unfold expected_core. rewrite Hl.
  destruct (truthy (log_file a)); reflexivity.
Qed.

Lemma expected_core_levelno (a : Args) (k : Z) (c : string) :
  Loguru.levels (level a) = Some (k, c) →
  Forall (λ h, Loguru.levelno h = k) (expected_core a).
Proof.
  intros Hl. unfold expected_core. rewrite Hl.
  destruct (truthy (log_file a)); repeat constructor.
Qed.

(** A record below the level of every handler is written nowhere. *)
Lemma emit_all_below (c : Loguru.Core) (r : Loguru.Record_) (k : Z) :
  Forall (λ h, Loguru.levelno h = k) c → Loguru.level_no r < k →
  Loguru.emit_all c r = [].
Proof.
  intros Hc Hlt. induction Hc as [|h c Hh Hc IH]; [reflexivity|].
  unfold Loguru.emit_all in *. simpl. rewrite IH.
  unfold Loguru.handler_emit. rewrite Hh.
  destruct (k >? Loguru.level_no r) eqn:E; [reflexivity|lia].
Qed.

(** A record at or above the level of every handler is written once on
    each. *)
Lemma emit_all_above (c : Loguru.Core) (r : Loguru.Record_) (k : Z) :
  Forall (λ h, Loguru.levelno h = k) c → k ≤ Loguru.level_no r →
  Loguru.emit_all c r = map (λ h, (Loguru.sink h, Loguru.formatted h r)) c.
Proof.
  intros Hc Hle. induction Hc as [|h c Hh Hc IH]; [reflexivity|].
  unfold Loguru.emit_all in *. simpl. rewrite IH.
  unfold Loguru.handler_emit. rewrite Hh.
  destruct (k >? Loguru.level_no r) eqn:E; [lia|reflexivity].
Qed.

(** Each handler writes at most once. *)
Lemma emit_all_sub (c : Loguru.Core) (r : Loguru.Record_) :
  sublist (Loguru.emit_all c r)
          (map (λ h, (Loguru.sink h, Loguru.formatted h r)) c).
Proof.
  induction c as [|h c IH]; [constructor|].
  unfold Loguru.emit_all in *. simpl. unfold Loguru.handler_emit at 1.
  destruct (Loguru.levelno h >? Loguru.level_no r); simpl.
  - apply sublist_cons. exact IH.
  - apply sublist_skip. exact IH.
Qed.

Lemma levels_of_name (L : Level) :
  ∃ c, Loguru.levels (name_of L) = Some (levelno_of L, c).
Proof. destruct L; eexists; reflexivity. Qed.

(** The lines of a plain handler carry no escape character. *)
Lemma formatted_plain_esc (h : Loguru.Handler) (lv : string * Z * string)
      (call : Loguru.Call) :
  Loguru.colorize h = false → Loguru.format h = plain_format →
  has_esc lv.1.1 = false → call_esc_free call →
  has_esc (Loguru.formatted h (Loguru.make_record lv call)) = false.
Proof.
  intros Hc Hf Hl (Hn & Hfn & Hm & He).
  unfold Loguru.formatted. rewrite Hc, Hf, !has_esc_app, has_esc_NL.
  rewrite render_plain_esc; auto.
  simpl. apply opt_has_esc_default; auto.
Qed.

(** The file sink of the Loguru-based module has a format of its own
    without markup: what it writes carries no escape character, whatever
    [colorize] is. *)
Lemma file_lines_plain (tty : bool) (a : Args) (w : World)
      (l : Loguru.LevelArg) (call : Loguru.Call) (out : list Output)
      (p text : string) :
  call_esc_free call →
  emit (state_of (configure_logging tty a w)) l call = inr out →
  In (LogFile p, text) out → has_esc text = false.
Proof.
  intros Hcall He Hin. unfold emit, Loguru.log in He.
  rewrite configure_core in He.
  destruct (Loguru.resolve_level l) as [e|lv] eqn:Hl; [discriminate|].
  injection He as <-.
  pose proof (emit_all_sub (expected_core a) (Loguru.make_record lv call))
    as Hsub.
  apply list_elem_of_In in Hin.
  apply (sublist_subseteq _ _ Hsub) in Hin. apply list_elem_of_In in Hin.
  apply in_map_iff in Hin as (h & [= Hs <-] & Hh).
  unfold expected_core in Hh.
  destruct (Loguru.levels (level a)) as [[k c]|]; [|destruct Hh].
  destruct Hh as [<-|Hh]; [discriminate Hs|].
  destruct (truthy (log_file a)); [|destruct Hh].
  destruct Hh as [<-|[]].
  apply formatted_plain_esc; eauto using resolve_level_esc.
Qed.

End LoguruFacts.

(* ===================================================================== *)
(** ** Facts about dispatch in [logging] *)
(* ===================================================================== *)

Module DispatchFacts.
Import Text PyLogging Props.

Section Generic.
Context {H : Type}.
Variable hlevel : H → Z.
Variable hemit : H → LogRecord → list Output * LogRecord.

Lemma first_level_skip (l c : list (Logger H)) :
  Forall (λ lg, lg = new_logger) l → first_level (l ++ c) = first_level c.
Proof. induction 1 as [|lg l -> _ IH]; simpl; auto. Qed.

(** Loggers that were never configured pass the record on untouched. *)
Lemma walk_skip (l c : list (Logger H)) (r : LogRecord) :
  Forall (λ lg, lg = new_logger) l →
  walk hlevel hemit (l ++ c) r = walk hlevel hemit c r.
Proof.
  induction 1 as [|lg l -> _ IH]; simpl; [reflexivity|].
  rewrite IH. destruct (walk hlevel hemit c r) as [[o r'] k]. reflexivity.
Qed.

(** A logger that does not propagate is the last one visited. *)
Lemma walk_stop (lg : Logger H) (c : list (Logger H)) (r : LogRecord) :
  propagate lg = false →
  walk hlevel hemit (lg :: c) r
  = ((run_handlers hlevel hemit (handlers lg) r).1,
     (run_handlers hlevel hemit (handlers lg) r).2,
     length (handlers lg)).
Proof.
  intros Hp. simpl. destruct (run_handlers _ _ _ _) as [o r']. rewrite Hp.
  reflexivity.
Qed.

Lemma walk_root_only (lg : Logger H) (r : LogRecord) :
  ((walk hlevel hemit [lg] r).1.1 = (run_handlers hlevel hemit (handlers lg) r).1)
  ∧ (walk hlevel hemit [lg] r).2 = length (handlers lg).
Proof.
  simpl. destruct (run_handlers _ _ _ _) as [o r'].
  destruct (propagate lg); simpl; rewrite ?app_nil_r; split; auto; lia.
Qed.

Lemma chain_unconfigured (m : Manager H) (n : string) :
  unconfigured m n →
  ∃ l, chain m n = l ++ [root m] ∧ Forall (λ lg, lg = new_logger) l.
Proof.
  unfold chain. intros [Hr|Hu].
  - rewrite Hr. exists []. split; [reflexivity|constructor].
  - destruct (is_root_name n).
    + exists []. split; [reflexivity|constructor].
    + eexists. split; [reflexivity|].
      apply Forall_map. eapply Forall_impl; [exact Hu|].
      intros x Hx. unfold lookup_dict. simpl. rewrite Hx. reflexivity.
Qed.

Lemma effective_unconfigured (m : Manager H) (n : string) :
  unconfigured m n → getEffectiveLevel m n = level (root m).
Proof.
  intros Hu. destruct (chain_unconfigured m n Hu) as (l & Hc & Hl).
  unfold getEffectiveLevel. rewrite Hc, first_level_skip by exact Hl.
  simpl. destruct (level (root m) =? 0) eqn:E; [|reflexivity].
  unfold NOTSET. lia.
Qed.

(** With handlers on the root logger, a call on an unconfigured logger
    is the root's handlers run on the record. *)
Lemma callHandlers_unconfigured (m : Manager H) (r : LogRecord) :
  unconfigured m (name r) → handlers (root m) ≠ [] →
  (callHandlers hlevel hemit m r).1
  = (run_handlers hlevel hemit (handlers (root m)) r).1.
Proof.
  intros Hu Hh. destruct (chain_unconfigured m (name r) Hu) as (l & Hc & Hl).
  unfold callHandlers. rewrite Hc, walk_skip by exact Hl.
  destruct (walk_root_only (root m) r) as [Ho Hk].
  destruct (walk hlevel hemit [root m] r) as [[o r'] k]. simpl in *. subst.
  destruct (handlers (root m)); [congruence|]. reflexivity.
Qed.

(** With a handler on a logger that does not propagate, a call on it is
    its own handlers run on the record. *)
Lemma callHandlers_stop (m : Manager H) (r : LogRecord) :
  propagate (getLogger m (name r)) = false →
  handlers (getLogger m (name r)) ≠ [] →
  (callHandlers hlevel hemit m r).1
  = (run_handlers hlevel hemit (handlers (getLogger m (name r))) r).1.
Proof.
  intros Hp Hh. unfold callHandlers, chain, getLogger in *.
  destruct (is_root_name (name r)).
  - destruct (walk_root_only (root m) r) as [Ho Hk].
    destruct (walk hlevel hemit [root m] r) as [[o r'] k]. simpl in *. subst.
    destruct (handlers (root m)); [congruence|]. reflexivity.
  - simpl map. rewrite <- app_comm_cons, walk_stop by exact Hp.
    destruct (handlers (lookup_dict m (name r))); [congruence|]. reflexivity.
Qed.

(** A logger with a level of its own does not look at its ancestors. *)
Lemma effective_own (m : Manager H) (n : string) :
  level (getLogger m n) ≠ 0 →
  getEffectiveLevel m n = level (getLogger m n).
Proof.
  unfold getEffectiveLevel, chain, getLogger.
  destruct (is_root_name n); simpl; intros Hl;
    destruct (level _ =? 0) eqn:E; try reflexivity; lia.
Qed.

Lemma getLogger_set_same (m : Manager H) (n : string) (lg : Logger H) :
  getLogger (set_logger n lg m) n = lg.
Proof.
  unfold getLogger, set_logger, lookup_dict.
  destruct (is_root_name n); simpl; [reflexivity|].
  rewrite lookup_insert_eq. reflexivity.
Qed.

Lemma getLogger_set_cases (m : Manager H) (n n' : string) (lg : Logger H) :
  getLogger (set_logger n' lg m) n = lg
  ∨ getLogger (set_logger n' lg m) n = getLogger m n.
Proof.
  unfold getLogger, set_logger, lookup_dict.
  destruct (is_root_name n') eqn:E', (is_root_name n) eqn:E; simpl; auto.
  destruct (decide (n' = n)) as [->|Hne].
  - left. rewrite lookup_insert_eq. reflexivity.
  - right. rewrite lookup_insert_ne by exact Hne. reflexivity.
Qed.

End Generic.

(** Counting the lines a list of writes puts on one sink. *)
Lemma lines_on_nil (s : Sink) : lines_on s [] = [].
Proof. reflexivity. Qed.

Lemma lines_on_absent (s : Sink) (out : list Output) :
  s ∉ map fst out → lines_on s out = [].
Proof.
  unfold lines_on. induction out as [|[s' t] out IH]; [reflexivity|].
  simpl. intros Hnot.
  rewrite filter_cons_False.
  - apply IH. intros Hin. apply Hnot. right. exact Hin.
  - simpl. intros ->. apply Hnot. left.
Qed.

Lemma lines_on_one_each (s : Sink) (out : list Output) :
  NoDup (map fst out) → (length (lines_on s out) ≤ 1)%nat.
Proof.
  induction out as [|[s' t] out IH]; simpl; [intros _; unfold lines_on; simpl; lia|].
  intros Hnd. apply NoDup_cons in Hnd as [Hnot Hnd].
  destruct (decide (s' = s)) as [->|Hne].
  - unfold lines_on. rewrite filter_cons_True by reflexivity.
    change (length (t :: lines_on s out) ≤ 1)%nat.
    rewrite lines_on_absent by exact Hnot. simpl. lia.
  - unfold lines_on. rewrite filter_cons_False by exact Hne.
    apply IH. exact Hnd.
Qed.

Lemma lines_on_exactly_one (s : Sink) (out : list Output) :
  NoDup (map fst out) → s ∈ map fst out → length (lines_on s out) = 1%nat.
Proof.
  intros Hnd Hin. pose proof (lines_on_one_each s out Hnd) as Hle.
  unfold lines_on in *. rewrite length_map in *.
  apply list_elem_of_fmap in Hin as ([s' t] & Hs & Hin). simpl in Hs. subst s'.
  assert ((s, t) ∈ filter (λ o : Output, o.1 = s) out) as Hf.
  { apply list_elem_of_filter. split; [reflexivity|exact Hin]. }
  destruct (filter _ out); [inversion Hf|]. simpl in *. lia.
Qed.

Lemma lines_on_sub (s : Sink) (out out' : list Output) :
  sublist out out' → NoDup (map fst out') →
  (length (lines_on s out) ≤ 1)%nat.
Proof.
  intros Hs Hnd. apply lines_on_one_each.
  apply (sublist_NoDup (map fst out) (map fst out')); [exact Hnd|].
  apply (fmap_sublist fst). exact Hs.
Qed.

End DispatchFacts.

(* ===================================================================== *)
(** ** Facts about the [logging]-based module *)
(* ===================================================================== *)

Module StdFacts.
Import Text PyLogging Props FormatFacts StdFormatFacts DispatchFacts StdImpl.

Lemma format_none (isatty : bool) (f : Formatter) (r r1 : LogRecord) :
  format isatty f r = (None, r1) →
  getMessage r = None ∧ getMessage r1 = None ∧ levelno r1 = levelno r.
Proof.
  rewrite format_unfold. unfold Formatter_format. simpl getMessage.
  destruct (getMessage r) as [m|] eqn:Hm; simpl; [discriminate|].
  intros [= <-]. simpl. auto.
Qed.

Lemma format_levelno (isatty : bool) (f : Formatter) (r : LogRecord) :
  levelno (format isatty f r).2 = levelno r.
Proof.
  destruct (format isatty f r) as [[s|] r1] eqn:He; simpl.
  - apply format_inputs in He. destruct He as (_ & Hl & _). exact Hl.
  - apply format_none in He. tauto.
Qed.

(** After a first call, a second one gives the same result. *)
Lemma format_stable (isatty : bool) (f : Formatter) (r : LogRecord) :
  reads_time_only f →
  (format isatty f (format isatty f r).2).1 = (format isatty f r).1.
Proof.
  intros Hf. destruct (format isatty f r) as [[s|] r1] eqn:He; simpl.
  - rewrite (format_again _ _ _ _ _ Hf He). reflexivity.
  - apply format_none in He as (_ & Hm & _). apply format_raises. exact Hm.
Qed.

Lemma stream_emit_spec (isatty : bool) (s : Sink) (f : Formatter) (r : LogRecord) :
  (stream_emit isatty s f r).1
  = match (format isatty f r).1 with
    | Some t => [(s, t +:+ NL)]
    | None => []
    end
  ∧ (stream_emit isatty s f r).2 = (format isatty f r).2.
Proof.
  unfold stream_emit. destruct (format isatty f r) as [[t|] r1]; auto.
Qed.

(** What one handler does with a record: one write of the formatted
    line, or none when formatting raises; the record it leaves formats to
    the same result. *)
Lemma hemit_spec (isatty : bool) (h : Handler) (r : LogRecord) :
  reads_time_only (hformatter h) →
  (hemit isatty h r).1
  = match (format isatty (hformatter h) r).1 with
    | Some t => [(hsink h, t +:+ NL)]
    | None => []
    end
  ∧ levelno (hemit isatty h r).2 = levelno r
  ∧ (format isatty (hformatter h) (hemit isatty h r).2).1
    = (format isatty (hformatter h) r).1.
Proof.
  intros Hf. destruct h as [s l f|p mb bc l f]; simpl in *.
  - destruct (stream_emit_spec isatty s f r) as [-> ->].
    split; [reflexivity|]. split; [apply format_levelno|].
    apply format_stable. exact Hf.
  - destruct (mb >? 0).
    + pose proof (format_stable isatty f r Hf) as Hst.
      pose proof (format_levelno isatty f r) as Hlv.
      destruct (format isatty f r) as [[t|] r1] eqn:He; simpl in *.
      * destruct (stream_emit_spec isatty (LogFile p) f r1) as [-> ->].
        rewrite Hst. split; [reflexivity|].
        split; [rewrite format_levelno; exact Hlv|].
        rewrite format_stable by exact Hf. exact Hst.
      * auto.
    + destruct (stream_emit_spec isatty (LogFile p) f r) as [-> ->].
      split; [reflexivity|]. split; [apply format_levelno|].
      apply format_stable. exact Hf.
Qed.

(** Handlers that share a formatter and let the record pass write the
    same line, one each. *)
Lemma run_handlers_uniform (isatty : bool) (f : Formatter) (hs : list Handler)
      (r : LogRecord) :
  reads_time_only f →
  Forall (λ h, hformatter h = f ∧ hlevel h ≤ levelno r) hs →
  (run_handlers hlevel (hemit isatty) hs r).1
  = match (format isatty f r).1 with
    | Some t => map (λ h, (hsink h, t +:+ NL)) hs
    | None => []
    end.
Proof.
  intros Hf Hhs. revert r Hhs.
  induction hs as [|h hs IH]; intros r Hhs; simpl.
  - destruct (format isatty f r).1; reflexivity.
  - apply Forall_cons in Hhs as [[Hfh Hlv] Hhs].
    destruct (levelno r >=? hlevel h) eqn:E; [|lia].
    destruct (hemit_spec isatty h r) as (Ho & Hl & Hs); [rewrite Hfh; exact Hf|].
    rewrite Hfh in Ho, Hs.
    destruct (hemit isatty h r) as [o1 r1]. simpl in *.
    specialize (IH r1). rewrite Hl, Hs in IH.
    destruct (run_handlers hlevel (hemit isatty) hs r1) as [o2 r2].
    simpl in *. rewrite IH by exact Hhs. subst o1.
    destruct (format isatty f r).1; reflexivity.
Qed.

(** *** The state [configure_logging] leaves *)

Lemma configure_root (a : Args) (m : Manager Handler) :
  root (configure_logging a m)
  = {| PyLogging.level := level a; handlers := root_handlers a;
       propagate := propagate (root m) |}.
Proof.
  unfold configure_logging, root_handlers.
  destruct (include_uvicorn a), (truthy (log_file a)); reflexivity.
Qed.

Lemma configure_uvicorn_logger (a : Args) (m : Manager Handler) (n : string) :
  include_uvicorn a = true → In n uvicorn_names →
  getLogger (configure_logging a m) n
  = {| PyLogging.level := uvicorn_level a n; handlers := uvicorn_handlers a;
       propagate := false |}.
Proof.
  intros Hi Hn. unfold configure_logging. rewrite Hi.
  unfold configure_uvicorn_logging, uvicorn_handlers, uvicorn_names in *.
  destruct Hn as [<-|[<-|[<-|[]]]];
    unfold getLogger, set_logger, lookup_dict, configure_one; simpl;
    unfold getLogger, set_logger, lookup_dict; simpl;
    repeat (rewrite lookup_insert_eq || (rewrite lookup_insert_ne by discriminate));
    simpl; destruct (truthy (log_file a)); reflexivity.
Qed.

Lemma root_handlers_uniform (a : Args) (r : LogRecord) :
  level a ≤ levelno r →
  Forall (λ h, hformatter h = make_formatter (service_name a)
               ∧ hlevel h ≤ levelno r) (root_handlers a).
Proof.
  intros Hl. unfold root_handlers.
  destruct (truthy (log_file a)); repeat constructor; simpl; auto.
Qed.

Lemma uvicorn_handlers_uniform (a : Args) (r : LogRecord) :
  0 ≤ levelno r →
  Forall (λ h, hformatter h = make_formatter (service_name a)
               ∧ hlevel h ≤ levelno r) (uvicorn_handlers a).
Proof.
  intros Hl. unfold uvicorn_handlers.
  destruct (truthy (log_file a)); repeat constructor; simpl; auto.
Qed.

Lemma root_handlers_sinks (a : Args) :
  map hsink (root_handlers a) = std_sinks a.
Proof. unfold root_handlers, std_sinks. destruct (truthy (log_file a)); reflexivity. Qed.

Lemma uvicorn_handlers_sinks (a : Args) :
  map hsink (uvicorn_handlers a) = std_sinks a.
Proof. unfold uvicorn_handlers, std_sinks. destruct (truthy (log_file a)); reflexivity. Qed.

Lemma std_sinks_NoDup (a : Args) : NoDup (std_sinks a).
Proof.
  unfold std_sinks. destruct (truthy (log_file a)).
  - apply NoDup_cons. split; [|apply NoDup_singleton].
    intros Hin. apply list_elem_of_singleton in Hin. discriminate.
  - apply NoDup_singleton.
Qed.

(** *** What a call writes *)

(** A call on a logger that was never configured is decided by the root
    logger: its level, and its handlers. *)
Lemma emit_unconfigured (isatty : bool) (a : Args) (m0 : Manager Handler)
      (n : string) (lvl : Z) (c : Call) :
  unconfigured (configure_logging a m0) n →
  emit isatty (configure_logging a m0) n lvl c
  = if (0 <? lvl) && (level a <=? lvl)
    then match (format isatty (make_formatter (service_name a))
                  (makeRecord n lvl c)).1 with
         | Some t => map (λ h, (hsink h, t +:+ NL)) (root_handlers a)
         | None => []
         end
    else [].
Proof.
  intros Hu. unfold emit, Logger_log, isEnabledFor.
  rewrite effective_unconfigured by exact Hu. rewrite configure_root. simpl.
  destruct (0 >=? lvl) eqn:E0.
  { replace (0 <? lvl) with false by lia. reflexivity. }
  replace (0 <? lvl) with true by lia. simpl.
  destruct (lvl >=? level a) eqn:E1.
  2:{ replace (level a <=? lvl) with false by lia. reflexivity. }
  replace (level a <=? lvl) with true by lia.
  rewrite callHandlers_unconfigured.
  - rewrite configure_root. cbn [handlers].
    apply run_handlers_uniform; [apply make_formatter_time_only|].
    apply root_handlers_uniform. cbn [levelno makeRecord]. lia.
  - exact Hu.
  - rewrite configure_root. cbn [handlers]. unfold root_handlers. discriminate.
Qed.

(** A call on one of the three Uvicorn loggers is decided by that logger
    alone. *)
Lemma emit_uvicorn (isatty : bool) (a : Args) (m0 : Manager Handler)
      (n : string) (lvl : Z) (c : Call) :
  include_uvicorn a = true → In n uvicorn_names →
  emit isatty (configure_logging a m0) n lvl c
  = if isEnabledFor (configure_logging a m0) n lvl
    then match (format isatty (make_formatter (service_name a))
                  (makeRecord n lvl c)).1 with
         | Some t => map (λ h, (hsink h, t +:+ NL)) (uvicorn_handlers a)
         | None => []
         end
    else [].
Proof.
  intros Hi Hn. unfold emit, Logger_log.
  destruct (isEnabledFor (configure_logging a m0) n lvl) eqn:He; [|reflexivity].
  pose proof (configure_uvicorn_logger a m0 n Hi Hn) as Hlg.
  rewrite callHandlers_stop;
    change (name (makeRecord n lvl c)) with n; rewrite Hlg; cbn [handlers propagate].
  - apply run_handlers_uniform; [apply make_formatter_time_only|].
    apply uvicorn_handlers_uniform. cbn [levelno makeRecord].
    unfold isEnabledFor in He. destruct (0 >=? lvl) eqn:E; [discriminate|lia].
  - reflexivity.
  - unfold uvicorn_handlers. discriminate.
Qed.

(** A call on a logger that carries the handlers of a Uvicorn logger and
    does not propagate is decided by that logger alone. *)
Lemma emit_own_handlers (isatty : bool) (a : Args) (m : Manager Handler)
      (n : string) (k lvl : Z) (c : Call) :
  getLogger m n
  = {| PyLogging.level := k; handlers := uvicorn_handlers a;
       propagate := false |} →
  emit isatty m n lvl c
  = if isEnabledFor m n lvl
    then match (format isatty (make_formatter (service_name a))
                  (makeRecord n lvl c)).1 with
         | Some t => map (λ h, (hsink h, t +:+ NL)) (uvicorn_handlers a)
         | None => []
         end
    else [].
Proof.
  intros Hlg. unfold emit, Logger_log.
  destruct (isEnabledFor m n lvl) eqn:He; [|reflexivity].
  rewrite callHandlers_stop;
    change (name (makeRecord n lvl c)) with n; rewrite Hlg; cbn [handlers propagate].
  - apply run_handlers_uniform; [apply make_formatter_time_only|].
    apply uvicorn_handlers_uniform. cbn [levelno makeRecord].
    unfold isEnabledFor in He. destruct (0 >=? lvl) eqn:E; [discriminate|lia].
  - reflexivity.
  - unfold uvicorn_handlers. discriminate.
Qed.

(** A call with [include_uvicorn=False] leaves the named loggers as they
    are. *)
Lemma configure_keeps_named (a : Args) (m : Manager Handler) (n : string) :
  include_uvicorn a = false → is_root_name n = false →
  getLogger (configure_logging a m) n = getLogger m n.
Proof.
  intros Hi Hr. unfold configure_logging. rewrite Hi.
  unfold getLogger, lookup_dict. rewrite Hr. reflexivity.
Qed.

End StdFacts.

(* ===================================================================== *)
(** ** Facts about the interception of [logging] by the Loguru module *)
(* ===================================================================== *)

Module InterceptFacts.
Import Text Props DispatchFacts LoguruFacts LoguruImpl.

Lemma configure_one_keeps (m m' : PyLogging.Manager PyHandler)
      (spec : string * LevelVal) :
  configure_one m spec = inr m' →
  intercepted (PyLogging.getLogger m' spec.1)
  ∧ ∀ n, intercepted (PyLogging.getLogger m n) →
         intercepted (PyLogging.getLogger m' n).
Proof.
  destruct spec as [n0 l0]. unfold configure_one.
  destruct (PyLogging.checkLevel (convert_level l0)) as [e|k]; [discriminate|].
  intros [= <-]. simpl. split.
  - rewrite getLogger_set_same. split; reflexivity.
  - intros n Hn.
    destruct (getLogger_set_cases m n n0
                {| PyLogging.level := k;
                   PyLogging.handlers := [InterceptHandler];
                   PyLogging.propagate := false |}) as [-> | ->];
      [split; reflexivity | exact Hn].
Qed.

Lemma configure_all_keeps (specs : list (string * LevelVal))
      (m m' : PyLogging.Manager PyHandler) :
  configure_all m specs = (None, m') →
  ∀ n, intercepted (PyLogging.getLogger m n) →
       intercepted (PyLogging.getLogger m' n).
Proof.
  revert m. induction specs as [|spec specs IH]; intros m; simpl.
  - intros [= <-]. auto.
  - destruct (configure_one m spec) as [e|m1] eqn:H1; [discriminate|].
    intros Hall n Hn. apply (IH m1 Hall).
    apply (proj2 (configure_one_keeps _ _ _ H1)). exact Hn.
Qed.

(** Every logger named in [loggers_to_configure] ends up intercepted,
    also when its name occurs more than once. *)
Lemma configure_all_intercepts (specs : list (string * LevelVal))
      (m m' : PyLogging.Manager PyHandler) :
  configure_all m specs = (None, m') →
  ∀ n, In n (map fst specs) → intercepted (PyLogging.getLogger m' n).
Proof.
  revert m. induction specs as [|spec specs IH]; intros m; simpl.
  - intros _ n [].
  - destruct (configure_one m spec) as [e|m1] eqn:H1; [discriminate|].
    intros Hall n [<-|Hn].
    + apply (configure_all_keeps specs m1 m' Hall).
      exact (proj1 (configure_one_keeps _ _ _ H1)).
    + eapply IH; eauto.
Qed.

(** What a successful [configure_logging] with interception leaves. *)
Lemma configure_done (tty : bool) (a : Args) (w0 w : World) :
  configure_logging tty a w0 = Done w → intercept_stdlib a = true →
  configure_all (basicConfig_force (py w0))
    (loggers_to_configure (level a) (additional_loggers a)) = (None, py w)
  ∧ core w = expected_core a.
Proof.
  intros Hd Hi. split.
  - unfold configure_logging in Hd. rewrite Hi in Hd.
    destruct (Loguru.add Stdout _ _ _ _ _ _ _ _) as [e|c1]; [discriminate|].
    destruct (if truthy (log_file a) then _ else _) as [e|c2]; [discriminate|].
    unfold intercept_standard_logging in Hd. cbn [py core] in Hd.
    destruct (configure_all _ _) as [[e|] m']; [discriminate|].
    injection Hd as <-. reflexivity.
  - rewrite <- (configure_core tty a w0), Hd. reflexivity.
Qed.

(** The shim forwards a record to Loguru or drops it; Loguru writes at
    most once per handler. *)
Lemma intercept_emit_sub (c : Loguru.Core) (env : Env)
      (r : PyLogging.LogRecord) :
  ∃ out', sublist (intercept_emit c env r) out'
          ∧ map fst out' = map Loguru.sink c.
Proof.
  unfold intercept_emit.
  destruct (PyLogging.getMessage r) as [msg|].
  2:{ exists (map (λ h, (Loguru.sink h, "")) c). split; [apply sublist_nil_l|].
      rewrite map_map. reflexivity. }
  unfold Loguru.log.
  destruct (Loguru.resolve_level _) as [e|lv].
  { exists (map (λ h, (Loguru.sink h, "")) c). split; [apply sublist_nil_l|].
    rewrite map_map. reflexivity. }
  eexists. split; [apply emit_all_sub|]. rewrite map_map. reflexivity.
Qed.

(** A call on an intercepted logger goes through the shim and nowhere
    else. *)
Lemma emit_intercepted (w : World) (env : Env) (n : string) (lvl : Z)
      (c : PyLogging.Call) :
  intercepted (PyLogging.getLogger (py w) n) →
  emit_stdlib w env n lvl c
  = if PyLogging.isEnabledFor (py w) n lvl
    then intercept_emit (core w) env (PyLogging.makeRecord n lvl c)
    else [].
Proof.
  intros [Hh Hp]. unfold emit_stdlib, PyLogging.Logger_log.
  destruct (PyLogging.isEnabledFor (py w) n lvl) eqn:He; [|reflexivity].
  rewrite callHandlers_stop;
    change (PyLogging.name (PyLogging.makeRecord n lvl c)) with n.
  - rewrite Hh. simpl.
    unfold PyLogging.isEnabledFor in He.
    destruct (0 >=? lvl) eqn:E0; [discriminate|].
    unfold PyLogging.NOTSET. destruct (lvl >=? 0) eqn:E1; [|lia].
    rewrite app_nil_r. reflexivity.
  - exact Hp.
  - rewrite Hh. discriminate.
Qed.

(** The level Loguru gives an intercepted record has the record's own
    number. *)
Lemma intercept_level (lvl : Z) :
  0 ≤ lvl →
  ∃ lv, Loguru.resolve_level
          match Loguru.level_name_of (PyLogging.getLevelName lvl) with
          | inr n => Loguru.ByName n
          | inl _ => Loguru.ByNo lvl
          end = inr lv
        ∧ lv.1.2 = lvl.
Proof.
  intros Hl. unfold PyLogging.getLevelName.
  destruct (lvl =? 50) eqn:E50; [eexists; split; [reflexivity|simpl; lia]|].
  destruct (lvl =? 40) eqn:E40; [eexists; split; [reflexivity|simpl; lia]|].
  destruct (lvl =? 30) eqn:E30; [eexists; split; [reflexivity|simpl; lia]|].
  destruct (lvl =? 20) eqn:E20; [eexists; split; [reflexivity|simpl; lia]|].
  destruct (lvl =? 10) eqn:E10; [eexists; split; [reflexivity|simpl; lia]|].
  destruct (lvl =? 0) eqn:E0.
  - simpl. replace (lvl <? 0) with false by lia. eexists. split; reflexivity.
  - simpl. replace (lvl <? 0) with false by lia. eexists. split; reflexivity.
Qed.

(** An enabled call with a message reaches every Loguru handler whose
    level it passes. *)
Lemma intercept_emit_above (c : Loguru.Core) (env : Env) (n : string)
      (lvl k : Z)
      (call : PyLogging.Call) (msg : string) :
  0 ≤ lvl → PyLogging.c_message call = Some msg →
  Forall (λ h, Loguru.levelno h = k) c → k ≤ lvl →
  map fst (intercept_emit c env (PyLogging.makeRecord n lvl call))
  = map Loguru.sink c.
Proof.
  intros Hl Hm Hc Hk. unfold intercept_emit.
  cbn [PyLogging.getMessage PyLogging.makeRecord PyLogging.levelname
       PyLogging.levelno].
  rewrite Hm. unfold Loguru.log.
  destruct (intercept_level lvl Hl) as (lv & -> & Hno).
  rewrite (emit_all_above _ _ k); [rewrite map_map; reflexivity|exact Hc|].
  simpl. lia.
Qed.

Lemma intercept_emit_below (c : Loguru.Core) (env : Env) (n : string)
      (lvl k : Z)
      (call : PyLogging.Call) :
  Forall (λ h, Loguru.levelno h = k) c → lvl < k →
  intercept_emit c env (PyLogging.makeRecord n lvl call) = [].
Proof.
  intros Hc Hk. unfold intercept_emit.
  cbn [PyLogging.getMessage PyLogging.makeRecord PyLogging.levelname
       PyLogging.levelno].
  destruct (PyLogging.c_message call) as [msg|]; [|reflexivity].
  unfold Loguru.log.
  destruct (Loguru.resolve_level _) as [e|lv] eqn:Hr; [reflexivity|].
  rewrite (emit_all_below _ _ k); [reflexivity|exact Hc|].
  destruct (Z_lt_le_dec lvl 0) as [Hneg|Hpos].
  - simpl. revert Hr. unfold PyLogging.getLevelName.
    replace (lvl =? 50) with false by lia.
    replace (lvl =? 40) with false by lia.
    replace (lvl =? 30) with false by lia.
    replace (lvl =? 20) with false by lia.
    replace (lvl =? 10) with false by lia.
    replace (lvl =? 0) with false by lia.
    simpl. replace (lvl <? 0) with true by lia. discriminate.
  - destruct (intercept_level lvl Hpos) as (lv' & Hr' & Hno).
    rewrite Hr in Hr'. injection Hr' as <-. simpl. lia.
Qed.

Lemma configure_one_ok (m : PyLogging.Manager PyHandler) (n : string)
      (l : LevelVal) (k : Z) :
  PyLogging.checkLevel (convert_level l) = inr k →
  configure_one m (n, l)
  = inr (PyLogging.set_logger n
           {| PyLogging.level := k; PyLogging.handlers := [InterceptHandler];
              PyLogging.propagate := false |} m).
Proof. intros Hk. unfold configure_one. rewrite Hk. reflexivity. Qed.

(** The state after [configure_logging(level)] with the other arguments
    at their defaults: the three built-in loggers, set in this order. *)
Lemma configure_defaults (tty : bool) (lvl : string) (k' k : Z) (c : string)
      (w0 : World) :
  Loguru.levels lvl = Some (k', c) →
  PyLogging.checkLevel (convert_level (LvlStr lvl)) = inr k →
  configure_logging tty (defaults lvl) w0
  = Done {| core := expected_core (defaults lvl);
            py := PyLogging.set_logger "uvicorn.access"
                    {| PyLogging.level := 30;
                       PyLogging.handlers := [InterceptHandler];
                       PyLogging.propagate := false |}
                    (PyLogging.set_logger "uvicorn.error"
                       {| PyLogging.level := k;
                          PyLogging.handlers := [InterceptHandler];
                          PyLogging.propagate := false |}
                       (PyLogging.set_logger "uvicorn"
                          {| PyLogging.level := k;
                             PyLogging.handlers := [InterceptHandler];
                             PyLogging.propagate := false |}
                          (basicConfig_force (py w0)))) |}.
Proof.
  intros Hl Hk.
  unfold configure_logging, expected_core, Loguru.add, Loguru.resolve_levelno,
    defaults.
  cbn [level colorize log_file intercept_stdlib additional_loggers max_bytes
       backup_count truthy].
  rewrite Hl.
  unfold intercept_standard_logging, loggers_to_configure.
  cbn [app py core configure_all].
  rewrite (configure_one_ok _ _ _ _ Hk).
  rewrite (configure_one_ok _ _ _ _ Hk).
  rewrite (configure_one_ok _ "uvicorn.access" (LvlStr "WARNING") 30)
    by reflexivity.
  reflexivity.
Qed.

Lemma expected_core_NoDup (a : Args) :
  NoDup (map Loguru.sink (expected_core a)).
Proof.
  unfold expected_core.
  destruct (Loguru.levels (level a)) as [[k c]|]; [|apply NoDup_nil_2].
  destruct (truthy (log_file a)); simpl.
  - apply NoDup_cons. split; [|apply NoDup_singleton].
    intros Hin. apply list_elem_of_singleton in Hin. discriminate.
  - apply NoDup_singleton.
Qed.

End InterceptFacts.

(* ===================================================================== *)
(** ** Facts about rotation *)
(* ===================================================================== *)

Module RotationFacts.
Import Text Props Rotation.

Lemma foldl_snoc {A B} (f : A → B → A) (a : A) (l : list B) (x : B) :
  foldl f a (l ++ [x]) = f (foldl f a l) x.
Proof. revert a. induction l as [|y l IH]; intros a; simpl; auto. Qed.

(** One turn of the loop: [base.i] is gone, [base.(i+1)] holds what
    [base.i] held (or stays as it was if there was no [base.i]). *)
Lemma lookup_shift_one {A} (fs : gmap nat A) (i j : nat) :
  shift_one fs i !! j
  = if decide (j = i) then None
    else if decide (j = S i)
         then match fs !! i with Some c => Some c | None => fs !! S i end
         else fs !! j.
Proof.
  unfold shift_one. destruct (fs !! i) as [c|] eqn:Hi.
  - repeat case_decide; subst; simplify_map_eq; try lia; auto.
  - repeat case_decide; subst; auto.
Qed.

(** The whole loop [for i in range(k, 0, -1)]. *)
Lemma lookup_shift_from {A} (k : nat) (fs : gmap nat A) (j : nat) :
  shift_from k fs !! j
  = if decide (j = 0%nat) then fs !! 0%nat
    else if decide (k = 0%nat) then fs !! j
    else if decide (j = 1%nat) then None
    else if decide (j ≤ k)%nat then fs !! (j - 1)%nat
    else if decide (j = S k)
         then match fs !! k with Some c => Some c | None => fs !! S k end
         else fs !! j.
Proof.
  revert fs j. induction k as [|k IH]; intros fs j; simpl.
  - repeat case_decide; subst; auto; lia.
  - rewrite IH, !lookup_shift_one.
    destruct (decide (j = 0%nat)) as [->|Hj0].
    { repeat case_decide; try lia; auto. }
    destruct (decide (k = 0%nat)) as [->|Hk0].
    { repeat case_decide; subst; try lia; auto. }
    destruct (decide (j = 1%nat)) as [->|Hj1].
    { repeat case_decide; try lia; auto. }
    destruct (decide (j ≤ k)%nat) as [Hle|Hgt].
    { repeat case_decide; try lia; auto. }
    destruct (decide (j = S k)) as [->|Hne].
    { repeat case_decide; try lia.
      replace (S k - 1)%nat with k by lia.
      destruct (fs !! k); reflexivity. }
    repeat case_decide; try lia; auto.
Qed.

(** The backups after a rollover with [backupCount = k + 1]. *)
Lemma lookup_doRollover (k : nat) (d : Dir) (j : nat) :
  backup (doRollover (S k) d) !! j
  = if decide (j = 1%nat) then Some (active d)
    else shift_from k (backup d) !! j.
Proof.
  simpl. case_decide; subst; simplify_map_eq; auto.
Qed.

(** A rollover of [base.1 .. base.n] leaves [base.1 .. base.(n+1)], capped
    at the backup count. *)
Lemma contiguous_doRollover (k n : nat) (d : Dir) :
  (n ≤ S k)%nat → contiguous n d →
  contiguous (min (S k) (S n)) (doRollover (S k) d).
Proof.
  intros Hn Hc j. rewrite lookup_doRollover, lookup_shift_from.
  pose proof (Hc 0%nat) as H0. pose proof (Hc j) as Hj.
  pose proof (Hc (j - 1)%nat) as Hj1. pose proof (Hc k) as Hk.
  pose proof (Hc (S k)) as HSk.
  repeat case_decide; subst.
  all: try (split; [intros _; lia | intros _; eexists; reflexivity]).
  all: try (rewrite H0; lia).
  all: try (rewrite Hj; lia).
  all: try (rewrite Hj1; lia).
  all: try (rewrite <- not_eq_None_Some, eq_None_not_Some; lia).
  - destruct (backup d !! k) as [c|] eqn:E.
    + split; [intros _|intros _; eexists; reflexivity].
      assert (is_Some (Some c)) as Hs by eauto. apply Hk in Hs. lia.
    + rewrite HSk. split; [lia|]. intros Hr.
      assert (1 ≤ k ≤ n)%nat as Hkn by lia. apply Hk in Hkn.
      destruct Hkn as [? ?]. discriminate.
Qed.

Lemma contiguous_size (n : nat) (d : Dir) :
  contiguous n d → size (backup d) = n.
Proof.
  intros Hc. rewrite <- (size_dom (D := gset nat)).
  assert (dom (backup d) = set_seq 1 n) as ->.
  { apply set_eq. intros i. rewrite elem_of_dom, elem_of_set_seq.
    rewrite (Hc i). lia. }
  apply size_set_seq.
Qed.

Lemma contiguous_opened (c : string) : contiguous 0 (opened c).
Proof.
  intros i. unfold opened. simpl. rewrite lookup_empty.
  split; [intros [? ?]; discriminate|lia].
Qed.

Lemma contiguous_backup (n : nat) (d d' : Dir) :
  backup d' = backup d → contiguous n d → contiguous n d'.
Proof. unfold contiguous. intros ->. auto. Qed.

(** The invariant of a handler's directory: the backups are numbered
    without a gap and never exceed the backup count. *)
Lemma emit_invariant (never : bool) (N : Z) (B : nat) (d : Dir) (msg : string) :
  (∃ n, (n ≤ B)%nat ∧ contiguous n d) →
  ∃ n, (n ≤ B)%nat ∧ contiguous n (emit never N B d msg).
Proof.
  intros (n & Hn & Hc). unfold emit.
  destruct (shouldRollover never N d msg).
  - destruct B as [|k].
    + exists n. split; [exact Hn|]. exact Hc.
    + exists (min (S k) (S n)). split; [lia|].
      apply (contiguous_backup _ (doRollover (S k) d)); [reflexivity|].
      apply contiguous_doRollover; assumption.
  - exists n. split; [exact Hn|]. exact Hc.
Qed.

Lemma run_invariant (never : bool) (N : Z) (B : nat) (msgs : list string) (d : Dir) :
  (∃ n, (n ≤ B)%nat ∧ contiguous n d) →
  ∃ n, (n ≤ B)%nat ∧ contiguous n (run never N B d msgs).
Proof.
  revert d. induction msgs as [|m msgs IH]; intros d Hd; simpl; [exact Hd|].
  apply IH. apply emit_invariant. exact Hd.
Qed.

(** After a sequence of rollovers from a directory without backups, the
    slot [i + 1] holds the content rotated [i] rollovers ago. *)
Lemma rollovers_slots (k : nat) (c0 : string) (cs : list string) :
  contiguous (min (S k) (length cs)) (rollovers (S k) (opened c0) cs)
  ∧ ∀ i, (i < min (S k) (length cs))%nat →
         backup (rollovers (S k) (opened c0) cs) !! S i = rev cs !! i.
Proof.
  induction cs as [|c cs IH] using rev_ind.
  - split; [apply contiguous_opened|]. simpl. intros i Hi. lia.
  - destruct IH as [Hc Hs]. unfold rollovers in *.
    rewrite foldl_snoc, rev_unit, length_app. simpl length.
    set (d := foldl _ (opened c0) cs) in *.
    split.
    + replace (min (S k) (length cs + 1))
        with (min (S k) (S (min (S k) (length cs)))) by lia.
      apply contiguous_doRollover; [lia|].
      apply (contiguous_backup _ d); [reflexivity|exact Hc].
    + intros i Hi. rewrite lookup_doRollover, lookup_shift_from. simpl backup.
      destruct i as [|i]; [reflexivity|]. simpl.
      repeat case_decide; try lia.
      * replace (S (S i) - 1)%nat with (S i) by lia. apply Hs. lia.
      * assert (S i = k) as Hk by lia. subst k.
        rewrite (Hs i) by lia.
        destruct (rev cs !! i) as [x|] eqn:E; [reflexivity|].
        apply lookup_ge_None in E. rewrite length_rev in E. lia.
Qed.

(** *** Loguru's file sink *)




End RotationFacts.

(* ===================================================================== *)
(** ** Facts about handlers sharing a path *)
(* ===================================================================== *)

Module SharedFacts.
Import Text Props.

Lemma utf8_len_app (a b : string) :
  utf8_len (a +:+ b) = (utf8_len a + utf8_len b)%nat.
Proof.
  induction a as [|c a IH]; [reflexivity|].
  change (utf8_width c + utf8_len (a +:+ b)
          = utf8_width c + utf8_len a + utf8_len b)%nat.
  rewrite IH. lia.
Qed.

Lemma utf8_len_ascii (s : string) :
  is_ascii s = true → utf8_len s = String.length s.
Proof.
  induction s as [|c s IH]; [reflexivity|]. simpl. unfold utf8_width.
  intros H. apply andb_true_iff in H as [Hc Hs]. rewrite Hc, IH by exact Hs.
  reflexivity.
Qed.

Lemma utf8_len_empty (s : string) : utf8_len s = 0%nat ↔ s = "".
Proof.
  destruct s as [|c s]; [tauto|]. simpl. unfold utf8_width.
  split; [|discriminate]. destruct (nat_of_ascii c <? 128)%nat; lia.
Qed.

Lemma string_length_app (a b : string) :
  String.length (a +:+ b) = (String.length a + String.length b)%nat.
Proof.
  induction a as [|x a IH]; [reflexivity|].
  change (S (String.length (a +:+ b))
          = S (String.length a + String.length b)).
  f_equal. exact IH.
Qed.

(** The names after the renaming of [base] to [base.1]. *)
Lemma lookup_rolled {A} (m : gmap nat A) (x : A) (j : nat) :
  (<[1%nat := x]> (delete 1%nat m)) !! j
  = if decide (j = 1%nat) then Some x else m !! j.
Proof. case_decide; subst; simplify_map_eq; auto. Qed.



Lemma numbered_size {A} (n : nat) (m : gmap nat A) :
  numbered n m → size m = n.
Proof.
  intros Hc. rewrite <- (size_dom (D := gset nat)).
  assert (dom m = set_seq 1 n) as ->.
  { apply set_eq. intros i. rewrite elem_of_dom, elem_of_set_seq.
    rewrite (Hc i). lia. }
  apply size_set_seq.
Qed.


Lemma numbered_unique {A} (n n' : nat) (m : gmap nat A) :
  numbered n m → numbered n' m → n = n'.
Proof.
  intros H1 H2. rewrite <- (numbered_size n m H1). apply numbered_size, H2.
Qed.

(** *** One record *)

(** With the seek the library sees the size of the file; a stream at the
    end of its file gives the same answer without it. *)
Lemma tell_at_end (seeks : bool) (f : Shared.FS) (i : nat) :
  Shared.tell seeks f (Shared.at_end f i) = utf8_len (Shared.read f i).
Proof. destruct seeks; reflexivity. Qed.


(** What a record that rolls over leaves, for a backup count of at least
    one. *)
Lemma emit_rolls (never seeks : bool) (N : Z) (k : nat) (st : Shared.State)
      (h : nat) (s : Shared.Stream) (b : nat) (msg : string) :
  Shared.streams st !! h = Some s →
  Shared.base (Shared.fs st) = Some b →
  Shared.shouldRollover never seeks N (Shared.fs st) s msg = true →
  Shared.emit never seeks N (S k) st h msg
  = {| Shared.fs :=
         {| Shared.content :=
              <[Shared.next (Shared.fs st) := msg +:+ NL]>
                (<[Shared.next (Shared.fs st) := ""]>
                   (Shared.content (Shared.fs st)));
            Shared.base := Some (Shared.next (Shared.fs st));
            Shared.backup :=
              <[1%nat := b]>
                (delete 1%nat
                   (Rotation.shift_from k (Shared.backup (Shared.fs st))));
            Shared.next := S (Shared.next (Shared.fs st)) |};
       Shared.streams :=
         <[h := {| Shared.inode := Shared.next (Shared.fs st);
                   Shared.pos := utf8_len (msg +:+ NL) |}]>
           (Shared.streams st) |}.
Proof.
  intros Hh Hb Hs. unfold Shared.emit. rewrite Hh, Hs.
  unfold Shared.doRollover, Shared.rotate. rewrite Hb.
  unfold Shared.open_append. cbn [Shared.base Shared.next Shared.content
                                   Shared.backup].
  unfold Shared.at_end, Shared.write, Shared.read.
  cbn [Shared.base Shared.next Shared.content Shared.backup].
  rewrite !lookup_insert_eq. reflexivity.
Qed.

(** What a record that does not roll over leaves. *)
Lemma emit_appends (never seeks : bool) (N : Z) (B : nat) (st : Shared.State)
      (h : nat) (s : Shared.Stream) (msg : string) :
  Shared.streams st !! h = Some s →
  Shared.shouldRollover never seeks N (Shared.fs st) s msg = false →
  Shared.emit never seeks N B st h msg
  = {| Shared.fs := Shared.write (Shared.inode s) msg (Shared.fs st);
       Shared.streams :=
         <[h := Shared.at_end
                  (Shared.write (Shared.inode s) msg (Shared.fs st))
                  (Shared.inode s)]> (Shared.streams st) |}.
Proof. intros Hh Hs. unfold Shared.emit. rewrite Hh, Hs. reflexivity. Qed.

(** With a backup count of zero a rollover reopens the file. *)
Lemma emit_no_backup (never seeks : bool) (N : Z) (st : Shared.State)
      (h : nat) (s : Shared.Stream) (b : nat) (msg : string) :
  Shared.streams st !! h = Some s →
  Shared.base (Shared.fs st) = Some b →
  Shared.shouldRollover never seeks N (Shared.fs st) s msg = true →
  Shared.emit never seeks N 0 st h msg
  = {| Shared.fs := Shared.write b msg (Shared.fs st);
       Shared.streams :=
         <[h := Shared.at_end (Shared.write b msg (Shared.fs st)) b]>
           (Shared.streams st) |}.
Proof.
  intros Hh Hb Hs. unfold Shared.emit. rewrite Hh, Hs.
  unfold Shared.doRollover, Shared.open_append. rewrite Hb. reflexivity.
Qed.

(** The size of a file after a line is appended to it. *)
Lemma read_write (f : Shared.FS) (i : nat) (msg : string) :
  Shared.read (Shared.write i msg f) i = Shared.read f i +:+ msg +:+ NL.
Proof.
  unfold Shared.read at 1, Shared.write. cbn [Shared.content].
  rewrite lookup_insert_eq. reflexivity.
Qed.

Lemma read_write_ne (f : Shared.FS) (i j : nat) (msg : string) :
  i ≠ j → Shared.read (Shared.write i msg f) j = Shared.read f j.
Proof.
  intros Hne. unfold Shared.read, Shared.write. cbn [Shared.content].
  rewrite lookup_insert_ne by exact Hne. reflexivity.
Qed.

(** *** The invariant of the directory *)


Lemma rolls_false (never seeks : bool) (N : Z) (st : Shared.State) (h : nat)
      (msg : string) :
  Shared.streams st !! h = None → Shared.rolls never seeks N st h msg = false.
Proof. intros H. unfold Shared.rolls. rewrite H. reflexivity. Qed.


Lemma run_cons (never seeks : bool) (N : Z) (B : nat) (st : Shared.State)
      (h : nat) (msg : string) (rest : list (nat * string)) :
  Shared.run never seeks N B st ((h, msg) :: rest)
  = ((Shared.run never seeks N B (Shared.emit never seeks N B st h msg)
        rest).1,
     ((if Shared.rolls never seeks N st h msg then 1 else 0)
      + (Shared.run never seeks N B (Shared.emit never seeks N B st h msg)
           rest).2)%nat).
Proof.
  cbn [Shared.run].
  destruct (Shared.run never seeks N B (Shared.emit never seeks N B st h msg)
              rest).
  reflexivity.
Qed.


(** *** Streams at the end of their file *)

(** After its own write a stream is at the end of its file; a single
    stream on the path is so at all times. *)
Lemma emit_at_end (never seeks : bool) (N : Z) (B : nat) (st : Shared.State)
      (h : nat) (msg : string) (s : Shared.Stream) :
  (length (Shared.streams st) ≤ 1)%nat →
  (∀ s, s ∈ Shared.streams st →
        Shared.pos s = utf8_len (Shared.read (Shared.fs st) (Shared.inode s))) →
  s ∈ Shared.streams (Shared.emit never seeks N B st h msg) →
  Shared.pos s
  = utf8_len (Shared.read (Shared.fs (Shared.emit never seeks N B st h msg))
                (Shared.inode s)).
Proof.
  intros Hk Hall. unfold Shared.emit.
  destruct (Shared.streams st !! h) as [s0|] eqn:Hh; [|apply Hall].
  destruct (Shared.streams st) as [|s1 [|s2 rest]] eqn:Hs;
    [discriminate| |simpl in Hk; lia].
  destruct h as [|h]; [|discriminate].
  destruct (if Shared.shouldRollover never seeks N (Shared.fs st) s0 msg
            then Shared.doRollover B (Shared.fs st)
            else (Shared.fs st, Shared.inode s0)) as [f1 i1].
  cbn. intros Hin. apply list_elem_of_singleton in Hin. subst s. reflexivity.
Qed.

Lemma emit_length (never seeks : bool) (N : Z) (B : nat) (st : Shared.State)
      (h : nat) (msg : string) :
  length (Shared.streams (Shared.emit never seeks N B st h msg))
  = length (Shared.streams st).
Proof.
  unfold Shared.emit. destruct (Shared.streams st !! h) as [s|]; [|reflexivity].
  destruct (if Shared.shouldRollover never seeks N (Shared.fs st) s msg
            then Shared.doRollover B (Shared.fs st)
            else (Shared.fs st, Shared.inode s)) as [f1 i1].
  cbn. apply length_insert.
Qed.

(** *** One handler *)

Lemma fmap_shift_one {A C} (g : A → C) (m : gmap nat A) (i : nat) :
  g <$> Rotation.shift_one m i = Rotation.shift_one (g <$> m) i.
Proof.
  unfold Rotation.shift_one. rewrite lookup_fmap.
  destruct (m !! i) as [c|]; simpl; [|reflexivity].
  rewrite fmap_insert, !fmap_delete. reflexivity.
Qed.

Lemma fmap_shift_from {A C} (g : A → C) (k : nat) (m : gmap nat A) :
  g <$> Rotation.shift_from k m = Rotation.shift_from k (g <$> m).
Proof.
  revert m. induction k as [|k IH]; intros m; simpl; [reflexivity|].
  rewrite IH, fmap_shift_one. reflexivity.
Qed.

(** A rollover gives no new content to a name: what a name holds
    afterwards, a name held before. *)
Lemma shift_from_values {A} (k : nat) (m : gmap nat A) (j : nat) (x : A) :
  Rotation.shift_from k m !! j = Some x → ∃ i, m !! i = Some x.
Proof.
  rewrite RotationFacts.lookup_shift_from.
  repeat case_decide; try discriminate; eauto.
  destruct (m !! k) as [c|] eqn:E; [intros [= <-]; eauto|eauto].
Qed.

(** With one handler the files, as their names show them, change as the
    directory of [Rotation] does, whether or not the library seeks to the
    end before it asks for the position. *)
Lemma single_handler_emit (never seeks : bool) (N : Z) (B : nat)
      (st : Shared.State) (msg : string) :
  single_handler st →
  single_handler (Shared.emit never seeks N B st 0 msg)
  ∧ Shared.view (Shared.fs (Shared.emit never seeks N B st 0 msg))
    = Rotation.emit never N B (Shared.view (Shared.fs st)) msg.
Proof.
  intros (b & Hs & Hb & Hlt & Hbk).
  set (s := Shared.at_end (Shared.fs st) b) in *.
  assert (Hh : Shared.streams st !! 0%nat = Some s) by (rewrite Hs; reflexivity).
  assert (Hcheck : Rotation.shouldRollover never N (Shared.view (Shared.fs st))
                     msg
                   = Shared.shouldRollover never seeks N (Shared.fs st) s msg).
  { unfold Rotation.shouldRollover, Shared.shouldRollover, Shared.view, s.
    rewrite tell_at_end. cbn [Rotation.active]. rewrite Hb. reflexivity. }
  assert (Happend :
            single_handler
              {| Shared.fs := Shared.write b msg (Shared.fs st);
                 Shared.streams :=
                   <[0%nat := Shared.at_end
                                (Shared.write b msg (Shared.fs st)) b]>
                     (Shared.streams st) |}
            ∧ Shared.view (Shared.write b msg (Shared.fs st))
              = Rotation.write msg (Shared.view (Shared.fs st))).
  { split.
    - exists b. cbn. rewrite Hs. repeat split; auto; apply (Hbk i x); auto.
    - unfold Shared.view, Rotation.write.
      cbn [Shared.base Shared.backup Shared.write Rotation.active
             Rotation.backup].
      rewrite Hb, read_write. f_equal.
      apply map_fmap_ext. intros i x Hx. apply read_write_ne.
      intros <-. exact (proj1 (Hbk i b Hx) eq_refl). }
  unfold Rotation.emit. rewrite Hcheck.
  destruct (Shared.shouldRollover never seeks N (Shared.fs st) s msg) eqn:Hroll.
  2:{ rewrite (emit_appends never seeks N B st 0 s msg Hh Hroll).
      exact Happend. }
  destruct B as [|k].
  { rewrite (emit_no_backup never seeks N st 0 s b msg Hh Hb Hroll).
    exact Happend. }
  rewrite (emit_rolls never seeks N k st 0 s b msg Hh Hb Hroll).
  set (j := Shared.next (Shared.fs st)) in *.
  assert (Hval : ∀ i x,
             (<[1%nat := b]>
                (delete 1%nat
                   (Rotation.shift_from k (Shared.backup (Shared.fs st)))))
               !! i = Some x → (x < j)%nat).
  { intros i x. rewrite lookup_rolled. case_decide; [intros [= <-]; exact Hlt|].
    intros Hx. apply shift_from_values in Hx as [i' Hx].
    exact (proj2 (Hbk i' x Hx)). }
  split.
  - exists j. cbn. rewrite Hs. split.
    { unfold Shared.at_end, Shared.read. cbn [Shared.content].
      rewrite lookup_insert_eq. reflexivity. }
    split; [reflexivity|].
    split; [lia|]. intros i x Hx. specialize (Hval i x Hx). lia.
  - unfold Shared.view, Rotation.write, Rotation.doRollover.
    cbn [Shared.fs Shared.base Shared.backup Rotation.active Rotation.backup].
    rewrite Hb. f_equal.
    + unfold Shared.read. cbn [Shared.content].
      rewrite lookup_insert_eq. reflexivity.
    + rewrite <- fmap_shift_from, <- fmap_delete, <- fmap_insert.
      apply map_fmap_ext. intros i x Hx. unfold Shared.read.
      cbn [Shared.content]. specialize (Hval i x Hx).
      rewrite !lookup_insert_ne by lia. reflexivity.
Qed.

Lemma single_handler_run (never seeks : bool) (N : Z) (B : nat)
      (msgs : list string) (st : Shared.State) :
  single_handler st →
  Shared.view
    (Shared.fs (Shared.run never seeks N B st (map (pair 0%nat) msgs)).1)
  = Rotation.run never N B (Shared.view (Shared.fs st)) msgs.
Proof.
  revert st. induction msgs as [|m msgs IH]; intros st Hst; [reflexivity|].
  cbn [map]. rewrite run_cons. cbn [fst].
  destruct (single_handler_emit never seeks N B st m Hst) as [Hst' Hv].
  rewrite (IH _ Hst'), Hv. reflexivity.
Qed.



End SharedFacts.

(* ===================================================================== *)
(** ** The claims *)
(* ===================================================================== *)

Section Claims.
Import Text Props Samples.

(** C6, as amended.  In the [logging]-based module a console handler
    writes no escape character when standard output is not a terminal:
    its line is the base class's, and free of ESC whenever the service
    name and the record's own texts are.  In the Loguru-based module the
    destination plays no part: the console line is free of ESC when
    [colorize=False] was passed, whatever [sys.stdout.isatty()] says. *)
Theorem C6_colour_follows_tty_or_flag
        (sn : option string) (r r' : PyLogging.LogRecord) (out : list Output)
        (tty : bool) (a : LoguruImpl.Args) (w : LoguruImpl.World)
        (l : Loguru.LevelArg) (call : Loguru.Call) (out' : list Output) :
  (opt_has_esc sn = false → record_esc_free r →
   StdImpl.stream_emit false Stdout (StdImpl.make_formatter sn) r = (out, r') →
   (StdImpl.format false (StdImpl.make_formatter sn) r).1
   = (PyLogging.Formatter_format (StdImpl.make_formatter sn) r).1
   ∧ ∀ text, In (Stdout, text) out → has_esc text = false)
  ∧ (LoguruImpl.colorize a = false → call_esc_free call →
     LoguruImpl.emit
       (LoguruImpl.state_of (LoguruImpl.configure_logging tty a w)) l call
     = inr out' →
     ∀ text, In (Stdout, text) out' → has_esc text = false).
Proof.
  split.
  - intros Hsn Hr He. split; [apply StdFormatFacts.format_plain|].
    intros text Hin. unfold StdImpl.stream_emit in He.
    pose proof (StdFormatFacts.format_plain (StdImpl.make_formatter sn) r) as Hp.
    destruct (StdImpl.format false (StdImpl.make_formatter sn) r)
      as [[s|] r2] eqn:Hf; injection He as <- <-; [|destruct Hin].
    destruct Hin as [[= <-]|[]].
    destruct (PyLogging.Formatter_format (StdImpl.make_formatter sn) r)
      as [o r3] eqn:Hb. simpl in Hp. subst o.
    rewrite TextFacts.has_esc_app, TextFacts.has_esc_NL, orb_false_r.
    eapply EscFacts.Formatter_format_esc;
      eauto using EscFacts.make_formatter_esc_free.
  - intros Hc Hcall He text Hin.
    unfold LoguruImpl.emit, Loguru.log in He.
    rewrite LoguruFacts.configure_core in He.
    destruct (Loguru.resolve_level l) as [e|lv] eqn:Hl; [discriminate|].
    injection He as <-.
    pose proof (LoguruFacts.emit_all_sub (expected_core a)
                  (Loguru.make_record lv call)) as Hsub.
    apply list_elem_of_In in Hin.
    apply (sublist_subseteq _ _ Hsub) in Hin. apply list_elem_of_In in Hin.
    apply in_map_iff in Hin as (h & [= Hs <-] & Hh).
    apply LoguruFacts.formatted_plain_esc; eauto using EscFacts.resolve_level_esc.
    + unfold expected_core in Hh.
      destruct (Loguru.levels (LoguruImpl.level a)) as [[k c]|]; [|destruct Hh].
      destruct Hh as [<-|Hh]; [exact Hc|].
      destruct (truthy (LoguruImpl.log_file a)); [|destruct Hh].
      destruct Hh as [<-|[]]. reflexivity.
    + unfold expected_core in Hh.
      destruct (Loguru.levels (LoguruImpl.level a)) as [[k c]|]; [|destruct Hh].
      destruct Hh as [<-|Hh]; [simpl; rewrite Hc; reflexivity|].
      destruct (truthy (LoguruImpl.log_file a)); [|destruct Hh].
      destruct Hh as [<-|[]]. reflexivity.
Qed.


Lemma C6_colour_follows_tty_or_flag_witness :
  (∀ text,
     In (Stdout, text)
        (StdImpl.stream_emit false Stdout (StdImpl.make_formatter None)
           (PyLogging.makeRecord "app" 20 call0)).1 →
     has_esc text = false)
  ∧ (∀ text,
       In (Stdout, text)
          (Loguru.emit_all (expected_core (test_args "INFO"))
             (Loguru.make_record ("INFO", 20, Loguru.code "1") lcall0)) →
       has_esc text = false).
Proof.
  destruct (C6_colour_follows_tty_or_flag None
              (PyLogging.makeRecord "app" 20 call0)
              (StdImpl.stream_emit false Stdout (StdImpl.make_formatter None)
                 (PyLogging.makeRecord "app" 20 call0)).2
              (StdImpl.stream_emit false Stdout (StdImpl.make_formatter None)
                 (PyLogging.makeRecord "app" 20 call0)).1
              false (test_args "INFO") (LoguruImpl.initial false)
              (Loguru.ByName "INFO") lcall0
              (Loguru.emit_all (expected_core (test_args "INFO"))
                 (Loguru.make_record ("INFO", 20, Loguru.code "1") lcall0)))
    as [H1 H2].
  split.
  - apply H1; [reflexivity | repeat split | vm_compute; reflexivity].
  - apply H2; [reflexivity | repeat split | vm_compute; reflexivity].
Defined.

(** C6 fails as stated: with the default [colorize=True] the Loguru-based
    module colours the console line although standard output is not a
    terminal. *)
Lemma C6_counterexample :
  ∃ text,
    LoguruImpl.emit
      (LoguruImpl.state_of
         (LoguruImpl.configure_logging false (LoguruImpl.defaults "INFO")
            (LoguruImpl.initial false)))
      (Loguru.ByName "INFO") lcall0 = inr [(Stdout, text)]
    ∧ has_esc text = true.
Proof. eexists. split; vm_compute; reflexivity. Qed.

(** C7: in the [logging]-based module the file handler shares the
    console's [StandardizedFormatter], which colours by
    [sys.stdout.isatty()]; when standard output is a terminal the line
    written to the file holds the colour codes too. *)
Theorem C7_file_line_is_coloured :
  ∃ text,
    StdImpl.emit true (StdImpl.configure_logging (file_args 20) PyLogging.fresh)
      "app" 30 call0
    = [(Stdout, text); (LogFile "app.log", text)]
    ∧ has_esc text = true.
Proof. eexists. split; vm_compute; reflexivity. Qed.




(** C9, as amended.  A global level that Loguru does not know makes
    [configure_logging] raise [ValueError] when the console sink is added.
    A per-logger level string whose upper-case form is not an attribute of
    the [logging] module is replaced by INFO: the logger is configured at
    level 20 and no error is raised. *)
Theorem C9_unknown_level_names
        (tty : bool) (a : LoguruImpl.Args) (w : LoguruImpl.World)
        (m : PyLogging.Manager LoguruImpl.PyHandler) (n s : string) :
  (Loguru.levels (LoguruImpl.level a) = None →
   ∃ what w',
     LoguruImpl.configure_logging tty a w
     = LoguruImpl.Raised (LoguruImpl.LoguruError (Loguru.ValueError what)) w'
     ∧ LoguruImpl.core w' = [])
  ∧ (PyLogging.module_attr (upper s) = None →
     LoguruImpl.configure_one m (n, LoguruImpl.LvlStr s)
     = inr (PyLogging.set_logger n
              {| PyLogging.level := 20;
                 PyLogging.handlers := [LoguruImpl.InterceptHandler];
                 PyLogging.propagate := false |} m)).
Proof.
  split.
  - intros Hl. unfold LoguruImpl.configure_logging, Loguru.add. simpl.
    rewrite Hl. do 2 eexists. split; reflexivity.
  - intros Hs. unfold LoguruImpl.configure_one, LoguruImpl.convert_level.
    rewrite Hs. reflexivity.
Qed.

Lemma C9_unknown_level_names_witness :
  (∃ what w',
     LoguruImpl.configure_logging false (LoguruImpl.defaults "LOUD")
       (LoguruImpl.initial false)
     = LoguruImpl.Raised (LoguruImpl.LoguruError (Loguru.ValueError what)) w'
     ∧ LoguruImpl.core w' = [])
  ∧ LoguruImpl.configure_one PyLogging.fresh ("boto3", LoguruImpl.LvlStr "loud")
    = inr (PyLogging.set_logger "boto3"
             {| PyLogging.level := 20;
                PyLogging.handlers := [LoguruImpl.InterceptHandler];
                PyLogging.propagate := false |} PyLogging.fresh).
Proof.
  destruct (C9_unknown_level_names false (LoguruImpl.defaults "LOUD")
              (LoguruImpl.initial false) PyLogging.fresh "boto3" "loud")
    as [H1 H2].
  split; [apply H1; reflexivity | apply H2; reflexivity].
Defined.

(** C9 fails as stated: [configure_logging("INFO",
    additional_loggers=[("boto3", "LOUD")])] returns normally, and the
    logger [boto3] is left at INFO. *)
Lemma C9_counterexample :
  LoguruImpl.succeeded
    (LoguruImpl.configure_logging false loud_args (LoguruImpl.initial false))
  = true
  ∧ PyLogging.level
      (PyLogging.getLogger
         (LoguruImpl.py
            (LoguruImpl.state_of
               (LoguruImpl.configure_logging false loud_args
                  (LoguruImpl.initial false)))) "boto3") = 20.
Proof. split; vm_compute; reflexivity. Qed.

(** C10.  In the Loguru-based module [get_logger] returns the one global
    logger for every argument, [None] included: the name has no effect on
    what is returned. *)
Theorem C10_get_logger_is_global (a b : option string) :
  LoguruImpl.get_logger a = LoguruImpl.get_logger b
  ∧ LoguruImpl.get_logger a = LoguruImpl.logger.
Proof. split; reflexivity. Qed.


(** C1, as amended.  After [configure_logging(L)], for L among the five
    levels, a record emitted on a logger without a level of its own at a
    level strictly below L produces no output, and a record at or above L
    whose message can be built produces exactly one line on each attached
    sink (the console, and the file when one is configured).  A logger
    without a level of its own is, in the [logging]-based module, any
    logger such that neither it nor an ancestor was configured (so none
    of the Uvicorn loggers, which follow the level set on them), the
    service name holding no [%]; in the Loguru-based module it is the
    global Loguru logger. *)
Theorem C1_level_threshold
        (L L' : Level)
        (isatty : bool) (a : StdImpl.Args)
        (m0 : PyLogging.Manager StdImpl.Handler) (n : string)
        (c : PyLogging.Call) (msg : string)
        (tty : bool) (a' : LoguruImpl.Args) (w0 : LoguruImpl.World)
        (call : Loguru.Call) :
  (StdImpl.level a = levelno_of L →
   literal_label (StdImpl.service_name a) →
   unconfigured (StdImpl.configure_logging a m0) n →
   PyLogging.c_message c = Some msg →
   StdImpl.sinks_of (PyLogging.root (StdImpl.configure_logging a m0))
   = std_sinks a
   ∧ (levelno_of L' < levelno_of L →
      StdImpl.emit isatty (StdImpl.configure_logging a m0) n (levelno_of L') c
      = [])
   ∧ (levelno_of L ≤ levelno_of L' →
      ∃ line,
        StdImpl.emit isatty (StdImpl.configure_logging a m0) n
          (levelno_of L') c
        = map (λ s, (s, line)) (std_sinks a)))
  ∧ (LoguruImpl.level a' = name_of L →
     map Loguru.sink
       (LoguruImpl.core
          (LoguruImpl.state_of (LoguruImpl.configure_logging tty a' w0)))
     = loguru_sinks a'
     ∧ ∃ out,
         LoguruImpl.emit
           (LoguruImpl.state_of (LoguruImpl.configure_logging tty a' w0))
           (Loguru.ByName (name_of L')) call = inr out
         ∧ (levelno_of L' < levelno_of L → out = [])
         ∧ (levelno_of L ≤ levelno_of L' → map fst out = loguru_sinks a')).
Proof.
  split.
  - intros Hlv _ Hu Hm. split; [|split].
    + unfold StdImpl.sinks_of. rewrite StdFacts.configure_root. simpl.
      apply StdFacts.root_handlers_sinks.
    + intros Hlt. rewrite StdFacts.emit_unconfigured by exact Hu.
      rewrite Hlv. replace (levelno_of L <=? levelno_of L') with false by lia.
      rewrite andb_false_r. reflexivity.
    + intros Hle. rewrite StdFacts.emit_unconfigured by exact Hu.
      rewrite Hlv. replace (levelno_of L <=? levelno_of L') with true by lia.
      replace (0 <? levelno_of L') with true by (destruct L'; reflexivity).
      destruct (StdFormatFacts.format_total isatty
                  (StdImpl.make_formatter (StdImpl.service_name a))
                  (PyLogging.makeRecord n (levelno_of L') c) msg Hm)
        as (t & r' & ->).
      exists (t +:+ NL). cbn [fst].
      rewrite <- StdFacts.root_handlers_sinks, map_map. reflexivity.
  - intros Hlv.
    destruct (LoguruFacts.levels_of_name L) as [col Hcol].
    destruct (LoguruFacts.levels_of_name L') as [col' Hcol'].
    rewrite <- Hlv in Hcol.
    rewrite LoguruFacts.configure_core. split.
    + apply (LoguruFacts.expected_core_sinks a' _ _ Hcol).
    + unfold LoguruImpl.emit, Loguru.log, Loguru.resolve_level.
      rewrite LoguruFacts.configure_core, Hcol'.
      eexists. split; [reflexivity|]. split.
      * intros Hlt.
        apply (LoguruFacts.emit_all_below _ _ (levelno_of L));
          [apply (LoguruFacts.expected_core_levelno a' _ _ Hcol)|exact Hlt].
      * intros Hle.
        rewrite (LoguruFacts.emit_all_above _ _ (levelno_of L));
          [|apply (LoguruFacts.expected_core_levelno a' _ _ Hcol)|exact Hle].
        rewrite map_map. simpl.
        apply (LoguruFacts.expected_core_sinks a' _ _ Hcol).
Qed.


Lemma C1_level_threshold_witness :
  (∃ line,
     StdImpl.emit false (StdImpl.configure_logging (StdImpl.defaults 20)
                           PyLogging.fresh) "app" 30 call0
     = map (λ s, (s, line)) (std_sinks (StdImpl.defaults 20)))
  ∧ (∃ out,
       LoguruImpl.emit
         (LoguruImpl.state_of
            (LoguruImpl.configure_logging false (test_args "INFO")
               (LoguruImpl.initial false)))
         (Loguru.ByName "WARNING") lcall0 = inr out
       ∧ map fst out = loguru_sinks (test_args "INFO")).
Proof.
  destruct (C1_level_threshold INFO WARNING false (StdImpl.defaults 20)
              PyLogging.fresh "app" call0 "Processing request" false
              (test_args "INFO") (LoguruImpl.initial false) lcall0)
    as [H1 H2].
  split.
  - destruct H1 as (_ & _ & H).
    + reflexivity.
    + exact I.
    + right. repeat constructor.
    + reflexivity.
    + apply H. simpl. lia.
  - destruct H2 as (_ & out & He & _ & H); [reflexivity|].
    exists out. split; [exact He|]. apply H. simpl. lia.
Defined.

(** C1 fails as stated on a logger that has a level of its own, and for
    a message that cannot be built.  ["uvicorn.access"] is set to WARNING:
    after [configure_logging(DEBUG)] an INFO record on it is written
    nowhere, in both modules, and after [configure_logging(CRITICAL)] of
    the [logging]-based module a WARNING record on it is written, its
    handlers having no level.  A record whose message cannot be built is
    written nowhere. *)
Lemma C1_counterexample :
  StdImpl.emit false (StdImpl.configure_logging (StdImpl.defaults 10)
                        PyLogging.fresh) "uvicorn.access" 20 call0 = []
  ∧ LoguruImpl.emit_stdlib
      (LoguruImpl.state_of
         (LoguruImpl.configure_logging false (test_args "DEBUG")
            (LoguruImpl.initial false)))
      env311 "uvicorn.access" 20 call0 = []
  ∧ StdImpl.emit false (StdImpl.configure_logging (StdImpl.defaults 50)
                          PyLogging.fresh) "uvicorn.access" 30 call0
    = [(Stdout,
        "[2025-01-15 10:30:45,123] [WARNING] [uvicorn.access:45] Processing request"
          +:+ NL)]
  ∧ StdImpl.emit false (StdImpl.configure_logging (StdImpl.defaults 20)
                          PyLogging.fresh) "app" 30 call_unbuildable = [].
Proof. vm_compute. repeat split; reflexivity. Qed.

(** C2, as amended.  After two calls of [configure_logging] in
    succession, with any arguments, the sinks on the root logger of
    [logging] and on the Loguru logger are those of the second call alone:
    the handlers of the first are gone and no sink is attached twice.  The
    three Uvicorn loggers of the [logging]-based module carry the handlers
    of the second call if it has [include_uvicorn=True]; a second call
    with [include_uvicorn=False] leaves them the handlers the first call
    gave them.  In each of these cases one record emitted afterwards, on
    such a logger or on one such that neither it nor an ancestor was
    configured, is written at most once on any sink. *)
Theorem C2_reconfiguration_replaces_sinks
        (isatty : bool) (a1 a2 : StdImpl.Args)
        (m0 : PyLogging.Manager StdImpl.Handler) (n : string) (lvl : Z)
        (c : PyLogging.Call) (s : Sink)
        (tty1 tty2 : bool) (b1 b2 : LoguruImpl.Args) (w0 : LoguruImpl.World)
        (l : Loguru.LevelArg) (call : Loguru.Call) (out : list Output) :
  (PyLogging.handlers
     (PyLogging.root
        (StdImpl.configure_logging a2 (StdImpl.configure_logging a1 m0)))
   = root_handlers a2
   ∧ StdImpl.sinks_of
       (PyLogging.root
          (StdImpl.configure_logging a2 (StdImpl.configure_logging a1 m0)))
     = std_sinks a2
   ∧ NoDup (std_sinks a2)
   ∧ (unconfigured
        (StdImpl.configure_logging a2 (StdImpl.configure_logging a1 m0)) n
      ∨ (StdImpl.include_uvicorn a2 = true ∧ In n StdImpl.uvicorn_names) →
      (length
         (lines_on s
            (StdImpl.emit isatty
               (StdImpl.configure_logging a2 (StdImpl.configure_logging a1 m0))
               n lvl c)) ≤ 1)%nat)
   ∧ (StdImpl.include_uvicorn a2 = true → In n StdImpl.uvicorn_names →
      PyLogging.handlers
        (PyLogging.getLogger
           (StdImpl.configure_logging a2 (StdImpl.configure_logging a1 m0)) n)
      = uvicorn_handlers a2)
   ∧ (StdImpl.include_uvicorn a2 = false →
      StdImpl.include_uvicorn a1 = true → In n StdImpl.uvicorn_names →
      PyLogging.handlers
        (PyLogging.getLogger
           (StdImpl.configure_logging a2 (StdImpl.configure_logging a1 m0)) n)
      = uvicorn_handlers a1
      ∧ (length
           (lines_on s
              (StdImpl.emit isatty
                 (StdImpl.configure_logging a2
                    (StdImpl.configure_logging a1 m0))
                 n lvl c)) ≤ 1)%nat))
  ∧ (LoguruImpl.core
       (LoguruImpl.state_of
          (LoguruImpl.configure_logging tty2 b2
             (LoguruImpl.state_of (LoguruImpl.configure_logging tty1 b1 w0))))
     = expected_core b2
     ∧ NoDup (map Loguru.sink (expected_core b2))
     ∧ (LoguruImpl.emit
          (LoguruImpl.state_of
             (LoguruImpl.configure_logging tty2 b2
                (LoguruImpl.state_of (LoguruImpl.configure_logging tty1 b1 w0))))
          l call = inr out →
        (length (lines_on s out) ≤ 1)%nat)).
Proof.
  split.
  - split; [rewrite StdFacts.configure_root; reflexivity|].
    split.
    { unfold StdImpl.sinks_of. rewrite StdFacts.configure_root.
      apply StdFacts.root_handlers_sinks. }
    split; [apply StdFacts.std_sinks_NoDup|].
    split; [|split].
    2:{ intros Hi Hn.
        rewrite (StdFacts.configure_uvicorn_logger a2 _ n Hi Hn). reflexivity. }
    2:{ intros Hi2 Hi1 Hn.
        assert (Hr : PyLogging.is_root_name n = false)
          by (destruct Hn as [<-|[<-|[<-|[]]]]; reflexivity).
        pose proof (StdFacts.configure_keeps_named a2
                      (StdImpl.configure_logging a1 m0) n Hi2 Hr) as Hg.
        rewrite (StdFacts.configure_uvicorn_logger a1 m0 n Hi1 Hn) in Hg.
        split; [rewrite Hg; reflexivity|].
        rewrite (StdFacts.emit_own_handlers isatty a1 _ n _ lvl c Hg).
        destruct (PyLogging.isEnabledFor _ _ _);
          [|rewrite DispatchFacts.lines_on_nil; simpl; lia].
        destruct (StdImpl.format _ _ _).1;
          [|rewrite DispatchFacts.lines_on_nil; simpl; lia].
        apply DispatchFacts.lines_on_one_each.
        rewrite map_map. simpl.
        change (NoDup (map StdImpl.hsink (uvicorn_handlers a1))).
        rewrite StdFacts.uvicorn_handlers_sinks. apply StdFacts.std_sinks_NoDup. }
    intros [Hu|[Hi Hn]].
    + rewrite StdFacts.emit_unconfigured by exact Hu.
      destruct ((0 <? lvl) && (StdImpl.level a2 <=? lvl));
        [|rewrite DispatchFacts.lines_on_nil; simpl; lia].
      destruct (StdImpl.format _ _ _).1;
        [|rewrite DispatchFacts.lines_on_nil; simpl; lia].
      apply DispatchFacts.lines_on_one_each.
      rewrite map_map. simpl. change (NoDup (map StdImpl.hsink (root_handlers a2))).
      rewrite StdFacts.root_handlers_sinks. apply StdFacts.std_sinks_NoDup.
    + rewrite StdFacts.emit_uvicorn by assumption.
      destruct (PyLogging.isEnabledFor _ _ _);
        [|rewrite DispatchFacts.lines_on_nil; simpl; lia].
      destruct (StdImpl.format _ _ _).1;
        [|rewrite DispatchFacts.lines_on_nil; simpl; lia].
      apply DispatchFacts.lines_on_one_each.
      rewrite map_map. simpl.
      change (NoDup (map StdImpl.hsink (uvicorn_handlers a2))).
      rewrite StdFacts.uvicorn_handlers_sinks. apply StdFacts.std_sinks_NoDup.
  - rewrite LoguruFacts.configure_core.
    split; [reflexivity|]. split; [apply InterceptFacts.expected_core_NoDup|].
    unfold LoguruImpl.emit, Loguru.log. rewrite LoguruFacts.configure_core.
    destruct (Loguru.resolve_level l) as [e|lv]; [discriminate|].
    intros [= <-].
    eapply DispatchFacts.lines_on_sub; [apply LoguruFacts.emit_all_sub|].
    rewrite map_map. simpl. apply InterceptFacts.expected_core_NoDup.
Qed.

Lemma C2_reconfiguration_replaces_sinks_witness :
  (length
     (lines_on Stdout
        (StdImpl.emit false
           (StdImpl.configure_logging (StdImpl.defaults 20)
              (StdImpl.configure_logging (file_args 10) PyLogging.fresh))
           "app" 30 call0)) ≤ 1)%nat
  ∧ (length
       (lines_on Stdout
          [(Stdout,
            "2025-01-15 10:30:45.123 | INFO     | app:main:45 - Test log message"
              +:+ NL)]) ≤ 1)%nat.
Proof.
  destruct (C2_reconfiguration_replaces_sinks false (file_args 10)
              (StdImpl.defaults 20) PyLogging.fresh "app" 30 call0 Stdout
              false false (test_args "DEBUG") (test_args "INFO")
              (LoguruImpl.initial false) (Loguru.ByName "INFO") lcall0
              [(Stdout,
                "2025-01-15 10:30:45.123 | INFO     | app:main:45 - Test log message"
                  +:+ NL)])
    as [(_ & _ & _ & H1 & _) (_ & _ & H2)].
  split.
  - apply H1. left. right. repeat constructor.
  - apply H2. vm_compute. reflexivity.
Defined.

(** C2 fails as stated for the Uvicorn loggers when the second call has
    [include_uvicorn=False]: after [configure_logging(INFO,
    log_file="app.log")] and then [configure_logging(INFO,
    include_uvicorn=False)] the root logger has the console alone, but
    the logger ["uvicorn"] still has the console and the file of the
    first call, and a record on it is written to both. *)
Lemma C2_counterexample :
  StdImpl.sinks_of
    (PyLogging.root
       (StdImpl.configure_logging (console_args 20)
          (StdImpl.configure_logging (file_args 20) PyLogging.fresh)))
  = [Stdout]
  ∧ StdImpl.sinks_of
      (PyLogging.getLogger
         (StdImpl.configure_logging (console_args 20)
            (StdImpl.configure_logging (file_args 20) PyLogging.fresh))
         "uvicorn")
    = [Stdout; LogFile "app.log"]
  ∧ map fst
      (StdImpl.emit false
         (StdImpl.configure_logging (console_args 20)
            (StdImpl.configure_logging (file_args 20) PyLogging.fresh))
         "uvicorn" 30 call0)
    = [Stdout; LogFile "app.log"].
Proof. vm_compute. repeat split; reflexivity. Qed.


(** C4.  With the default arguments and the global level INFO, a record
    at INFO on the [logging] logger ["uvicorn.access"] writes nothing (the
    level set on that logger is WARNING), and a record at ERROR on the same
    logger writes one console line; in both modules, whatever was
    configured before. *)
Theorem C4_access_log_floor
        (isatty : bool) (m0 : PyLogging.Manager StdImpl.Handler)
        (tty : bool) (w0 : LoguruImpl.World) (env : LoguruImpl.Env)
        (c : PyLogging.Call) (msg : string) :
  PyLogging.c_message c = Some msg →
  (StdImpl.emit isatty (StdImpl.configure_logging (StdImpl.defaults 20) m0)
     "uvicorn.access" 20 c = []
   ∧ ∃ line,
       StdImpl.emit isatty (StdImpl.configure_logging (StdImpl.defaults 20) m0)
         "uvicorn.access" 40 c = [(Stdout, line)])
  ∧ (LoguruImpl.emit_stdlib
       (LoguruImpl.state_of
          (LoguruImpl.configure_logging tty (LoguruImpl.defaults "INFO") w0))
       env "uvicorn.access" 20 c = []
     ∧ ∃ line,
         LoguruImpl.emit_stdlib
           (LoguruImpl.state_of
              (LoguruImpl.configure_logging tty (LoguruImpl.defaults "INFO") w0))
           env "uvicorn.access" 40 c = [(Stdout, line)]).
Proof.
  intros Hm. split.
  - assert (Hin : In "uvicorn.access" StdImpl.uvicorn_names)
      by (right; right; left; reflexivity).
    pose proof (StdFacts.configure_uvicorn_logger (StdImpl.defaults 20) m0
                  "uvicorn.access" eq_refl Hin) as Hlg.
    assert (He : ∀ lvl,
               PyLogging.isEnabledFor
                 (StdImpl.configure_logging (StdImpl.defaults 20) m0)
                 "uvicorn.access" lvl
               = if 0 >=? lvl then false else lvl >=? 30).
    { intros lvl. unfold PyLogging.isEnabledFor.
      rewrite DispatchFacts.effective_own; rewrite Hlg; [reflexivity|].
      simpl. discriminate. }
    split.
    + rewrite StdFacts.emit_uvicorn by (reflexivity || exact Hin).
      rewrite He. reflexivity.
    + rewrite StdFacts.emit_uvicorn by (reflexivity || exact Hin).
      rewrite He. cbn [Z.geb Z.compare Pos.compare Pos.compare_cont].
      destruct (StdFormatFacts.format_total isatty
                  (StdImpl.make_formatter
                     (StdImpl.service_name (StdImpl.defaults 20)))
                  (PyLogging.makeRecord "uvicorn.access" 40 c) msg Hm)
        as (t & r' & ->).
      exists (t +:+ NL). reflexivity.
  - rewrite (InterceptFacts.configure_defaults tty "INFO" 20 20 (Loguru.code "1"))
      by reflexivity.
    cbn [LoguruImpl.state_of].
    set (w := {| LoguruImpl.core := _; LoguruImpl.py := _ |}).
    assert (Hlg : PyLogging.getLogger (LoguruImpl.py w) "uvicorn.access"
                  = {| PyLogging.level := 30;
                       PyLogging.handlers := [LoguruImpl.InterceptHandler];
                       PyLogging.propagate := false |})
      by apply DispatchFacts.getLogger_set_same.
    assert (Hi : intercepted (PyLogging.getLogger (LoguruImpl.py w) "uvicorn.access"))
      by (rewrite Hlg; split; reflexivity).
    assert (He : ∀ lvl,
               PyLogging.isEnabledFor (LoguruImpl.py w) "uvicorn.access" lvl
               = if 0 >=? lvl then false else lvl >=? 30).
    { intros lvl. unfold PyLogging.isEnabledFor.
      rewrite DispatchFacts.effective_own; rewrite Hlg; [reflexivity|].
      simpl. discriminate. }
    rewrite !(InterceptFacts.emit_intercepted w env "uvicorn.access") by exact Hi.
    rewrite !He. split; [reflexivity|].
    cbn [Z.geb Z.compare Pos.compare Pos.compare_cont].
    pose proof (InterceptFacts.intercept_emit_above (LoguruImpl.core w) env
                  "uvicorn.access" 40 20 c msg) as Ha.
    destruct (LoguruImpl.intercept_emit (LoguruImpl.core w) env
                (PyLogging.makeRecord "uvicorn.access" 40 c))
      as [|[s t] [|o out]];
      (lapply Ha; [clear Ha; intros Ha|lia]);
      specialize (Ha Hm);
      (lapply Ha; [clear Ha; intros Ha|repeat constructor]);
      (lapply Ha; [clear Ha; intros Ha|lia]);
      try discriminate Ha.
    injection Ha as ->. exists t. reflexivity.
Qed.

Lemma C4_access_log_floor_witness :
  StdImpl.emit false (StdImpl.configure_logging (StdImpl.defaults 20)
                        PyLogging.fresh) "uvicorn.access" 20 call0 = []
  ∧ LoguruImpl.emit_stdlib
      (LoguruImpl.state_of
         (LoguruImpl.configure_logging false (LoguruImpl.defaults "INFO")
            (LoguruImpl.initial false)))
      env311 "uvicorn.access" 20 call0 = [].
Proof.
  destruct (C4_access_log_floor false PyLogging.fresh false
              (LoguruImpl.initial false) env311 call0 "Processing request"
              eq_refl)
    as [[H1 _] [H2 _]].
  split; [exact H1|exact H2].
Defined.


(** C5.  Every [logging] logger the interception is set up for has
    propagation switched off and carries the module's handlers only, so a
    record emitted on it is never written twice on a sink; and it is
    written exactly once on each attached sink when the logger is enabled
    for its level, its message can be built and (in the Loguru-based
    module) the sinks' level lets it pass. *)
Theorem C5_intercepted_records_once
        (isatty : bool) (a : StdImpl.Args)
        (m0 : PyLogging.Manager StdImpl.Handler) (n : string)
        (tty : bool) (a' : LoguruImpl.Args) (w0 w : LoguruImpl.World)
        (env : LoguruImpl.Env) (n' : string) (k : Z) (col : string)
        (lvl : Z) (c : PyLogging.Call) (msg : string) (s : Sink) :
  (StdImpl.include_uvicorn a = true → In n StdImpl.uvicorn_names →
   PyLogging.propagate
     (PyLogging.getLogger (StdImpl.configure_logging a m0) n) = false
   ∧ (length
        (lines_on s (StdImpl.emit isatty (StdImpl.configure_logging a m0)
                       n lvl c)) ≤ 1)%nat
   ∧ (literal_label (StdImpl.service_name a) →
      PyLogging.isEnabledFor (StdImpl.configure_logging a m0) n lvl = true →
      PyLogging.c_message c = Some msg → In s (std_sinks a) →
      length
        (lines_on s (StdImpl.emit isatty (StdImpl.configure_logging a m0)
                       n lvl c)) = 1%nat))
  ∧ (LoguruImpl.configure_logging tty a' w0 = LoguruImpl.Done w →
     LoguruImpl.intercept_stdlib a' = true →
     In n' (map fst (LoguruImpl.loggers_to_configure (LoguruImpl.level a')
                       (LoguruImpl.additional_loggers a'))) →
     PyLogging.propagate (PyLogging.getLogger (LoguruImpl.py w) n') = false
     ∧ PyLogging.handlers (PyLogging.getLogger (LoguruImpl.py w) n')
       = [LoguruImpl.InterceptHandler]
     ∧ (length (lines_on s (LoguruImpl.emit_stdlib w env n' lvl c)) ≤ 1)%nat
     ∧ (PyLogging.isEnabledFor (LoguruImpl.py w) n' lvl = true →
        PyLogging.c_message c = Some msg →
        Loguru.levels (LoguruImpl.level a') = Some (k, col) → k ≤ lvl →
        In s (loguru_sinks a') →
        length (lines_on s (LoguruImpl.emit_stdlib w env n' lvl c)) = 1%nat)).
Proof.
  split.
  - intros Hi Hn.
    pose proof (StdFacts.configure_uvicorn_logger a m0 n Hi Hn) as Hlg.
    split; [rewrite Hlg; reflexivity|].
    rewrite StdFacts.emit_uvicorn by assumption.
    assert (Hnd : ∀ t : string,
               NoDup (map fst (map (λ h, (StdImpl.hsink h, t))
                                (uvicorn_handlers a)))).
    { intros t. rewrite map_map. simpl.
      change (NoDup (map StdImpl.hsink (uvicorn_handlers a))).
      rewrite StdFacts.uvicorn_handlers_sinks. apply StdFacts.std_sinks_NoDup. }
    split.
    + destruct (PyLogging.isEnabledFor _ _ _);
        [|rewrite DispatchFacts.lines_on_nil; simpl; lia].
      destruct (StdImpl.format _ _ _).1;
        [|rewrite DispatchFacts.lines_on_nil; simpl; lia].
      apply DispatchFacts.lines_on_one_each. apply Hnd.
    + intros _ He Hm Hs. rewrite He.
      destruct (StdFormatFacts.format_total isatty
                  (StdImpl.make_formatter (StdImpl.service_name a))
                  (PyLogging.makeRecord n lvl c) msg Hm)
        as (t & r' & ->).
      cbn [fst]. apply DispatchFacts.lines_on_exactly_one; [apply Hnd|].
      rewrite map_map. simpl.
      change (s ∈ map StdImpl.hsink (uvicorn_handlers a)).
      rewrite StdFacts.uvicorn_handlers_sinks. apply list_elem_of_In. exact Hs.
  - intros Hd Hi Hn.
    destruct (InterceptFacts.configure_done tty a' w0 w Hd Hi) as [Hall Hcore].
    pose proof (InterceptFacts.configure_all_intercepts _ _ _ Hall n' Hn)
      as Hint.
    destruct Hint as [Hh Hp]. split; [exact Hp|]. split; [exact Hh|].
    rewrite InterceptFacts.emit_intercepted by (split; assumption).
    split.
    + destruct (PyLogging.isEnabledFor _ _ _);
        [|rewrite DispatchFacts.lines_on_nil; simpl; lia].
      destruct (InterceptFacts.intercept_emit_sub (LoguruImpl.core w) env
                  (PyLogging.makeRecord n' lvl c)) as (out' & Hsub & Hfst).
      eapply DispatchFacts.lines_on_sub; [exact Hsub|].
      rewrite Hfst, Hcore. apply InterceptFacts.expected_core_NoDup.
    + intros He Hm Hl Hk Hs. rewrite He.
      assert (Hpos : 0 ≤ lvl).
      { unfold PyLogging.isEnabledFor in He.
        destruct (0 >=? lvl) eqn:E; [discriminate|lia]. }
      pose proof (InterceptFacts.intercept_emit_above (LoguruImpl.core w) env
                    n' lvl k c msg Hpos Hm) as Ha.
      rewrite Hcore in Ha.
      specialize (Ha (LoguruFacts.expected_core_levelno a' k col Hl) Hk).
      rewrite Hcore.
      apply DispatchFacts.lines_on_exactly_one.
      * rewrite Ha. apply InterceptFacts.expected_core_NoDup.
      * rewrite Ha, (LoguruFacts.expected_core_sinks a' k col Hl).
        apply list_elem_of_In. exact Hs.
Qed.

Lemma C5_intercepted_records_once_witness :
  length
    (lines_on Stdout
       (StdImpl.emit false (StdImpl.configure_logging (StdImpl.defaults 20)
                              PyLogging.fresh) "uvicorn.error" 40 call0))
  = 1%nat
  ∧ length
      (lines_on Stdout
         (LoguruImpl.emit_stdlib
            (LoguruImpl.state_of
               (LoguruImpl.configure_logging false (LoguruImpl.defaults "INFO")
                  (LoguruImpl.initial false)))
            env311 "uvicorn.error" 40 call0))
    = 1%nat.
Proof.
  destruct (C5_intercepted_records_once false (StdImpl.defaults 20)
              PyLogging.fresh "uvicorn.error" false
              (LoguruImpl.defaults "INFO") (LoguruImpl.initial false)
              (LoguruImpl.state_of
                 (LoguruImpl.configure_logging false
                    (LoguruImpl.defaults "INFO") (LoguruImpl.initial false)))
              env311 "uvicorn.error" 20 (Loguru.code "1") 40 call0
              "Processing request" Stdout)
    as [H1 H2].
  split.
  - destruct H1 as (_ & _ & H); [reflexivity|right; left; reflexivity|].
    apply H; [exact I|vm_compute; reflexivity|reflexivity|left; reflexivity].
  - destruct H2 as (_ & _ & _ & H);
      [vm_compute; reflexivity|reflexivity|right; left; reflexivity|].
    apply H; [vm_compute; reflexivity|reflexivity|reflexivity|lia
             |left; reflexivity].
Defined.





End Claims.

(* ===================================================================== *)
(** ** Further properties of the two modules *)
(* ===================================================================== *)

Module FormatMore.
Import Text PyLogging Props TextFacts FormatFacts StdFormatFacts EscFacts StdImpl.

Lemma app_empty_r (s : string) : s +:+ "" = s.
Proof.
  induction s as [|c s IH]; [reflexivity|].
  change (String c (s +:+ "") = String c s). f_equal. exact IH.
Qed.

Lemma app_assoc_s (a b c : string) : (a +:+ b) +:+ c = a +:+ b +:+ c.
Proof.
  induction a as [|x a IH]; [reflexivity|].
  change (String x ((a +:+ b) +:+ c) = String x (a +:+ b +:+ c)).
  f_equal. exact IH.
Qed.

Lemma length_app_s (a b : string) :
  String.length (a +:+ b) = (String.length a + String.length b)%nat.
Proof.
  induction a as [|x a IH]; [reflexivity|].
  change (S (String.length (a +:+ b))
          = S (String.length a + String.length b)).
  f_equal. exact IH.
Qed.

(** Without exception or stack text the base class returns the
    formatted message as it is. *)
Lemma append_extras_none (s : string) (r : LogRecord) :
  truthy (exc_text r) = false → truthy (stack_info r) = false →
  append_extras s r = s.
Proof. intros He Hs. unfold append_extras. rewrite He, Hs. reflexivity. Qed.

Lemma has_esc_with_trailer_true (s e : string) :
  has_esc s = true → has_esc (with_trailer s e) = true.
Proof.
  intros Hs. unfold with_trailer.
  destruct (ends_with_newline s); rewrite !has_esc_app, Hs; reflexivity.
Qed.

Lemma has_esc_append_extras_true (s : string) (r : LogRecord) :
  has_esc s = true → has_esc (append_extras s r) = true.
Proof.
  intros Hs. unfold append_extras.
  destruct (truthy (exc_text r)), (truthy (stack_info r));
    auto using has_esc_with_trailer_true.
Qed.

Lemma formatMessage_has_levelname (ts : list Tok) (r : LogRecord) :
  In (Fld f_levelname) ts → has_esc (levelname r) = true →
  has_esc (concat_map (tok_value r) ts) = true.
Proof.
  intros Hin Hl. induction ts as [|t ts IH]; [destruct Hin|].
  simpl. rewrite has_esc_app. destruct Hin as [->|Hin].
  - simpl. rewrite Hl. reflexivity.
  - rewrite IH by exact Hin. apply orb_true_r.
Qed.

Lemma log_format_has_levelname (sn : option string) :
  In (Fld f_levelname) (log_format sn).
Proof.
  unfold log_format. destruct (truthy sn); simpl; auto 10.
Qed.

Lemma getLevelName_esc (lvl : Z) : has_esc (getLevelName lvl) = false.
Proof.
  unfold getLevelName.
  repeat (match goal with |- context [if ?b then _ else _] => destruct b end;
          [reflexivity|]).
  rewrite has_esc_app, has_esc_int. reflexivity.
Qed.

(** The colour table knows the names of the five standard levels and no
    other name a level number can have. *)
Lemma COLORS_getLevelName (lvl : Z) :
  (∃ c, COLORS (getLevelName lvl) = Some c ∧ has_esc c = true)
  ∧ In lvl [10; 20; 30; 40; 50]
  ∨ COLORS (getLevelName lvl) = None ∧ ¬ In lvl [10; 20; 30; 40; 50].
Proof.
  unfold getLevelName.
  destruct (lvl =? 50) eqn:E50.
  { left. split; [eexists; split; reflexivity|]. simpl. lia. }
  destruct (lvl =? 40) eqn:E40.
  { left. split; [eexists; split; reflexivity|]. simpl. lia. }
  destruct (lvl =? 30) eqn:E30.
  { left. split; [eexists; split; reflexivity|]. simpl. lia. }
  destruct (lvl =? 20) eqn:E20.
  { left. split; [eexists; split; reflexivity|]. simpl. lia. }
  destruct (lvl =? 10) eqn:E10.
  { left. split; [eexists; split; reflexivity|]. simpl. lia. }
  right. split; [|simpl; lia].
  destruct (lvl =? 0); reflexivity.
Qed.

End FormatMore.

Module StdMore.
Import Text PyLogging Props MoreProps FormatFacts StdFormatFacts DispatchFacts
       StdFacts StdImpl.

Lemma manager_ext {H} (m1 m2 : Manager H) :
  root m1 = root m2 → loggerDict m1 = loggerDict m2 → m1 = m2.
Proof. destruct m1, m2; simpl; intros -> ->; reflexivity. Qed.

(** The logger dictionary after [configure_logging]. *)
Lemma configure_dict (a : Args) (m : Manager Handler) :
  loggerDict (configure_logging a m)
  = if include_uvicorn a then with_uvicorn a (loggerDict m) else loggerDict m.
Proof.
  unfold configure_logging. destruct (include_uvicorn a); [|reflexivity].
  unfold configure_uvicorn_logging, uvicorn_names, with_uvicorn,
    uvicorn_logger, uvicorn_handlers.
  unfold getLogger, set_logger, lookup_dict, configure_one; simpl;
    unfold getLogger, set_logger, lookup_dict; simpl.
  rewrite lookup_insert_eq. simpl. rewrite insert_insert_eq.
  destruct (truthy (log_file a)); reflexivity.
Qed.

Lemma with_uvicorn_twice (a a' : Args) (d : gmap string (Logger Handler)) :
  with_uvicorn a (with_uvicorn a' d) = with_uvicorn a d.
Proof.
  unfold with_uvicorn. apply map_eq. intros i.
  repeat rewrite lookup_insert. repeat case_decide; auto.
Qed.

Lemma with_uvicorn_other (a : Args) (d : gmap string (Logger Handler))
      (n : string) :
  ¬ In n uvicorn_names → with_uvicorn a d !! n = d !! n.
Proof.
  intros Hn. unfold with_uvicorn, uvicorn_names in *.
  rewrite !lookup_insert_ne; [reflexivity| | |]; intros <-; apply Hn; simpl; auto.
Qed.

Lemma is_root_name_inv (n : string) :
  is_root_name n = true → n = "" ∨ n = "root".
Proof.
  unfold is_root_name. intros H. apply orb_true_iff in H as [H|H];
    apply String.eqb_eq in H; auto.
Qed.

(** An unconfigured child of a logger that does not propagate: the
    record stops at the parent. *)
Lemma callHandlers_child {H} (hlevel : H → Z)
      (hemit : H → LogRecord → list Output * LogRecord)
      (m : Manager H) (r : LogRecord) (p : string) (rest : list string) :
  is_root_name (name r) = false →
  parent_names (name r) = p :: rest →
  loggerDict m !! name r = None →
  propagate (lookup_dict m p) = false →
  handlers (lookup_dict m p) ≠ [] →
  (callHandlers hlevel hemit m r).1
  = (run_handlers hlevel hemit (handlers (lookup_dict m p)) r).1.
Proof.
  intros Hr Hp Hn Hprop Hh. unfold callHandlers, chain.
  rewrite Hr, Hp. simpl map.
  replace (lookup_dict m (name r)) with (@new_logger H)
    by (unfold lookup_dict; rewrite Hn; reflexivity).
  rewrite <- !app_comm_cons.
  pose proof (walk_skip hlevel hemit [new_logger]
                (lookup_dict m p :: (map (lookup_dict m) rest ++ [root m])) r)
    as Hw.
  cbn [app] in Hw. rewrite Hw by (repeat constructor). clear Hw.
  rewrite walk_stop by exact Hprop.
  destruct (handlers (lookup_dict m p)); [congruence|]. reflexivity.
Qed.

Lemma effective_child {H} (m : Manager H) (n p : string) (rest : list string) :
  is_root_name n = false → parent_names n = p :: rest →
  loggerDict m !! n = None → PyLogging.level (lookup_dict m p) ≠ 0 →
  getEffectiveLevel m n = PyLogging.level (lookup_dict m p).
Proof.
  intros Hr Hp Hn Hl. unfold getEffectiveLevel, chain. rewrite Hr, Hp.
  simpl. unfold lookup_dict at 1. rewrite Hn. simpl.
  destruct (PyLogging.level (lookup_dict m p) =? 0) eqn:E; [lia|reflexivity].
Qed.

(** The text the base class's [format] returns, with the formatter
    [configure_logging] builds, for a record without exception or stack
    text. *)
Lemma base_layout (sn : option string) (r : LogRecord) (m : string) :
  getMessage r = Some m →
  exc_info r = None →
  truthy (exc_text r) = false →
  truthy (stack_info r) = false →
  (Formatter_format (make_formatter sn) r).1
  = Some ("[" +:+ strftime (created r) +:+ ","
          +:+ zfill 3 (dec (msecs r)) +:+ "] ["
          +:+ levelname r +:+ "] ["
          +:+ (if truthy sn then default "" sn +:+ "] [" else "")
          +:+ name r +:+ ":" +:+ dec (lineno r) +:+ "] "
          +:+ m).
Proof.
  intros Hm He Hx Hs. unfold Formatter_format. rewrite Hm.
  assert (Hc : cache_exc_text (store_message (make_formatter sn) m r)
               = store_message (make_formatter sn) m r).
  { unfold cache_exc_text.
    destruct (store_message_inputs (make_formatter sn) m r)
      as ((_ & _ & _ & _ & _ & _ & _ & _ & _ & Hei & _) & _).
    rewrite Hei, He. reflexivity. }
  rewrite Hc. cbn [fst].
  rewrite FormatMore.append_extras_none.
  - f_equal. unfold formatMessage, store_message, make_formatter, log_format,
      usesTime.
    destruct (truthy sn); simpl;
      unfold format_time_with_ms; simpl;
      rewrite ?FormatMore.app_assoc_s, ?FormatMore.app_empty_r; reflexivity.
  - destruct (store_message_inputs (make_formatter sn) m r)
      as (_ & Hxt & _). rewrite Hxt. exact Hx.
  - destruct (store_message_inputs (make_formatter sn) m r)
      as ((_ & _ & _ & _ & _ & _ & _ & _ & _ & _ & Hst) & _).
    rewrite Hst. exact Hs.
Qed.

Lemma uvicorn_not_root (n : string) :
  In n uvicorn_names → is_root_name n = false.
Proof. intros [<-|[<-|[<-|[]]]]; reflexivity. Qed.

Lemma lookup_uvicorn (a : Args) (m : Manager Handler) (n : string) :
  include_uvicorn a = true → In n uvicorn_names →
  lookup_dict (configure_logging a m) n
  = uvicorn_logger a (uvicorn_level a n).
Proof.
  intros Hi Hn. pose proof (configure_uvicorn_logger a m n Hi Hn) as Hg.
  unfold getLogger in Hg. rewrite (uvicorn_not_root n Hn) in Hg. exact Hg.
Qed.

(** A logger without handlers that propagates hands the record on. *)
Lemma walk_pass {H} (hlevel : H → Z)
      (hemit : H → LogRecord → list Output * LogRecord)
      (lg : Logger H) (c : list (Logger H)) (r : LogRecord) :
  handlers lg = [] → propagate lg = true →
  walk hlevel hemit (lg :: c) r = walk hlevel hemit c r.
Proof.
  intros Hh Hp. simpl. rewrite Hh, Hp. simpl.
  destruct (walk hlevel hemit c r) as [[o r'] k]. reflexivity.
Qed.

(** A logger with a level of its own but no handler, below ancestors
    that were never configured: the record is handled by the root
    logger's handlers. *)
Lemma callHandlers_own_level {H} (hlevel : H → Z)
      (hemit : H → LogRecord → list Output * LogRecord)
      (m : Manager H) (r : LogRecord) :
  is_root_name (name r) = false →
  handlers (lookup_dict m (name r)) = [] →
  propagate (lookup_dict m (name r)) = true →
  Forall (λ x, loggerDict m !! x = None) (parent_names (name r)) →
  handlers (root m) ≠ [] →
  (callHandlers hlevel hemit m r).1
  = (run_handlers hlevel hemit (handlers (root m)) r).1.
Proof.
  intros Hr Hh Hp Hpar Hroot. unfold callHandlers, chain. rewrite Hr.
  cbn [map]. rewrite <- app_comm_cons, walk_pass by assumption.
  rewrite walk_skip.
  - destruct (walk_root_only hlevel hemit (root m) r) as [Ho Hk].
    destruct (walk hlevel hemit [root m] r) as [[o r'] k]. simpl in *. subst.
    destruct (handlers (root m)); [congruence|]. reflexivity.
  - apply Forall_map. eapply Forall_impl; [exact Hpar|].
    intros x Hx. unfold lookup_dict. simpl. rewrite Hx. reflexivity.
Qed.

Lemma effective_own_level {H} (m : Manager H) (n : string) :
  is_root_name n = false →
  Forall (λ x, loggerDict m !! x = None) (parent_names n) →
  getEffectiveLevel m n
  = if PyLogging.level (lookup_dict m n) =? 0
    then PyLogging.level (root m)
    else PyLogging.level (lookup_dict m n).
Proof.
  intros Hr Hpar. unfold getEffectiveLevel, chain. rewrite Hr.
  cbn [map]. rewrite <- app_comm_cons. cbn [first_level].
  destruct (PyLogging.level (lookup_dict m n) =? 0); [|reflexivity].
  rewrite first_level_skip.
  - simpl. destruct (PyLogging.level (root m) =? 0) eqn:E; [|reflexivity].
    unfold NOTSET. lia.
  - apply Forall_map. eapply Forall_impl; [exact Hpar|].
    intros x Hx. unfold lookup_dict. simpl. rewrite Hx. reflexivity.
Qed.

(** Handlers above the record's level write nothing and leave the record
    as it is. *)
Lemma run_handlers_below {H} (hlevel : H → Z)
      (hemit : H → LogRecord → list Output * LogRecord)
      (hs : list H) (r : LogRecord) :
  Forall (λ h, levelno r < hlevel h) hs →
  run_handlers hlevel hemit hs r = ([], r).
Proof.
  induction 1 as [|h hs Hh _ IH]; simpl; [reflexivity|].
  replace (levelno r >=? hlevel h) with false by lia. exact IH.
Qed.

Lemma root_handlers_level (a : Args) :
  Forall (λ h, hlevel h = level a) (root_handlers a).
Proof.
  unfold root_handlers. destruct (truthy (log_file a)); repeat constructor.
Qed.

(** With a log file and the Uvicorn loggers, [configure_logging] leaves
    four rotating handlers on the one path: that of the root logger and
    one for each Uvicorn logger. *)
Lemma four_handlers_on_path (a : Args) (m0 : Manager Handler) (p : string) :
  log_file a = Some p → p ≠ "" → include_uvicorn a = true →
  length (handlers_on p (configure_logging a m0) uvicorn_names) = 4%nat.
Proof.
  intros Hf Hp Hi. unfold handlers_on.
  rewrite StdFacts.configure_root. cbn [handlers uvicorn_names map concat].
  rewrite !(StdFacts.configure_uvicorn_logger a m0 _ Hi)
    by (simpl; auto).
  cbn [handlers]. unfold root_handlers, uvicorn_handlers. rewrite Hf.
  cbn [truthy from_option id].
  destruct (String.eqb_spec p "") as [->|_]; [destruct (Hp eq_refl)|].
  cbn [negb app].
  repeat (rewrite filter_cons; case_decide; [|]); try discriminate;
    try (exfalso; simpl in *; congruence).
  rewrite filter_nil. reflexivity.
Qed.

End StdMore.

Module InterceptMore.
Import Text Props MoreProps DispatchFacts LoguruFacts InterceptFacts LoguruImpl.

Lemma getLogger_set_ne {H} (m : PyLogging.Manager H) (n n0 : string)
      (lg : PyLogging.Logger H) :
  PyLogging.is_root_name n = false → n0 ≠ n →
  PyLogging.getLogger (PyLogging.set_logger n0 lg m) n = PyLogging.getLogger m n.
Proof.
  intros Hr Hne.
  unfold PyLogging.getLogger, PyLogging.set_logger, PyLogging.lookup_dict.
  rewrite Hr. destruct (PyLogging.is_root_name n0); simpl; [reflexivity|].
  rewrite lookup_insert_ne by exact Hne. reflexivity.
Qed.

Lemma root_set_ne {H} (m : PyLogging.Manager H) (n0 : string)
      (lg : PyLogging.Logger H) :
  PyLogging.is_root_name n0 = false →
  PyLogging.root (PyLogging.set_logger n0 lg m) = PyLogging.root m.
Proof. intros Hr. unfold PyLogging.set_logger. rewrite Hr. reflexivity. Qed.

Lemma configure_one_inv (m m' : PyLogging.Manager PyHandler) (n : string)
      (l : LevelVal) :
  configure_one m (n, l) = inr m' →
  ∃ k, PyLogging.checkLevel (convert_level l) = inr k
       ∧ m' = PyLogging.set_logger n (shim_logger k) m.
Proof.
  unfold configure_one.
  destruct (PyLogging.checkLevel (convert_level l)) as [e|k]; [discriminate|].
  intros [= <-]. exists k. split; reflexivity.
Qed.

Lemma configure_all_cons (m : PyLogging.Manager PyHandler)
      (spec : string * LevelVal) (rest : list (string * LevelVal)) :
  configure_all m (spec :: rest)
  = match configure_one m spec with
    | inr m' => configure_all m' rest
    | inl e => (Some e, half_configured m spec.1)
    end.
Proof. reflexivity. Qed.

(** The loop leaves alone every logger it does not name, however it
    ends. *)
Lemma configure_all_other (specs : list (string * LevelVal))
      (m : PyLogging.Manager PyHandler) (n : string) :
  PyLogging.is_root_name n = false → ¬ In n (map fst specs) →
  PyLogging.getLogger (configure_all m specs).2 n = PyLogging.getLogger m n.
Proof.
  revert m. induction specs as [|[n0 l0] specs IH]; intros m Hr Hn;
    [reflexivity|].
  assert (Hne : n0 ≠ n) by (intros ->; apply Hn; left; reflexivity).
  assert (Hn' : ¬ In n (map fst specs)) by (intros Hin; apply Hn; right; exact Hin).
  rewrite configure_all_cons.
  destruct (configure_one m (n0, l0)) as [e|m1] eqn:H1; cbn [snd fst].
  - unfold half_configured. apply getLogger_set_ne; assumption.
  - rewrite IH by assumption.
    apply configure_one_inv in H1 as (k & _ & ->).
    apply getLogger_set_ne; assumption.
Qed.

Lemma configure_all_root (specs : list (string * LevelVal))
      (m : PyLogging.Manager PyHandler) :
  Forall (λ spec, PyLogging.is_root_name spec.1 = false) specs →
  PyLogging.root (configure_all m specs).2 = PyLogging.root m.
Proof.
  intros Hs. revert m. induction Hs as [|[n0 l0] specs H0 Hs IH]; intros m;
    [reflexivity|].
  rewrite configure_all_cons.
  destruct (configure_one m (n0, l0)) as [e|m1] eqn:H1; cbn [snd fst].
  - unfold half_configured. apply root_set_ne. exact H0.
  - rewrite IH. apply configure_one_inv in H1 as (k & _ & ->).
    apply root_set_ne. exact H0.
Qed.

(** The last entry naming a logger decides its level. *)
Lemma configure_all_last (pre post : list (string * LevelVal)) (n : string)
      (l : LevelVal) (m m' : PyLogging.Manager PyHandler) :
  configure_all m (pre ++ (n, l) :: post) = (None, m') →
  PyLogging.is_root_name n = false → ¬ In n (map fst post) →
  ∃ k, PyLogging.checkLevel (convert_level l) = inr k
       ∧ PyLogging.getLogger m' n = shim_logger k.
Proof.
  revert m. induction pre as [|s pre IH]; intros m;
    [rewrite app_nil_l|rewrite <- app_comm_cons]; rewrite configure_all_cons.
  - destruct (configure_one m (n, l)) as [e|m1] eqn:H1; [discriminate|].
    intros Hall Hr Hn. apply configure_one_inv in H1 as (k & Hk & ->).
    exists k. split; [exact Hk|].
    replace m' with (configure_all
                       (PyLogging.set_logger n (shim_logger k) m) post).2
      by (rewrite Hall; reflexivity).
    rewrite configure_all_other by assumption. apply getLogger_set_same.
  - destruct (configure_one m s) as [e|m1]; [discriminate|]. apply IH.
Qed.

(** However the loop ends, a logger that was intercepted stays so. *)
Lemma configure_all_keeps_any (specs : list (string * LevelVal))
      (m : PyLogging.Manager PyHandler) (n : string) :
  intercepted (PyLogging.getLogger m n) →
  intercepted (PyLogging.getLogger (configure_all m specs).2 n).
Proof.
  revert m. induction specs as [|spec specs IH]; intros m Hn; [exact Hn|].
  rewrite configure_all_cons.
  destruct (configure_one m spec) as [e|m1] eqn:H1; cbn [snd].
  - unfold half_configured.
    destruct (getLogger_set_cases m n spec.1
                {| PyLogging.level :=
                     PyLogging.level (PyLogging.getLogger m spec.1);
                   PyLogging.handlers := [InterceptHandler];
                   PyLogging.propagate := false |}) as [-> | ->];
      [split; reflexivity | exact Hn].
  - apply IH. apply (proj2 (configure_one_keeps _ _ _ H1)). exact Hn.
Qed.

Lemma basicConfig_keeps (m : PyLogging.Manager PyHandler) (n : string) :
  intercepted (PyLogging.getLogger m n) →
  intercepted (PyLogging.getLogger (basicConfig_force m) n).
Proof.
  unfold intercepted, PyLogging.getLogger, basicConfig_force,
    PyLogging.lookup_dict.
  destruct (PyLogging.is_root_name n); simpl; intros [Hh Hp]; auto.
Qed.

(** The [logging] state after [configure_logging], however it ends. *)
Lemma configure_py (tty : bool) (a : Args) (w : World) :
  py (state_of (configure_logging tty a w))
  = match Loguru.levels (level a) with
    | Some _ =>
        if intercept_stdlib a
        then (configure_all (basicConfig_force (py w))
                (loggers_to_configure (level a) (additional_loggers a))).2
        else py w
    | None => py w
    end.
Proof.
  set (R := configure_all _ _).
  unfold configure_logging, Loguru.add, Loguru.remove, Loguru.resolve_levelno.
  destruct (Loguru.levels (level a)) as [[k c]|]; [|reflexivity].
  destruct (truthy (log_file a));
    (destruct (intercept_stdlib a); [|reflexivity]);
    unfold intercept_standard_logging; cbn [py core]; fold R;
    destruct R as [[e|] m']; reflexivity.
Qed.

(** A call on an intercepted logger with a level of its own passes two
    thresholds: the logger's level and the level of the Loguru sinks. *)
Lemma emit_shim (w : World) (env : Env) (n : string) (k ks lvl : Z)
      (c : PyLogging.Call)
      (msg : string) :
  PyLogging.getLogger (py w) n = shim_logger k → k ≠ 0 →
  Forall (λ h, Loguru.levelno h = ks) (core w) →
  PyLogging.c_message c = Some msg →
  (lvl < k ∨ lvl < ks ∨ lvl ≤ 0 → emit_stdlib w env n lvl c = [])
  ∧ (k ≤ lvl → ks ≤ lvl → 0 < lvl →
     map fst (emit_stdlib w env n lvl c) = map Loguru.sink (core w)).
Proof.
  intros Hg Hk Hc Hm.
  assert (Hi : intercepted (PyLogging.getLogger (py w) n))
    by (rewrite Hg; split; reflexivity).
  rewrite (emit_intercepted w env n lvl c Hi).
  assert (He : PyLogging.isEnabledFor (py w) n lvl
               = if 0 >=? lvl then false else lvl >=? k).
  { unfold PyLogging.isEnabledFor.
    rewrite effective_own; rewrite Hg; [reflexivity|exact Hk]. }
  rewrite He. split.
  - intros Hlt. destruct (0 >=? lvl) eqn:E0; [reflexivity|].
    destruct (lvl >=? k) eqn:E1; [|reflexivity].
    apply (intercept_emit_below _ _ _ _ ks); [exact Hc|lia].
  - intros H1 H2 H3. replace (0 >=? lvl) with false by lia.
    replace (lvl >=? k) with true by lia.
    apply (intercept_emit_above _ _ _ _ ks _ msg); auto; lia.
Qed.

(** A call on a logger that was never configured, when the root logger
    carries the shim. *)
Lemma emit_root_shim (w : World) (env : Env) (n : string) (ks lvl : Z)
      (c : PyLogging.Call)
      (msg : string) :
  unconfigured (py w) n →
  PyLogging.handlers (PyLogging.root (py w)) = [InterceptHandler] →
  PyLogging.level (PyLogging.root (py w)) = 0 →
  Forall (λ h, Loguru.levelno h = ks) (core w) →
  PyLogging.c_message c = Some msg →
  (lvl < ks ∨ lvl ≤ 0 → emit_stdlib w env n lvl c = [])
  ∧ (ks ≤ lvl → 0 < lvl →
     map fst (emit_stdlib w env n lvl c) = map Loguru.sink (core w)).
Proof.
  intros Hu Hh Hl Hc Hm. unfold emit_stdlib, PyLogging.Logger_log.
  assert (He : PyLogging.isEnabledFor (py w) n lvl = negb (0 >=? lvl)).
  { unfold PyLogging.isEnabledFor.
    rewrite effective_unconfigured by exact Hu. rewrite Hl.
    destruct (0 >=? lvl) eqn:E; [reflexivity|]. simpl. lia. }
  rewrite He.
  assert (Hrun : 0 < lvl →
                 (PyLogging.callHandlers hlevel (hemit (core w) env) (py w)
                    (PyLogging.makeRecord n lvl c)).1
                 = intercept_emit (core w) env (PyLogging.makeRecord n lvl c)).
  { intros Hpos. rewrite callHandlers_unconfigured.
    - rewrite Hh. simpl. unfold PyLogging.NOTSET.
      replace (lvl >=? 0) with true by lia. simpl. apply app_nil_r.
    - exact Hu.
    - rewrite Hh. discriminate. }
  split.
  - intros Hlt. destruct (0 >=? lvl) eqn:E0; [reflexivity|]. simpl.
    rewrite Hrun by lia.
    apply (intercept_emit_below _ _ _ _ ks); [exact Hc|lia].
  - intros H1 H2. replace (0 >=? lvl) with false by lia. simpl.
    rewrite Hrun by lia.
    apply (intercept_emit_above _ _ _ _ ks _ msg); auto; lia.
Qed.

(** The names Loguru's level table knows. *)
Lemma levels_inv (s : string) (ks : Z) (col : string) :
  Loguru.levels s = Some (ks, col) →
  (s = "TRACE" ∧ ks = 5) ∨ (s = "DEBUG" ∧ ks = 10) ∨ (s = "INFO" ∧ ks = 20)
  ∨ (s = "SUCCESS" ∧ ks = 25) ∨ (s = "WARNING" ∧ ks = 30)
  ∨ (s = "ERROR" ∧ ks = 40) ∨ (s = "CRITICAL" ∧ ks = 50).
Proof.
  unfold Loguru.levels.
  destruct (String.eqb s "TRACE") eqn:E1;
    [apply String.eqb_eq in E1; intros [= <- _]; tauto|].
  destruct (String.eqb s "DEBUG") eqn:E2;
    [apply String.eqb_eq in E2; intros [= <- _]; tauto|].
  destruct (String.eqb s "INFO") eqn:E3;
    [apply String.eqb_eq in E3; intros [= <- _]; tauto|].
  destruct (String.eqb s "SUCCESS") eqn:E4;
    [apply String.eqb_eq in E4; intros [= <- _]; tauto|].
  destruct (String.eqb s "WARNING") eqn:E5;
    [apply String.eqb_eq in E5; intros [= <- _]; tauto|].
  destruct (String.eqb s "ERROR") eqn:E6;
    [apply String.eqb_eq in E6; intros [= <- _]; tauto|].
  destruct (String.eqb s "CRITICAL") eqn:E7;
    [apply String.eqb_eq in E7; intros [= <- _]; tauto|].
  discriminate.
Qed.

(** A level name of Loguru as a level of [logging]: the same number for
    the five names both have, INFO for the two only Loguru has. *)
Lemma levels_convert (s : string) (ks : Z) (col : string) :
  Loguru.levels s = Some (ks, col) →
  ∃ k, PyLogging.checkLevel (convert_level (LvlStr s)) = inr k
       ∧ k ≠ 0
       ∧ k = if String.eqb s "TRACE" || String.eqb s "SUCCESS" then 20 else ks.
Proof.
  intros Hl. apply levels_inv in Hl.
  destruct Hl as [[-> ->]|[[-> ->]|[[-> ->]|[[-> ->]|[[-> ->]|[[-> ->]|[-> ->]]]]]]];
    eexists; (split; [reflexivity|]); split; (discriminate || reflexivity).
Qed.

(** The only level names the loop fails on. *)
Lemma convert_level_ok (l : LevelVal) :
  (∀ s, l = LvlStr s → upper s ≠ "BASIC_FORMAT" ∧ upper s ≠ "_STYLES") →
  ∃ k, PyLogging.checkLevel (convert_level l) = inr k.
Proof.
  intros Hl. destruct l as [s|k]; [|exists k; reflexivity].
  destruct (Hl s eq_refl) as [Hb Hs]. unfold convert_level, PyLogging.module_attr.
  destruct (PyLogging.nameToLevel (upper s)) as [k|]; [exists k; reflexivity|].
  destruct (String.eqb (upper s) "BASIC_FORMAT") eqn:E1;
    [apply String.eqb_eq in E1; contradiction|].
  destruct (String.eqb (upper s) "_STYLES") eqn:E2;
    [apply String.eqb_eq in E2; contradiction|].
  exists 20. reflexivity.
Qed.

Lemma configure_all_ok (specs : list (string * LevelVal))
      (m : PyLogging.Manager PyHandler) :
  Forall (λ spec, ∃ k, PyLogging.checkLevel (convert_level spec.2) = inr k)
         specs →
  (configure_all m specs).1 = None.
Proof.
  intros Hs. revert m. induction Hs as [|[n0 l0] specs [k Hk] Hs IH]; intros m;
    [reflexivity|].
  simpl in Hk. rewrite configure_all_cons, (configure_one_ok _ _ _ _ Hk).
  apply IH.
Qed.

(** The level Loguru gives an intercepted record: the record's own
    number and name. *)
Lemma intercept_level_name (lvl : Z) :
  0 < lvl →
  ∃ col, Loguru.resolve_level
           match Loguru.level_name_of (PyLogging.getLevelName lvl) with
           | inr n => Loguru.ByName n
           | inl _ => Loguru.ByNo lvl
           end = inr (PyLogging.getLevelName lvl, lvl, col).
Proof.
  intros Hl. unfold PyLogging.getLevelName.
  destruct (lvl =? 50) eqn:E50;
    [replace lvl with 50 by lia; eexists; reflexivity|].
  destruct (lvl =? 40) eqn:E40;
    [replace lvl with 40 by lia; eexists; reflexivity|].
  destruct (lvl =? 30) eqn:E30;
    [replace lvl with 30 by lia; eexists; reflexivity|].
  destruct (lvl =? 20) eqn:E20;
    [replace lvl with 20 by lia; eexists; reflexivity|].
  destruct (lvl =? 10) eqn:E10;
    [replace lvl with 10 by lia; eexists; reflexivity|].
  replace (lvl =? 0) with false by lia.
  simpl. replace (lvl <? 0) with false by lia. eexists. reflexivity.
Qed.

Lemma loggers_names (lvl : string) (add : option (list LoggerSpec)) :
  map fst (loggers_to_configure lvl add)
  = ["uvicorn"; "uvicorn.error"; "uvicorn.access"]
    ++ map spec_name (default [] add).
Proof.
  unfold loggers_to_configure. rewrite map_app. simpl.
  destruct add as [l|]; simpl; [|reflexivity]. do 3 f_equal.
  rewrite map_map. apply map_ext. intros [n|n l']; reflexivity.
Qed.

(** Whether [configure_logging] returns. *)
Lemma configure_succeeded (tty : bool) (a : Args) (w : World) :
  succeeded (configure_logging tty a w)
  = match Loguru.levels (level a) with
    | Some _ =>
        if intercept_stdlib a
        then match (configure_all (basicConfig_force (py w))
                      (loggers_to_configure (level a)
                         (additional_loggers a))).1 with
             | None => true
             | Some _ => false
             end
        else true
    | None => false
    end.
Proof.
  set (R := configure_all _ _).
  unfold configure_logging, Loguru.add, Loguru.remove, Loguru.resolve_levelno.
  destruct (Loguru.levels (level a)) as [[k c]|]; [|reflexivity].
  destruct (truthy (log_file a));
    (destruct (intercept_stdlib a); [|reflexivity]);
    unfold intercept_standard_logging; cbn [py core]; fold R;
    destruct R as [[e|] m']; reflexivity.
Qed.

(** What a successful call with interception leaves: the sinks of this
    call, all at the level asked for. *)
Lemma done_core (tty : bool) (a : Args) (w0 w : World) (ks : Z) (col : string) :
  configure_logging tty a w0 = Done w →
  Loguru.levels (level a) = Some (ks, col) →
  Forall (λ h, Loguru.levelno h = ks) (core w)
  ∧ map Loguru.sink (core w) = loguru_sinks a.
Proof.
  intros Hd Hl.
  assert (Hc : core w = expected_core a)
    by (rewrite <- (configure_core tty a w0), Hd; reflexivity).
  rewrite Hc. split.
  - exact (expected_core_levelno a ks col Hl).
  - exact (expected_core_sinks a ks col Hl).
Qed.

End InterceptMore.

Module LoguruMore.
Import Text Props MoreProps LoguruFacts LoguruImpl.

(** A handler without colour and with the format without markup writes
    the plain line. *)
Lemma formatted_plain (h : Loguru.Handler) (lv : string * Z * string)
      (call : Loguru.Call) :
  Loguru.colorize h = false → Loguru.format h = plain_format →
  Loguru.formatted h (Loguru.make_record lv call) = plain_line lv call.
Proof.
  intros Hc Hf. unfold Loguru.formatted, plain_line. rewrite Hc, Hf.
  unfold plain_format. cbn [Loguru.render].
  rewrite !FormatMore.app_assoc_s. reflexivity.
Qed.

Lemma expected_core_plain (a : Args) (h : Loguru.Handler) :
  In h (expected_core a) →
  colorize a = false ∨ Loguru.sink h ≠ Stdout →
  Loguru.colorize h = false ∧ Loguru.format h = plain_format.
Proof.
  unfold expected_core.
  destruct (Loguru.levels (level a)) as [[k c]|]; [|intros []].
  intros [<-|Hin] Hor.
  - destruct Hor as [Hc|Hs]; [|contradiction Hs; reflexivity].
    simpl. rewrite Hc. split; reflexivity.
  - destruct (truthy (log_file a)); [|destruct Hin].
    destruct Hin as [<-|[]]. split; reflexivity.
Qed.

Lemma emit_all_plain (a : Args) (lv : string * Z * string) (call : Loguru.Call)
      (s : Sink) (text : string) :
  In (s, text) (Loguru.emit_all (expected_core a) (Loguru.make_record lv call)) →
  colorize a = false ∨ s ≠ Stdout →
  text = plain_line lv call.
Proof.
  intros Hin Hor.
  pose proof (emit_all_sub (expected_core a) (Loguru.make_record lv call))
    as Hsub.
  apply list_elem_of_In in Hin.
  apply (sublist_subseteq _ _ Hsub) in Hin. apply list_elem_of_In in Hin.
  apply in_map_iff in Hin as (h & [= Hs <-] & Hh).
  destruct (expected_core_plain a h Hh) as [Hc Hf]; [rewrite Hs; exact Hor|].
  apply formatted_plain; assumption.
Qed.

End LoguruMore.

Module RotationMore.
Import Text Props MoreProps Rotation.

(** Without a positive size limit, or without backups, [emit] appends. *)
Lemma emit_disabled (never : bool) (N : Z) (B : nat) (d : Dir) (msg : string) :
  N ≤ 0 ∨ B = 0%nat → emit never N B d msg = write msg d.
Proof.
  intros [HN| ->]; unfold emit.
  - unfold shouldRollover. replace (N >? 0) with false by lia. reflexivity.
  - destruct (shouldRollover never N d msg); reflexivity.
Qed.

(** The active file stays below the limit when the line is ASCII and
    short enough, whichever handler writes it, provided the handler sees
    the size of its file. *)
Lemma shared_emit_bound (never seeks : bool) (N : Z) (k : nat)
      (st : Shared.State) (h : nat) (msg : string) (b : nat) :
  Shared.base (Shared.fs st) = Some b →
  Z.of_nat (utf8_len (Shared.read (Shared.fs st) b)) < N →
  (seeks = true
   ∨ ∀ s, s ∈ Shared.streams st →
          Shared.pos s
          = utf8_len (Shared.read (Shared.fs st) (Shared.inode s))) →
  is_ascii msg = true →
  Z.of_nat (String.length (msg +:+ NL)) < N →
  ∃ b', Shared.base (Shared.fs (Shared.emit never seeks N (S k) st h msg))
        = Some b'
        ∧ Z.of_nat (utf8_len
                      (Shared.read
                         (Shared.fs (Shared.emit never seeks N (S k) st h msg))
                         b'))
          < N.
Proof.
  intros Hb Hd Hsees Ha Hm.
  assert (Hbytes : utf8_len (msg +:+ NL) = String.length (msg +:+ NL)).
  { rewrite SharedFacts.utf8_len_app, SharedFacts.string_length_app,
      (SharedFacts.utf8_len_ascii msg Ha). reflexivity. }
  destruct (Shared.streams st !! h) as [s|] eqn:Hh.
  2:{ unfold Shared.emit. rewrite Hh. exists b. split; assumption. }
  destruct (Shared.shouldRollover never seeks N (Shared.fs st) s msg) eqn:Hs.
  - rewrite (SharedFacts.emit_rolls never seeks N k st h s b msg Hh Hb Hs).
    eexists. split; [reflexivity|].
    unfold Shared.read. cbn [Shared.fs Shared.content].
    rewrite lookup_insert_eq. cbn [from_option id]. rewrite Hbytes. exact Hm.
  - rewrite (SharedFacts.emit_appends never seeks N (S k) st h s msg Hh Hs).
    exists b. split; [exact Hb|]. cbn [Shared.fs].
    destruct (decide (Shared.inode s = b)) as [Hi|Hne].
    + assert (Ht : Shared.tell seeks (Shared.fs st) s
                   = utf8_len (Shared.read (Shared.fs st) b)).
      { unfold Shared.tell. destruct Hsees as [->|Hall]; [rewrite Hi; reflexivity|].
        destruct seeks; [rewrite Hi; reflexivity|].
        rewrite (Hall s (list_elem_of_lookup_2 _ _ _ Hh)), Hi. reflexivity. }
      rewrite Hi, SharedFacts.read_write.
      change (Shared.read (Shared.fs st) b +:+ msg +:+ NL)
        with (Shared.read (Shared.fs st) b +:+ (msg +:+ NL)).
      rewrite SharedFacts.utf8_len_app, Hbytes.
      unfold Shared.shouldRollover in Hs. rewrite Ht in Hs.
      replace (N >? 0) with true in Hs by lia.
      destruct (never && (utf8_len (Shared.read (Shared.fs st) b) =? 0)%nat)
        eqn:E.
      * apply andb_true_iff in E as [_ E]. apply Nat.eqb_eq in E.
        rewrite E. simpl. exact Hm.
      * lia.
    + rewrite SharedFacts.read_write_ne by exact Hne. exact Hd.
Qed.

Lemma l_write_active_bound (limit : Z) (number : nat) (d : LDir)
      (message : string) :
  Z.of_nat (utf8_len (l_active d)) ≤ limit →
  is_ascii message = true →
  Z.of_nat (String.length message) ≤ limit →
  Z.of_nat (utf8_len (l_active (l_write limit number d message))) ≤ limit.
Proof.
  intros Hd Ha Hm. unfold l_write, should_rotate.
  destruct (_ >? limit) eqn:E; cbn [l_active terminate_file];
    rewrite SharedFacts.utf8_len_app, (SharedFacts.utf8_len_ascii message Ha).
  - simpl. exact Hm.
  - lia.
Qed.

End RotationMore.

Section Further.
Import Text Props Samples.

(** X1.  The layout of a line of the [logging]-based module, for a
    service name without [%] and a record without exception or stack
    text: the time with milliseconds, the level name (wrapped in its
    colour on a terminal), the service name if one was given, the logger
    name and line number, and the message. *)
Theorem X1_std_line_layout
        (isatty : bool) (sn : option string) (r : PyLogging.LogRecord)
        (m : string) :
  literal_label sn →
  PyLogging.getMessage r = Some m →
  PyLogging.exc_info r = None →
  truthy (PyLogging.exc_text r) = false →
  truthy (PyLogging.stack_info r) = false →
  (StdImpl.format isatty (StdImpl.make_formatter sn) r).1
  = Some ("[" +:+ PyLogging.strftime (PyLogging.created r) +:+ ","
          +:+ zfill 3 (dec (PyLogging.msecs r)) +:+ "] ["
          +:+ colored isatty (PyLogging.levelname r) +:+ "] ["
          +:+ (if truthy sn then default "" sn +:+ "] [" else "")
          +:+ PyLogging.name r +:+ ":" +:+ dec (PyLogging.lineno r) +:+ "] "
          +:+ m).
Proof.
  intros _ Hm He Hx Hs. rewrite StdFormatFacts.format_unfold.
  pose proof (StdMore.base_layout sn
                (PyLogging.set_levelname
                   (colored isatty (PyLogging.levelname r)) r) m Hm He Hx Hs)
    as Hb.
  destruct (PyLogging.Formatter_format _ _) as [[s|] r2]; cbn [fst] in *;
    [exact Hb|discriminate Hb].
Qed.

Lemma X1_std_line_layout_witness :
  (StdImpl.format true (StdImpl.make_formatter (Some "gmail-services"))
     (PyLogging.makeRecord "module" 40 call0)).1
  = Some ("[2025-01-15 10:30:45,123] [" +:+ String ESC "[91mERROR"
          +:+ String ESC "[0m"
          +:+ "] [gmail-services] [module:45] Processing request").
Proof.
  apply (X1_std_line_layout true (Some "gmail-services")
           (PyLogging.makeRecord "module" 40 call0) "Processing request");
    reflexivity.
Defined.


(** X2.  On a terminal the [logging]-based module colours a line exactly
    when the record's level is one of the five standard ones: a custom
    level number, whose name is not in [COLORS], is written plain. *)
Theorem X2_only_standard_levels_coloured
        (sn : option string) (n : string) (lvl : Z) (c : PyLogging.Call)
        (m : string) :
  literal_label sn →
  opt_has_esc sn = false → has_esc n = false →
  PyLogging.c_message c = Some m → has_esc m = false →
  opt_has_esc (PyLogging.c_exc_info c) = false →
  ∃ s,
    (StdImpl.format true (StdImpl.make_formatter sn)
       (PyLogging.makeRecord n lvl c)).1 = Some s
    ∧ (has_esc s = true ↔ In lvl [10; 20; 30; 40; 50]).
Proof.
  intros _ Hsn Hn Hm Hme Hx.
  set (r := PyLogging.makeRecord n lvl c).
  set (f := StdImpl.make_formatter sn).
  destruct (FormatMore.COLORS_getLevelName lvl)
    as [[(col & Hc & Hcol) Hin]|[Hc Hnin]].
  - rewrite StdFormatFacts.format_unfold.
    unfold colored. change (PyLogging.levelname r) with (PyLogging.getLevelName lvl).
    rewrite Hc.
    set (r1 := PyLogging.set_levelname _ r).
    unfold PyLogging.Formatter_format.
    change (PyLogging.getMessage r1) with (PyLogging.c_message c). rewrite Hm.
    eexists. split; [reflexivity|]. split; [intros _; exact Hin|intros _].
    apply FormatMore.has_esc_append_extras_true.
    apply FormatMore.formatMessage_has_levelname;
      [apply FormatMore.log_format_has_levelname|].
    destruct (FormatFacts.store_message_inputs f m r1)
      as ((_ & _ & Hl & _) & _).
    rewrite Hl. unfold r1. simpl.
    rewrite !TextFacts.has_esc_app, Hcol. reflexivity.
  - assert (Heq : (StdImpl.format true f r).1 = (PyLogging.Formatter_format f r).1).
    { rewrite <- StdFormatFacts.format_plain, !StdFormatFacts.format_unfold.
      unfold colored. change (PyLogging.levelname r) with (PyLogging.getLevelName lvl).
      rewrite Hc. reflexivity. }
    rewrite Heq.
    destruct (FormatFacts.Formatter_format_total f r m Hm) as (s & r' & He).
    rewrite He. exists s. split; [reflexivity|].
    assert (Hs : has_esc s = false).
    { eapply EscFacts.Formatter_format_esc;
        [apply EscFacts.make_formatter_esc_free; exact Hsn| |exact He].
      unfold record_esc_free, r. simpl. rewrite Hm.
      repeat split; auto using FormatMore.getLevelName_esc. }
    rewrite Hs. split; [discriminate|]. intros Hin. contradiction.
Qed.

Lemma X2_only_standard_levels_coloured_witness :
  ∃ s,
    (StdImpl.format true (StdImpl.make_formatter None)
       (PyLogging.makeRecord "app" 25 call0)).1 = Some s
    ∧ (has_esc s = true ↔ In 25 [10; 20; 30; 40; 50]).
Proof.
  apply (X2_only_standard_levels_coloured None "app" 25 call0
           "Processing request"); (exact I || reflexivity).
Defined.

(** X3.  When formatting raises (the message cannot be built),
    [StandardizedFormatter.format] does not reach the statement that
    restores [levelname]: on a terminal a record at a standard level is
    left with the coloured level name. *)
Theorem X3_raise_leaves_coloured_levelname
        (f : PyLogging.Formatter) (r : PyLogging.LogRecord) (col : string) :
  PyLogging.getMessage r = None →
  StdImpl.COLORS (PyLogging.levelname r) = Some col →
  (StdImpl.format true f r).1 = None
  ∧ PyLogging.levelname (StdImpl.format true f r).2
    = col +:+ PyLogging.levelname r +:+ StdImpl.RESET
  ∧ PyLogging.levelname (StdImpl.format true f r).2 ≠ PyLogging.levelname r.
Proof.
  intros Hm Hc. rewrite StdFormatFacts.format_unfold.
  rewrite FormatFacts.Formatter_format_raises by exact Hm.
  unfold colored. rewrite Hc. simpl. repeat split.
  intros Heq. apply (f_equal String.length) in Heq.
  rewrite !FormatMore.length_app_s in Heq. simpl in Heq. lia.
Qed.

Lemma X3_raise_leaves_coloured_levelname_witness :
  PyLogging.levelname
    (StdImpl.format true (StdImpl.make_formatter None)
       (PyLogging.makeRecord "app" 30
          {| PyLogging.c_module := "app"; PyLogging.c_funcName := "main";
             PyLogging.c_lineno := 7; PyLogging.c_message := None;
             PyLogging.c_time := t0; PyLogging.c_msecs := 0;
             PyLogging.c_exc_info := None |})).2
  = String ESC "[93m" +:+ "WARNING" +:+ StdImpl.RESET.
Proof.
  apply (X3_raise_leaves_coloured_levelname (StdImpl.make_formatter None)
           (PyLogging.makeRecord "app" 30
              {| PyLogging.c_module := "app"; PyLogging.c_funcName := "main";
                 PyLogging.c_lineno := 7; PyLogging.c_message := None;
                 PyLogging.c_time := t0; PyLogging.c_msecs := 0;
                 PyLogging.c_exc_info := None |})
           (String ESC "[93m")); reflexivity.
Defined.


(** X4.  What the [logging]-based [configure_logging] leaves alone: with
    [include_uvicorn=False] the dictionary of named loggers is untouched;
    with it, only the entries of the three Uvicorn loggers change; and the
    root logger's [propagate] keeps its value. *)
Theorem X4_std_configure_frame
        (a : StdImpl.Args) (m : PyLogging.Manager StdImpl.Handler)
        (n : string) :
  (StdImpl.include_uvicorn a = false →
   PyLogging.loggerDict (StdImpl.configure_logging a m)
   = PyLogging.loggerDict m)
  ∧ (¬ In n StdImpl.uvicorn_names →
     PyLogging.loggerDict (StdImpl.configure_logging a m) !! n
     = PyLogging.loggerDict m !! n)
  ∧ PyLogging.propagate (PyLogging.root (StdImpl.configure_logging a m))
    = PyLogging.propagate (PyLogging.root m).
Proof.
  split; [|split].
  - intros Hi. rewrite StdMore.configure_dict, Hi. reflexivity.
  - intros Hn. rewrite StdMore.configure_dict.
    destruct (StdImpl.include_uvicorn a); [|reflexivity].
    apply StdMore.with_uvicorn_other. exact Hn.
  - rewrite StdFacts.configure_root. reflexivity.
Qed.

Lemma X4_std_configure_frame_witness :
  PyLogging.loggerDict
    (StdImpl.configure_logging
       {| StdImpl.level := 20; StdImpl.service_name := None;
          StdImpl.include_uvicorn := false; StdImpl.log_file := None;
          StdImpl.max_bytes := 1; StdImpl.backup_count := 1 |}
       (StdImpl.configure_logging (StdImpl.defaults 10) PyLogging.fresh))
  = PyLogging.loggerDict
      (StdImpl.configure_logging (StdImpl.defaults 10) PyLogging.fresh)
  ∧ PyLogging.loggerDict
      (StdImpl.configure_logging (StdImpl.defaults 10) PyLogging.fresh)
      !! "requests" = None.
Proof.
  split.
  - apply (X4_std_configure_frame _ _ ""). reflexivity.
  - rewrite (proj1 (proj2 (X4_std_configure_frame (StdImpl.defaults 10)
                             PyLogging.fresh "requests"))).
    + reflexivity.
    + intros [H|[H|[H|[]]]]; discriminate H.
Defined.

(** X5.  The last call wins: a second [configure_logging] that includes
    the Uvicorn loggers (or follows a call that did not) leaves exactly the
    state it would leave on its own; in particular the function is
    idempotent. *)
Theorem X5_std_last_call_wins
        (a1 a2 : StdImpl.Args) (m : PyLogging.Manager StdImpl.Handler) :
  StdImpl.include_uvicorn a2 = true ∨ StdImpl.include_uvicorn a1 = false →
  StdImpl.configure_logging a2 (StdImpl.configure_logging a1 m)
  = StdImpl.configure_logging a2 m.
Proof.
  intros H. apply StdMore.manager_ext.
  - rewrite !StdFacts.configure_root. reflexivity.
  - rewrite !StdMore.configure_dict.
    destruct H as [H|H]; rewrite H.
    + destruct (StdImpl.include_uvicorn a1); [|reflexivity].
      apply StdMore.with_uvicorn_twice.
    + reflexivity.
Qed.

Lemma X5_std_last_call_wins_witness :
  StdImpl.configure_logging (StdImpl.defaults 20)
    (StdImpl.configure_logging (file_args 10) PyLogging.fresh)
  = StdImpl.configure_logging (StdImpl.defaults 20) PyLogging.fresh.
Proof. apply X5_std_last_call_wins. left. reflexivity. Defined.

(** X6.  In the [logging]-based module the level of ["uvicorn.access"] is
    WARNING whatever the global level: a record on it is written, once on
    each sink, exactly when its level is at least WARNING, also when the
    global level is higher (written, for a service name without [%]). *)
Theorem X6_std_access_floor_is_absolute
        (isatty : bool) (a : StdImpl.Args)
        (m0 : PyLogging.Manager StdImpl.Handler) (lvl : Z)
        (c : PyLogging.Call) (msg : string) :
  StdImpl.include_uvicorn a = true →
  PyLogging.c_message c = Some msg →
  (lvl < 30 →
   StdImpl.emit isatty (StdImpl.configure_logging a m0) "uvicorn.access" lvl c
   = [])
  ∧ (30 ≤ lvl → literal_label (StdImpl.service_name a) →
     ∃ line,
       StdImpl.emit isatty (StdImpl.configure_logging a m0)
         "uvicorn.access" lvl c
       = map (λ s, (s, line)) (std_sinks a)).
Proof.
  intros Hi Hm.
  assert (Hin : In "uvicorn.access" StdImpl.uvicorn_names)
    by (right; right; left; reflexivity).
  pose proof (StdFacts.configure_uvicorn_logger a m0 "uvicorn.access" Hi Hin)
    as Hlg.
  assert (He : PyLogging.isEnabledFor (StdImpl.configure_logging a m0)
                 "uvicorn.access" lvl
               = if 0 >=? lvl then false else lvl >=? 30).
  { unfold PyLogging.isEnabledFor.
    rewrite DispatchFacts.effective_own; rewrite Hlg; [reflexivity|].
    simpl. discriminate. }
  rewrite StdFacts.emit_uvicorn by assumption. rewrite He. split.
  - intros Hlt. destruct (0 >=? lvl); [reflexivity|].
    replace (lvl >=? 30) with false by lia. reflexivity.
  - intros Hle _. replace (0 >=? lvl) with false by lia.
    replace (lvl >=? 30) with true by lia.
    destruct (StdFormatFacts.format_total isatty
                (StdImpl.make_formatter (StdImpl.service_name a))
                (PyLogging.makeRecord "uvicorn.access" lvl c) msg Hm)
      as (t & r' & ->).
    exists (t +:+ NL). cbn [fst].
    rewrite <- StdFacts.uvicorn_handlers_sinks, map_map. reflexivity.
Qed.

Lemma X6_std_access_floor_is_absolute_witness :
  ∃ line,
    StdImpl.emit false (StdImpl.configure_logging (StdImpl.defaults 50)
                          PyLogging.fresh) "uvicorn.access" 30 call0
    = map (λ s, (s, line)) (std_sinks (StdImpl.defaults 50)).
Proof.
  destruct (X6_std_access_floor_is_absolute false (StdImpl.defaults 50)
              PyLogging.fresh 30 call0 "Processing request" eq_refl eq_refl)
    as [_ H].
  apply H; [lia|exact I].
Defined.

(** X7.  In the [logging]-based module a logger below one of the three
    Uvicorn loggers, not configured itself, is governed by that logger:
    its records pass at the parent's level, are written by the parent's
    handlers, once on each sink (for a service name without [%]), and do
    not reach the root logger. *)
Theorem X7_std_uvicorn_children
        (isatty : bool) (a : StdImpl.Args)
        (m0 : PyLogging.Manager StdImpl.Handler)
        (n p : string) (rest : list string) (lvl : Z)
        (c : PyLogging.Call) (msg : string) :
  StdImpl.include_uvicorn a = true → In p StdImpl.uvicorn_names →
  PyLogging.parent_names n = p :: rest →
  PyLogging.loggerDict (StdImpl.configure_logging a m0) !! n = None →
  uvicorn_level a p ≠ 0 →
  PyLogging.c_message c = Some msg →
  (lvl < uvicorn_level a p ∨ lvl ≤ 0 →
   StdImpl.emit isatty (StdImpl.configure_logging a m0) n lvl c = [])
  ∧ (uvicorn_level a p ≤ lvl → 0 < lvl →
     literal_label (StdImpl.service_name a) →
     ∃ line,
       StdImpl.emit isatty (StdImpl.configure_logging a m0) n lvl c
       = map (λ s, (s, line)) (std_sinks a)).
Proof.
  intros Hi Hp Hpar Hn Hlv Hm.
  assert (Hr : PyLogging.is_root_name n = false).
  { destruct (PyLogging.is_root_name n) eqn:E; [|reflexivity].
    apply StdMore.is_root_name_inv in E as [->| ->]; discriminate Hpar. }
  pose proof (StdMore.lookup_uvicorn a m0 p Hi Hp) as Hlg.
  assert (He : PyLogging.isEnabledFor (StdImpl.configure_logging a m0) n lvl
               = if 0 >=? lvl then false else lvl >=? uvicorn_level a p).
  { unfold PyLogging.isEnabledFor.
    rewrite (StdMore.effective_child _ n p rest Hr Hpar Hn); rewrite Hlg;
      [reflexivity|exact Hlv]. }
  unfold StdImpl.emit, PyLogging.Logger_log. rewrite He. split.
  - intros Hlt. destruct (0 >=? lvl) eqn:E0; [reflexivity|].
    replace (lvl >=? uvicorn_level a p) with false by lia. reflexivity.
  - intros Hle Hpos _. replace (0 >=? lvl) with false by lia.
    replace (lvl >=? uvicorn_level a p) with true by lia.
    rewrite (StdMore.callHandlers_child _ _ _ _ p rest); try assumption;
      try (rewrite Hlg; simpl; (reflexivity || (unfold uvicorn_handlers; discriminate))).
    rewrite Hlg. cbn [PyLogging.handlers MoreProps.uvicorn_logger].
    rewrite (StdFacts.run_handlers_uniform isatty
               (StdImpl.make_formatter (StdImpl.service_name a)));
      [|apply StdFormatFacts.make_formatter_time_only
       |apply StdFacts.uvicorn_handlers_uniform; simpl; lia].
    destruct (StdFormatFacts.format_total isatty
                (StdImpl.make_formatter (StdImpl.service_name a))
                (PyLogging.makeRecord n lvl c) msg Hm)
      as (t & r' & ->).
    exists (t +:+ NL). cbn [fst].
    rewrite <- StdFacts.uvicorn_handlers_sinks, map_map. reflexivity.
Qed.

Lemma X7_std_uvicorn_children_witness :
  StdImpl.emit false (StdImpl.configure_logging (StdImpl.defaults 10)
                        PyLogging.fresh) "uvicorn.access.http" 20 call0 = [].
Proof.
  destruct (X7_std_uvicorn_children false (StdImpl.defaults 10)
              PyLogging.fresh "uvicorn.access.http" "uvicorn.access"
              ["uvicorn"] 20 call0 "Processing request")
    as [H _].
  - reflexivity.
  - right; right; left; reflexivity.
  - reflexivity.
  - reflexivity.
  - discriminate.
  - reflexivity.
  - apply H. left. reflexivity.
Defined.


(** X8.  After a successful call of the Loguru-based [configure_logging]
    with interception, the root logger of [logging] carries the shim at
    level 0: a record of any logger that was never configured reaches
    every Loguru sink exactly when its level passes the sinks' level. *)
Theorem X8_unlisted_loggers_go_through_root
        (tty : bool) (a : LoguruImpl.Args) (w0 w : LoguruImpl.World)
        (env : LoguruImpl.Env) (n : string) (ks : Z) (col : string) (lvl : Z)
        (c : PyLogging.Call) (msg : string) :
  LoguruImpl.configure_logging tty a w0 = LoguruImpl.Done w →
  LoguruImpl.intercept_stdlib a = true →
  (∀ s, In s (default [] (LoguruImpl.additional_loggers a)) →
        PyLogging.is_root_name (MoreProps.spec_name s) = false) →
  unconfigured (LoguruImpl.py w) n →
  Loguru.levels (LoguruImpl.level a) = Some (ks, col) →
  PyLogging.c_message c = Some msg →
  PyLogging.root (LoguruImpl.py w)
  = {| PyLogging.level := 0;
       PyLogging.handlers := [LoguruImpl.InterceptHandler];
       PyLogging.propagate :=
         PyLogging.propagate (PyLogging.root (LoguruImpl.py w0)) |}
  ∧ (lvl < ks ∨ lvl ≤ 0 → LoguruImpl.emit_stdlib w env n lvl c = [])
  ∧ (ks ≤ lvl → 0 < lvl →
     map fst (LoguruImpl.emit_stdlib w env n lvl c) = loguru_sinks a).
Proof.
  intros Hd Hi Hadd Hu Hl Hm.
  destruct (InterceptFacts.configure_done tty a w0 w Hd Hi) as [Hall _].
  destruct (InterceptMore.done_core tty a w0 w ks col Hd Hl) as [Hlv Hsinks].
  assert (Hroot : PyLogging.root (LoguruImpl.py w)
                  = PyLogging.root (LoguruImpl.basicConfig_force
                                      (LoguruImpl.py w0))).
  { replace (LoguruImpl.py w)
      with (LoguruImpl.configure_all
              (LoguruImpl.basicConfig_force (LoguruImpl.py w0))
              (LoguruImpl.loggers_to_configure (LoguruImpl.level a)
                 (LoguruImpl.additional_loggers a))).2
      by (rewrite Hall; reflexivity).
    apply InterceptMore.configure_all_root.
    apply List.Forall_forall. intros spec Hin.
    assert (Hin' : In spec.1 (map fst (LoguruImpl.loggers_to_configure
                                         (LoguruImpl.level a)
                                         (LoguruImpl.additional_loggers a))))
      by (apply in_map; exact Hin).
    rewrite InterceptMore.loggers_names in Hin'.
    apply in_app_or in Hin' as [Hb|Ha].
    - destruct Hb as [<-|[<-|[<-|[]]]]; reflexivity.
    - apply in_map_iff in Ha as (s & <- & Hs). apply Hadd. exact Hs. }
  split; [exact Hroot|].
  rewrite <- Hsinks.
  apply (InterceptMore.emit_root_shim w env n ks lvl c msg); auto;
    rewrite Hroot; reflexivity.
Qed.

Lemma X8_unlisted_loggers_go_through_root_witness :
  map fst
    (LoguruImpl.emit_stdlib
       (LoguruImpl.state_of
          (LoguruImpl.configure_logging false (test_args "INFO")
             (LoguruImpl.initial false)))
       env311 "requests.adapters" 30 call0)
  = loguru_sinks (test_args "INFO").
Proof.
  destruct (X8_unlisted_loggers_go_through_root false (test_args "INFO")
              (LoguruImpl.initial false)
              (LoguruImpl.state_of
                 (LoguruImpl.configure_logging false (test_args "INFO")
                    (LoguruImpl.initial false)))
              env311 "requests.adapters" 20 (Loguru.code "1") 30 call0
              "Processing request")
    as (_ & _ & H).
  - reflexivity.
  - reflexivity.
  - intros s [].
  - right. repeat constructor.
  - reflexivity.
  - reflexivity.
  - apply H; lia.
Defined.

(** X10.  A [(name, level)] tuple in [additional_loggers] decides the
    level of that logger when no later entry names it, also for the three
    built-in Uvicorn names: the caller's entries are configured after the
    built-in ones.  Records on that logger then pass two thresholds, the
    logger's and the sinks'. *)
Theorem X10_callers_entry_wins
        (tty : bool) (a : LoguruImpl.Args) (w0 w : LoguruImpl.World)
        (env : LoguruImpl.Env) (pre post : list LoguruImpl.LoggerSpec) (n : string)
        (l : LoguruImpl.LevelVal) (ks : Z) (col : string) (lvl : Z)
        (c : PyLogging.Call) (msg : string) :
  LoguruImpl.configure_logging tty a w0 = LoguruImpl.Done w →
  LoguruImpl.intercept_stdlib a = true →
  LoguruImpl.additional_loggers a
  = Some (pre ++ LoguruImpl.SpecTuple n l :: post) →
  PyLogging.is_root_name n = false →
  (∀ s, In s post → MoreProps.spec_name s ≠ n) →
  Loguru.levels (LoguruImpl.level a) = Some (ks, col) →
  PyLogging.c_message c = Some msg →
  ∃ k, PyLogging.checkLevel (LoguruImpl.convert_level l) = inr k
       ∧ PyLogging.getLogger (LoguruImpl.py w) n = MoreProps.shim_logger k
       ∧ (k ≠ 0 →
          (lvl < k ∨ lvl < ks ∨ lvl ≤ 0 →
           LoguruImpl.emit_stdlib w env n lvl c = [])
          ∧ (k ≤ lvl → ks ≤ lvl → 0 < lvl →
             map fst (LoguruImpl.emit_stdlib w env n lvl c) = loguru_sinks a)).
Proof.
  intros Hd Hi Hadd Hr Hpost Hl Hm.
  destruct (InterceptFacts.configure_done tty a w0 w Hd Hi) as [Hall _].
  destruct (InterceptMore.done_core tty a w0 w ks col Hd Hl) as [Hlv Hsinks].
  rewrite Hadd in Hall. unfold LoguruImpl.loggers_to_configure in Hall.
  rewrite map_app in Hall. cbn [map] in Hall. rewrite app_assoc in Hall.
  destruct (InterceptMore.configure_all_last _ _ _ _ _ _ Hall Hr)
    as (k & Hk & Hg).
  { rewrite map_map. intros Hin. apply in_map_iff in Hin as (s & Hs & Hin).
    apply (Hpost s Hin). destruct s; exact Hs. }
  exists k. split; [exact Hk|]. split; [exact Hg|].
  intros Hk0. rewrite <- Hsinks.
  apply (InterceptMore.emit_shim w env n k ks lvl c msg); assumption.
Qed.

Lemma X10_callers_entry_wins_witness :
  PyLogging.getLogger
    (LoguruImpl.py
       (LoguruImpl.state_of
          (LoguruImpl.configure_logging false
             {| LoguruImpl.level := "INFO"; LoguruImpl.service_name := None;
                LoguruImpl.intercept_stdlib := true;
                LoguruImpl.additional_loggers :=
                  Some [LoguruImpl.SpecName "httpx";
                        LoguruImpl.SpecTuple "uvicorn.access"
                          (LoguruImpl.LvlStr "debug")];
                LoguruImpl.log_file := None; LoguruImpl.max_bytes := 1;
                LoguruImpl.backup_count := 1; LoguruImpl.colorize := false |}
             (LoguruImpl.initial false))))
    "uvicorn.access"
  = MoreProps.shim_logger 10.
Proof.
  destruct (X10_callers_entry_wins false
              {| LoguruImpl.level := "INFO"; LoguruImpl.service_name := None;
                 LoguruImpl.intercept_stdlib := true;
                 LoguruImpl.additional_loggers :=
                   Some [LoguruImpl.SpecName "httpx";
                         LoguruImpl.SpecTuple "uvicorn.access"
                           (LoguruImpl.LvlStr "debug")];
                 LoguruImpl.log_file := None; LoguruImpl.max_bytes := 1;
                 LoguruImpl.backup_count := 1; LoguruImpl.colorize := false |}
              (LoguruImpl.initial false) _ env311
              [LoguruImpl.SpecName "httpx"] [] "uvicorn.access"
              (LoguruImpl.LvlStr "debug") 20 (Loguru.code "1") 20 call0
              "Processing request" eq_refl eq_refl eq_refl eq_refl)
    as (k & Hk & Hg & _).
  - intros s [].
  - reflexivity.
  - reflexivity.
  - injection Hk as <-. exact Hg.
Defined.

(** X11.  A built-in Uvicorn logger that the caller does not reconfigure:
    its level is WARNING for ["uvicorn.access"] and the [logging] level
    named like the global level otherwise, which is INFO for the two
    names only Loguru has (TRACE and SUCCESS).  A record on it is written,
    on every sink, exactly when it passes this level and the sinks'. *)
Theorem X11_builtin_loggers_two_thresholds
        (tty : bool) (a : LoguruImpl.Args) (w0 w : LoguruImpl.World)
        (env : LoguruImpl.Env) (n : string) (ks : Z) (col : string) (lvl : Z)
        (c : PyLogging.Call) (msg : string) :
  LoguruImpl.configure_logging tty a w0 = LoguruImpl.Done w →
  LoguruImpl.intercept_stdlib a = true →
  In n (map fst (LoguruImpl.loggers_to_configure (LoguruImpl.level a) None)) →
  (∀ s, In s (default [] (LoguruImpl.additional_loggers a)) →
        MoreProps.spec_name s ≠ n) →
  Loguru.levels (LoguruImpl.level a) = Some (ks, col) →
  PyLogging.c_message c = Some msg →
  ∃ k,
    k = (if String.eqb n "uvicorn.access" then 30
         else if String.eqb (LoguruImpl.level a) "TRACE"
                 || String.eqb (LoguruImpl.level a) "SUCCESS"
              then 20 else ks)
    ∧ PyLogging.getLogger (LoguruImpl.py w) n = MoreProps.shim_logger k
    ∧ (lvl < k ∨ lvl < ks → LoguruImpl.emit_stdlib w env n lvl c = [])
    ∧ (k ≤ lvl → ks ≤ lvl →
       map fst (LoguruImpl.emit_stdlib w env n lvl c) = loguru_sinks a).
Proof.
  intros Hd Hi Hn Hadd Hl Hm.
  destruct (InterceptFacts.configure_done tty a w0 w Hd Hi) as [Hall _].
  destruct (InterceptMore.done_core tty a w0 w ks col Hd Hl) as [Hlv Hsinks].
  destruct (InterceptMore.levels_convert _ _ _ Hl) as (kg & Hkg & Hkg0 & Hkgv).
  set (rest := match LoguruImpl.additional_loggers a with
               | Some l =>
                   map (λ logger_spec,
                          match logger_spec with
                          | LoguruImpl.SpecTuple n0 l' => (n0, l')
                          | LoguruImpl.SpecName n0 =>
                              (n0, LoguruImpl.LvlStr (LoguruImpl.level a))
                          end) l
               | None => []
               end).
  assert (Hrest : ¬ In n (map fst rest)).
  { intros Hin.
    assert (Hin' : In n (map MoreProps.spec_name
                           (default [] (LoguruImpl.additional_loggers a)))).
    { unfold rest in Hin.
      destruct (LoguruImpl.additional_loggers a) as [l0|]; [|destruct Hin].
      simpl. rewrite map_map in Hin.
      erewrite map_ext in Hin; [exact Hin|]. intros [?|? ?]; reflexivity. }
    apply in_map_iff in Hin' as (s & Hs & Hin'). exact (Hadd s Hin' Hs). }
  assert (Hgen : ∀ (pre post : list (string * LoguruImpl.LevelVal))
                   (l : LoguruImpl.LevelVal) (k : Z),
             LoguruImpl.loggers_to_configure (LoguruImpl.level a)
               (LoguruImpl.additional_loggers a) = pre ++ (n, l) :: post →
             ¬ In n (map fst post) →
             PyLogging.is_root_name n = false →
             PyLogging.checkLevel (LoguruImpl.convert_level l) = inr k →
             k ≠ 0 →
             PyLogging.getLogger (LoguruImpl.py w) n = MoreProps.shim_logger k
             ∧ (lvl < k ∨ lvl < ks → LoguruImpl.emit_stdlib w env n lvl c = [])
             ∧ (k ≤ lvl → ks ≤ lvl → 0 < k →
                map fst (LoguruImpl.emit_stdlib w env n lvl c) = loguru_sinks a)).
  { intros pre post l k Heq Hpost Hr Hk Hk0. rewrite Heq in Hall.
    destruct (InterceptMore.configure_all_last _ _ _ _ _ _ Hall Hr Hpost)
      as (k' & Hk' & Hg).
    rewrite Hk in Hk'. injection Hk' as <-.
    split; [exact Hg|]. rewrite <- Hsinks.
    destruct (InterceptMore.emit_shim w env n k ks lvl c msg Hg Hk0 Hlv Hm)
      as [Hbelow Habove].
    split.
    - intros [H|H]; apply Hbelow; auto.
    - intros H1 H2 H3. apply Habove; auto; lia. }
  destruct Hn as [<-|[<-|[<-|[]]]].
  - exists kg. split; [exact Hkgv|].
    destruct (Hgen [] ([("uvicorn.error", LoguruImpl.LvlStr (LoguruImpl.level a));
                        ("uvicorn.access", LoguruImpl.LvlStr "WARNING")]
                         ++ rest)
                (LoguruImpl.LvlStr (LoguruImpl.level a)) kg)
      as (Hg & Hb & Ha); auto.
    { rewrite map_app. intros Hin. apply in_app_or in Hin as [Hin|Hin];
        [|exact (Hrest Hin)].
      destruct Hin as [Hin|[Hin|[]]]; discriminate Hin. }
    split; [exact Hg|]. split; [exact Hb|]. intros H1 H2. apply Ha; auto.
    rewrite Hkgv.
    destruct (String.eqb (LoguruImpl.level a) "TRACE"
              || String.eqb (LoguruImpl.level a) "SUCCESS"); [lia|].
    apply InterceptMore.levels_inv in Hl. lia.
  - exists kg. split; [exact Hkgv|].
    destruct (Hgen [("uvicorn", LoguruImpl.LvlStr (LoguruImpl.level a))]
                ([("uvicorn.access", LoguruImpl.LvlStr "WARNING")] ++ rest)
                (LoguruImpl.LvlStr (LoguruImpl.level a)) kg)
      as (Hg & Hb & Ha); auto.
    { rewrite map_app. intros Hin. apply in_app_or in Hin as [Hin|Hin];
        [|exact (Hrest Hin)].
      destruct Hin as [Hin|[]]; discriminate Hin. }
    split; [exact Hg|]. split; [exact Hb|]. intros H1 H2. apply Ha; auto.
    rewrite Hkgv.
    destruct (String.eqb (LoguruImpl.level a) "TRACE"
              || String.eqb (LoguruImpl.level a) "SUCCESS"); [lia|].
    apply InterceptMore.levels_inv in Hl. lia.
  - exists 30. split; [reflexivity|].
    destruct (Hgen [("uvicorn", LoguruImpl.LvlStr (LoguruImpl.level a));
                    ("uvicorn.error", LoguruImpl.LvlStr (LoguruImpl.level a))]
                rest (LoguruImpl.LvlStr "WARNING") 30)
      as (Hg & Hb & Ha); auto; try discriminate.
    split; [exact Hg|]. split; [exact Hb|]. intros H1 H2. apply Ha; auto. lia.
Qed.

Lemma X11_builtin_loggers_two_thresholds_witness :
  PyLogging.getLogger
    (LoguruImpl.py
       (LoguruImpl.state_of
          (LoguruImpl.configure_logging false (test_args "TRACE")
             (LoguruImpl.initial false))))
    "uvicorn.error"
  = MoreProps.shim_logger 20
  ∧ LoguruImpl.emit_stdlib
      (LoguruImpl.state_of
         (LoguruImpl.configure_logging false (test_args "TRACE")
            (LoguruImpl.initial false)))
      env311 "uvicorn.error" 10 call0 = [].
Proof.
  destruct (X11_builtin_loggers_two_thresholds false (test_args "TRACE")
              (LoguruImpl.initial false) _ env311 "uvicorn.error" 5
              (Loguru.code "36" +:+ Loguru.code "1") 10 call0
              "Processing request" eq_refl eq_refl)
    as (k & Hk & Hg & Hb & _).
  - right. left. reflexivity.
  - intros s [].
  - reflexivity.
  - reflexivity.
  - simpl in Hk. subst k. split; [exact Hg|]. apply Hb. left. lia.
Defined.

(** X12.  Failures of the file system aside, the Loguru-based
    [configure_logging] returns whenever the global level is a level name
    of Loguru and no tuple of [additional_loggers] gives a level string
    whose upper-case form is [BASIC_FORMAT] or [_STYLES], the two
    attributes of [logging] that are not levels. *)
Theorem X12_configure_returns
        (tty : bool) (a : LoguruImpl.Args) (w : LoguruImpl.World)
        (ks : Z) (col : string) :
  Loguru.levels (LoguruImpl.level a) = Some (ks, col) →
  (∀ n s, In (LoguruImpl.SpecTuple n (LoguruImpl.LvlStr s))
             (default [] (LoguruImpl.additional_loggers a)) →
          upper s ≠ "BASIC_FORMAT" ∧ upper s ≠ "_STYLES") →
  LoguruImpl.succeeded (LoguruImpl.configure_logging tty a w) = true.
Proof.
  intros Hl Hadd. rewrite InterceptMore.configure_succeeded, Hl.
  destruct (LoguruImpl.intercept_stdlib a); [|reflexivity].
  rewrite InterceptMore.configure_all_ok; [reflexivity|].
  destruct (InterceptMore.levels_convert _ _ _ Hl) as (kg & Hkg & _).
  unfold LoguruImpl.loggers_to_configure. apply Forall_app. split.
  - repeat constructor; simpl; eauto.
  - destruct (LoguruImpl.additional_loggers a) as [l0|]; [|constructor].
    apply List.Forall_forall. intros spec Hin.
    apply in_map_iff in Hin as ([n0|n0 l'] & <- & Hin); simpl; [eauto|].
    apply InterceptMore.convert_level_ok. intros s ->.
    exact (Hadd n0 s Hin).
Qed.

Lemma X12_configure_returns_witness :
  LoguruImpl.succeeded
    (LoguruImpl.configure_logging false loud_args (LoguruImpl.initial false))
  = true.
Proof.
  apply (X12_configure_returns false loud_args (LoguruImpl.initial false) 20
           (Loguru.code "1")).
  - reflexivity.
  - intros n s [H|[]]. injection H as <- <-. split; discriminate.
Defined.

(** X13.  No call of the Loguru-based [configure_logging] undoes an
    interception: a [logging] logger that carries the shim and does not
    propagate is still so afterwards, whatever the arguments and however
    the call ends; and with [intercept_stdlib=False], or when the global
    level is rejected, the [logging] hierarchy is not touched at all. *)
Theorem X13_interception_is_never_undone
        (tty : bool) (a : LoguruImpl.Args) (w : LoguruImpl.World)
        (n : string) :
  (LoguruImpl.intercept_stdlib a = false
   ∨ Loguru.levels (LoguruImpl.level a) = None →
   LoguruImpl.py (LoguruImpl.state_of (LoguruImpl.configure_logging tty a w))
   = LoguruImpl.py w)
  ∧ (intercepted (PyLogging.getLogger (LoguruImpl.py w) n) →
     intercepted
       (PyLogging.getLogger
          (LoguruImpl.py
             (LoguruImpl.state_of (LoguruImpl.configure_logging tty a w)))
          n)).
Proof.
  rewrite InterceptMore.configure_py. split.
  - intros [Hi|Hl]; [rewrite Hi|rewrite Hl; reflexivity].
    destruct (Loguru.levels (LoguruImpl.level a)); reflexivity.
  - intros Hn. destruct (Loguru.levels (LoguruImpl.level a)); [|exact Hn].
    destruct (LoguruImpl.intercept_stdlib a); [|exact Hn].
    apply InterceptMore.configure_all_keeps_any.
    apply InterceptMore.basicConfig_keeps. exact Hn.
Qed.

Lemma X13_interception_is_never_undone_witness :
  intercepted
    (PyLogging.getLogger
       (LoguruImpl.py
          (LoguruImpl.state_of
             (LoguruImpl.configure_logging false (test_args "LOUD")
                (LoguruImpl.state_of
                   (LoguruImpl.configure_logging false loud_args
                      (LoguruImpl.initial false))))))
       "boto3").
Proof.
  apply (X13_interception_is_never_undone false (test_args "LOUD")).
  split; reflexivity.
Defined.


(** X9.  The layout of a line of the Loguru-based module where no colour
    is used, that is in the log file always and on the console with
    [colorize=False]: [time | level | name:function:line - message], the
    level name padded to eight characters. *)
Theorem X9_plain_line_layout
        (tty : bool) (a : LoguruImpl.Args) (w : LoguruImpl.World)
        (l : Loguru.LevelArg) (call : Loguru.Call) (out : list Output)
        (s : Sink) (text : string) :
  LoguruImpl.emit (LoguruImpl.state_of (LoguruImpl.configure_logging tty a w))
    l call = inr out →
  In (s, text) out →
  LoguruImpl.colorize a = false ∨ s ≠ Stdout →
  ∃ lv, Loguru.resolve_level l = inr lv
        ∧ text = MoreProps.plain_line lv call.
Proof.
  intros He Hin Hor. unfold LoguruImpl.emit, Loguru.log in He.
  rewrite LoguruFacts.configure_core in He.
  destruct (Loguru.resolve_level l) as [e|lv] eqn:Hl; [discriminate|].
  injection He as <-. exists lv. split; [reflexivity|].
  exact (LoguruMore.emit_all_plain a lv call s text Hin Hor).
Qed.

Lemma X9_plain_line_layout_witness :
  ∃ lv, Loguru.resolve_level (Loguru.ByName "WARNING") = inr lv
        ∧ "2025-01-15 10:30:45.123 | WARNING  | app:main:45 - Test log message"
            +:+ NL
          = MoreProps.plain_line lv lcall0.
Proof.
  apply (X9_plain_line_layout false (test_args "INFO")
           (LoguruImpl.initial false) (Loguru.ByName "WARNING") lcall0
           [(Stdout,
             "2025-01-15 10:30:45.123 | WARNING  | app:main:45 - Test log message"
               +:+ NL)] Stdout).
  - reflexivity.
  - left. reflexivity.
  - left. reflexivity.
Defined.

(** X14.  The last statement of the [logging]-based [configure_logging]
    reports the configuration through the root logger at INFO: nothing is
    written when the level asked for is above INFO, and otherwise, for a
    service name without [%], each sink of the call receives the line,
    once. *)
Theorem X14_std_closing_line
        (isatty : bool) (a : StdImpl.Args)
        (m : PyLogging.Manager StdImpl.Handler) (now : Timestamp) (ms : nat) :
  (20 < StdImpl.level a → Closing.std_closing isatty a m now ms = [])
  ∧ (StdImpl.level a ≤ 20 → literal_label (StdImpl.service_name a) →
     Closing.std_closing isatty a m now ms
     = map (λ s, (s, ("[" +:+ PyLogging.strftime now +:+ ","
                      +:+ zfill 3 (dec ms) +:+ "] ["
                      +:+ colored isatty "INFO" +:+ "] ["
                      +:+ (if truthy (StdImpl.service_name a)
                           then default "" (StdImpl.service_name a) +:+ "] ["
                           else "")
                      +:+ "root:161] Standardized logging configured")
                     +:+ NL))
         (std_sinks a)).
Proof.
  unfold Closing.std_closing.
  rewrite StdFacts.emit_unconfigured by (left; reflexivity).
  split; [intros Hl|intros Hl _].
  - replace (StdImpl.level a <=? 20) with false by lia. reflexivity.
  - replace (StdImpl.level a <=? 20) with true by lia.
    rewrite StdFormatFacts.format_unfold.
    pose proof (StdMore.base_layout (StdImpl.service_name a)
                  (PyLogging.set_levelname (colored isatty "INFO")
                     (PyLogging.makeRecord "root" 20
                        (Closing.std_call now ms)))
                  "Standardized logging configured"
                  eq_refl eq_refl eq_refl eq_refl) as Hb.
    change (PyLogging.levelname
              (PyLogging.makeRecord "root" 20 (Closing.std_call now ms)))
      with "INFO".
    destruct (PyLogging.Formatter_format _ _) as [[s|] r2]; cbn [fst] in *;
      [|discriminate Hb].
    injection Hb as ->.
    cbn [andb Z.ltb Z.compare]. rewrite <- StdFacts.root_handlers_sinks, map_map.
    reflexivity.
Qed.

Lemma X14_std_closing_line_witness :
  Closing.std_closing false (file_args 10) PyLogging.fresh t0 7
  = [(Stdout,
      "[2025-01-15 10:30:45,007] [INFO] [root:161] Standardized logging configured"
        +:+ NL);
     (LogFile "app.log",
      "[2025-01-15 10:30:45,007] [INFO] [root:161] Standardized logging configured"
        +:+ NL)].
Proof.
  rewrite (proj2 (X14_std_closing_line false (file_args 10) PyLogging.fresh
                    t0 7)); [reflexivity|simpl; lia|exact I].
Defined.

(** X15.  The last statement of the Loguru-based [configure_logging]
    reports the configuration at INFO: it is not reached when the call
    raises, nothing is written when the level asked for is above INFO,
    and otherwise every sink of the call receives the line; where no
    colour is used the line names the module, the function and line 101. *)
Theorem X15_loguru_closing_line
        (tty : bool) (a : LoguruImpl.Args) (w : LoguruImpl.World)
        (now : Timestamp) (ms : nat) (ks : Z) (col : string) :
  (LoguruImpl.succeeded (LoguruImpl.configure_logging tty a w) = false →
   Closing.loguru_closing tty a w now ms = [])
  ∧ (Loguru.levels (LoguruImpl.level a) = Some (ks, col) → 20 < ks →
     Closing.loguru_closing tty a w now ms = [])
  ∧ (LoguruImpl.succeeded (LoguruImpl.configure_logging tty a w) = true →
     Loguru.levels (LoguruImpl.level a) = Some (ks, col) → ks ≤ 20 →
     map fst (Closing.loguru_closing tty a w now ms) = loguru_sinks a
     ∧ ∀ s text,
         In (s, text) (Closing.loguru_closing tty a w now ms) →
         LoguruImpl.colorize a = false ∨ s ≠ Stdout →
         text = MoreProps.plain_line ("INFO", 20, Loguru.code "1")
                  (Closing.loguru_call now ms)).
Proof.
  unfold Closing.loguru_closing.
  pose proof (LoguruFacts.configure_core tty a w) as Hc.
  destruct (LoguruImpl.configure_logging tty a w) as [w'|e w'];
    cbn [LoguruImpl.state_of LoguruImpl.succeeded] in *.
  2:{ split; [reflexivity|]. split; [reflexivity|discriminate]. }
  unfold LoguruImpl.emit, Loguru.log. rewrite Hc.
  change (Loguru.resolve_level (Loguru.ByName "INFO"))
    with (@inr Loguru.Exn _ ("INFO", 20, Loguru.code "1")).
  cbv iota. split; [discriminate|]. split.
  - intros Hl Hk.
    apply (LoguruFacts.emit_all_below _ _ ks);
      [exact (LoguruFacts.expected_core_levelno a ks col Hl)|exact Hk].
  - intros _ Hl Hk. split.
    + rewrite (LoguruFacts.emit_all_above _ _ ks);
        [|exact (LoguruFacts.expected_core_levelno a ks col Hl)|exact Hk].
      rewrite map_map. exact (LoguruFacts.expected_core_sinks a ks col Hl).
    + intros s text Hin Hor.
      exact (LoguruMore.emit_all_plain a _ _ s text Hin Hor).
Qed.

Lemma X15_loguru_closing_line_witness :
  Closing.loguru_closing false (test_args "WARNING") (LoguruImpl.initial false)
    t0 7 = []
  ∧ map fst (Closing.loguru_closing false (test_args "DEBUG")
               (LoguruImpl.initial false) t0 7)
    = loguru_sinks (test_args "DEBUG").
Proof.
  split.
  - apply (proj1 (proj2 (X15_loguru_closing_line false (test_args "WARNING")
                           (LoguruImpl.initial false) t0 7 30
                           (Loguru.code "33" +:+ Loguru.code "1")))).
    + reflexivity.
    + lia.
  - apply (proj2 (proj2 (X15_loguru_closing_line false (test_args "DEBUG")
                           (LoguruImpl.initial false) t0 7 10
                           (Loguru.code "34" +:+ Loguru.code "1")))).
    + reflexivity.
    + reflexivity.
    + lia.
Defined.

(** X16.  A [RotatingFileHandler] with [maxBytes <= 0] or with
    [backupCount = 0] never rotates: every line is appended to the active
    file, which grows without bound, and the backups stay as they were. *)
Theorem X16_rotation_disabled
        (never : bool) (N : Z) (B : nat) (d : Rotation.Dir)
        (msgs : list string) :
  N ≤ 0 ∨ B = 0%nat →
  Rotation.run never N B d msgs
  = {| Rotation.active := Rotation.active d +:+ MoreProps.written msgs;
       Rotation.backup := Rotation.backup d |}.
Proof.
  intros H. revert d. induction msgs as [|m msgs IH]; intros d.
  - simpl. rewrite FormatMore.app_empty_r. destruct d; reflexivity.
  - unfold Rotation.run in *. cbn [foldl].
    rewrite (RotationMore.emit_disabled never N B d m H), IH.
    unfold Rotation.write. cbn [Rotation.active Rotation.backup MoreProps.written].
    rewrite !FormatMore.app_assoc_s. reflexivity.
Qed.

Lemma X16_rotation_disabled_witness :
  Rotation.run false 10 0 (Rotation.opened "0123456789") ["x"; "y"]
  = {| Rotation.active := "0123456789" +:+ "x" +:+ NL +:+ "y" +:+ NL;
       Rotation.backup := ∅ |}.
Proof.
  rewrite (X16_rotation_disabled false 10 0 (Rotation.opened "0123456789")
             ["x"; "y"]); [reflexivity|right; reflexivity].
Defined.

(** X17.  As long as the lines are ASCII text: with at least one backup
    the active file of the [logging]-based module stays below [maxBytes]
    in bytes, provided no single line with its newline reaches
    [maxBytes]: whatever the number of handlers on the path and the order
    of the records when the library seeks to the end of the file before
    the size check, and for a single handler in any case.  The active
    file of Loguru's sink never exceeds the limit provided no single
    message does, whatever the retention. *)
Theorem X17_active_file_within_limit
        (never seeks : bool) (N : Z) (B : nat) (c0 : string) (k : nat)
        (records : list (nat * string))
        (ld : Rotation.LDir) (msgs : list string) :
  ((1 ≤ B)%nat →
   seeks = true ∨ (k ≤ 1)%nat →
   Z.of_nat (utf8_len c0) < N →
   Forall (λ hm, is_ascii hm.2 = true
                 ∧ Z.of_nat (String.length (hm.2 +:+ NL)) < N) records →
   Z.of_nat
     (utf8_len
        (Rotation.active
           (Shared.view
              (Shared.fs
                 (Shared.run never seeks N B (Shared.opened c0 k)
                    records).1))))
   < N)
  ∧ (Z.of_nat (utf8_len (Rotation.l_active ld)) ≤ N →
     Forall (λ m, is_ascii m = true ∧ Z.of_nat (String.length m) ≤ N) msgs →
     Z.of_nat (utf8_len (Rotation.l_active (Rotation.l_run N B ld msgs)))
     ≤ N).
Proof.
  split.
  - intros HB Hsk Hd Hms. destruct B as [|B']; [lia|]. clear HB.
    assert (Hgen : ∀ st b,
               Shared.base (Shared.fs st) = Some b →
               Z.of_nat (utf8_len (Shared.read (Shared.fs st) b)) < N →
               (seeks = true
                ∨ ((length (Shared.streams st) ≤ 1)%nat
                   ∧ ∀ s, s ∈ Shared.streams st →
                          Shared.pos s
                          = utf8_len (Shared.read (Shared.fs st)
                                        (Shared.inode s)))) →
               ∃ b', Shared.base
                       (Shared.fs
                          (Shared.run never seeks N (S B') st records).1)
                     = Some b'
                     ∧ Z.of_nat
                         (utf8_len
                            (Shared.read
                               (Shared.fs
                                  (Shared.run never seeks N (S B') st
                                     records).1)
                               b')) < N).
    { induction Hms as [|[h m] rest [Ha Hm] Hms IH]; intros st b Hb Hlt Hsees.
      - exists b. split; assumption.
      - rewrite SharedFacts.run_cons. cbn [fst].
        destruct (RotationMore.shared_emit_bound never seeks N B' st h m b
                    Hb Hlt) as (b1 & Hb1 & Hlt1);
          [destruct Hsees as [?|[_ ?]]; [left|right]; assumption
          |exact Ha|exact Hm|].
        apply (IH _ b1 Hb1 Hlt1).
        destruct Hsees as [?|[Hlen Hall]]; [left; assumption|right].
        split; [rewrite SharedFacts.emit_length; exact Hlen|].
        intros s. apply SharedFacts.emit_at_end; assumption. }
    destruct (Hgen (Shared.opened c0 k) 0%nat eq_refl) as (b' & Hb' & Hlt').
    { exact Hd. }
    { destruct Hsk as [?|Hk]; [left; assumption|right]. cbn [Shared.opened
        Shared.streams Shared.fs]. split; [rewrite repeat_length; exact Hk|].
      intros s Hin. apply list_elem_of_In, repeat_spec in Hin. subst s.
      reflexivity. }
    unfold Shared.view. cbn [Rotation.active]. rewrite Hb'. exact Hlt'.
  - intros Hd Hms. revert ld Hd.
    induction Hms as [|m msgs [Ha Hm] Hms IH]; intros ld Hd; [exact Hd|].
    unfold Rotation.l_run in *. cbn [foldl]. apply IH.
    apply RotationMore.l_write_active_bound; assumption.
Qed.

Lemma X17_active_file_within_limit_witness :
  Z.of_nat
    (utf8_len
       (Rotation.active
          (Shared.view
             (Shared.fs
                (Shared.run false true 10 2 (Shared.opened "01234567" 2)
                   [(0%nat, "ab"); (1%nat, "cdefgh"); (0%nat, "i")]).1))))
  < 10.
Proof.
  apply (proj1 (X17_active_file_within_limit false true 10 2 "01234567" 2
                  [(0%nat, "ab"); (1%nat, "cdefgh"); (0%nat, "i")]
                  {| Rotation.l_active := ""; Rotation.l_rotated := [] |}
                  [])).
  - lia.
  - left. reflexivity.
  - simpl. lia.
  - repeat constructor; simpl; lia.
Defined.


(** X18.  In the Loguru-based module the terminal plays no role:
    [configure_logging] leaves the same state whether or not stdout is a
    terminal, and with [colorize=True] every console line carries ANSI
    codes. *)
Theorem X18_console_colour_ignores_terminal
        (tty tty' : bool) (a : LoguruImpl.Args) (w : LoguruImpl.World)
        (l : Loguru.LevelArg) (call : Loguru.Call) (out : list Output)
        (text : string) :
  LoguruImpl.configure_logging tty a w = LoguruImpl.configure_logging tty' a w
  ∧ (LoguruImpl.colorize a = true →
     LoguruImpl.emit
       (LoguruImpl.state_of (LoguruImpl.configure_logging tty a w)) l call
     = inr out →
     In (Stdout, text) out → has_esc text = true).
Proof.
  split.
  - unfold LoguruImpl.configure_logging, Loguru.add.
    destruct (Loguru.resolve_levelno _); reflexivity.
  - intros Hc He Hin. unfold LoguruImpl.emit, Loguru.log in He.
    rewrite LoguruFacts.configure_core in He.
    destruct (Loguru.resolve_level l) as [e|lv] eqn:Hl; [discriminate|].
    injection He as <-.
    pose proof (LoguruFacts.emit_all_sub (expected_core a)
                  (Loguru.make_record lv call)) as Hsub.
    apply list_elem_of_In in Hin.
    apply (sublist_subseteq _ _ Hsub) in Hin. apply list_elem_of_In in Hin.
    apply in_map_iff in Hin as (h & [= Hs <-] & Hh).
    unfold expected_core in Hh.
    destruct (Loguru.levels (LoguruImpl.level a)) as [[k c]|]; [|destruct Hh].
    destruct Hh as [<-|Hh].
    + unfold Loguru.formatted, console_handler. cbn [Loguru.colorize Loguru.format].
      rewrite Hc. reflexivity.
    + destruct (truthy (LoguruImpl.log_file a)); [|destruct Hh].
      destruct Hh as [<-|[]]. discriminate Hs.
Qed.

Lemma X18_console_colour_ignores_terminal_witness :
  has_esc
    (Loguru.formatted (console_handler (LoguruImpl.defaults "INFO") 20)
       (Loguru.make_record ("INFO", 20, Loguru.code "1") lcall0))
  = true.
Proof.
  apply (proj2 (X18_console_colour_ignores_terminal false true
                  (LoguruImpl.defaults "INFO") (LoguruImpl.initial false)
                  (Loguru.ByName "INFO") lcall0
                  [(Stdout,
                    Loguru.formatted
                      (console_handler (LoguruImpl.defaults "INFO") 20)
                      (Loguru.make_record ("INFO", 20, Loguru.code "1")
                         lcall0))]
                  _)).
  - reflexivity.
  - reflexivity.
  - left. reflexivity.
Defined.

(** X19.  The handlers of the [logging]-based module filter at the level
    given to [configure_logging]: giving a logger a lower level of its own
    afterwards ([getLogger(n).setLevel(k)]) does not let its records below
    the global level through, while a higher level of its own does hold
    records back; a record at or above both is written once on each sink
    (for a service name without [%]). *)
Theorem X19_handlers_filter_at_global_level
        (isatty : bool) (a : StdImpl.Args)
        (m0 : PyLogging.Manager StdImpl.Handler) (n : string) (k lvl : Z)
        (c : PyLogging.Call) (msg : string) :
  PyLogging.is_root_name n = false →
  Forall (λ x, PyLogging.loggerDict
                 (PyLogging.set_logger n
                    (StdImpl.setLevel k PyLogging.new_logger)
                    (StdImpl.configure_logging a m0)) !! x = None)
         (PyLogging.parent_names n) →
  PyLogging.c_message c = Some msg →
  (lvl < StdImpl.level a ∨ lvl < k →
   StdImpl.emit isatty
     (PyLogging.set_logger n (StdImpl.setLevel k PyLogging.new_logger)
        (StdImpl.configure_logging a m0)) n lvl c = [])
  ∧ (StdImpl.level a ≤ lvl → k ≤ lvl → 0 < lvl →
     literal_label (StdImpl.service_name a) →
     ∃ line,
       StdImpl.emit isatty
         (PyLogging.set_logger n (StdImpl.setLevel k PyLogging.new_logger)
            (StdImpl.configure_logging a m0)) n lvl c
       = map (λ s, (s, line)) (std_sinks a)).
Proof.
  intros Hr Hpar Hm.
  set (m := PyLogging.set_logger n _ _) in *.
  assert (Hlk : PyLogging.lookup_dict m n
                = StdImpl.setLevel k PyLogging.new_logger).
  { unfold m, PyLogging.set_logger, PyLogging.lookup_dict. rewrite Hr. simpl.
    rewrite lookup_insert_eq. reflexivity. }
  assert (Hroot : PyLogging.root m
                  = PyLogging.root (StdImpl.configure_logging a m0))
    by (apply InterceptMore.root_set_ne; exact Hr).
  rewrite StdFacts.configure_root in Hroot.
  assert (Hcall : (PyLogging.callHandlers StdImpl.hlevel (StdImpl.hemit isatty)
                     m (PyLogging.makeRecord n lvl c)).1
                  = (PyLogging.run_handlers StdImpl.hlevel
                       (StdImpl.hemit isatty) (root_handlers a)
                       (PyLogging.makeRecord n lvl c)).1).
  { rewrite StdMore.callHandlers_own_level;
      change (PyLogging.name (PyLogging.makeRecord n lvl c)) with n;
      rewrite ?Hlk, ?Hroot; try reflexivity; try assumption.
    unfold root_handlers. discriminate. }
  assert (He : PyLogging.isEnabledFor m n lvl
               = if 0 >=? lvl then false
                 else lvl >=? (if k =? 0 then StdImpl.level a else k)).
  { unfold PyLogging.isEnabledFor.
    rewrite (StdMore.effective_own_level m n Hr Hpar), Hlk, Hroot.
    reflexivity. }
  unfold StdImpl.emit, PyLogging.Logger_log. rewrite He, Hcall. split.
  - intros Hlt. destruct (0 >=? lvl) eqn:E0; [reflexivity|].
    destruct (lvl >=? _) eqn:E; [|reflexivity].
    destruct (Z_lt_le_dec lvl (StdImpl.level a)) as [Hlow|Hhigh].
    + rewrite StdMore.run_handlers_below; [reflexivity|].
      eapply Forall_impl; [apply StdMore.root_handlers_level|].
      intros h Hh. simpl in Hh. rewrite Hh. exact Hlow.
    + destruct (k =? 0) eqn:Ek; lia.
  - intros H1 H2 H3 _. replace (0 >=? lvl) with false by lia.
    replace (lvl >=? (if k =? 0 then StdImpl.level a else k)) with true
      by (destruct (k =? 0); lia).
    rewrite (StdFacts.run_handlers_uniform isatty
               (StdImpl.make_formatter (StdImpl.service_name a)));
      [|apply StdFormatFacts.make_formatter_time_only
       |apply StdFacts.root_handlers_uniform; exact H1].
    destruct (StdFormatFacts.format_total isatty
                (StdImpl.make_formatter (StdImpl.service_name a))
                (PyLogging.makeRecord n lvl c) msg Hm)
      as (t & r' & ->).
    exists (t +:+ NL). cbn [fst].
    rewrite <- StdFacts.root_handlers_sinks, map_map. reflexivity.
Qed.

Lemma X19_handlers_filter_at_global_level_witness :
  StdImpl.emit false
    (PyLogging.set_logger "app.db" (StdImpl.setLevel 10 PyLogging.new_logger)
       (StdImpl.configure_logging (StdImpl.defaults 20) PyLogging.fresh))
    "app.db" 10 call0 = [].
Proof.
  destruct (X19_handlers_filter_at_global_level false (StdImpl.defaults 20)
              PyLogging.fresh "app.db" 10 10 call0 "Processing request")
    as [H _].
  - reflexivity.
  - repeat constructor.
  - reflexivity.
  - apply H. left. simpl. lia.
Defined.

(** X20.  The shim hands a record to Loguru at the record's own level:
    the Loguru level of the same name for the five standard levels, the
    level ["Level n"] with the same number for any other; with the
    record's message and exception; at Loguru's own time; and, from
    Python 3.11 on, with [logging]'s [callHandlers] as the call site
    instead of the place of the logging call. *)
Theorem X20_shim_preserves_level
        (core : Loguru.Core) (env : LoguruImpl.Env) (n : string) (lvl : Z)
        (c : PyLogging.Call) (msg : string) :
  0 < lvl → PyLogging.c_message c = Some msg →
  ∃ col,
    LoguruImpl.intercept_emit core env (PyLogging.makeRecord n lvl c)
    = Loguru.emit_all core
        (Loguru.make_record (PyLogging.getLevelName lvl, lvl, col)
           {| Loguru.c_time := LoguruImpl.now env;
              Loguru.c_msec := LoguruImpl.now_msec env;
              Loguru.c_name :=
                if LoguruImpl.getframe1 env then Some "logging"
                else LoguruImpl.caller_name env;
              Loguru.c_function :=
                if LoguruImpl.getframe1 env then "callHandlers"
                else PyLogging.c_funcName c;
              Loguru.c_line :=
                if LoguruImpl.getframe1 env then LoguruImpl.handle_line env
                else PyLogging.c_lineno c;
              Loguru.c_message := msg;
              Loguru.c_exception := PyLogging.c_exc_info c |}).
Proof.
  intros Hl Hm. unfold LoguruImpl.intercept_emit, LoguruImpl.call_site.
  cbn [PyLogging.getMessage PyLogging.makeRecord PyLogging.levelname
       PyLogging.levelno PyLogging.funcName PyLogging.lineno
       PyLogging.exc_info].
  rewrite Hm. unfold Loguru.log.
  destruct (InterceptMore.intercept_level_name lvl Hl) as (col & ->).
  exists col. destruct (LoguruImpl.getframe1 env); reflexivity.
Qed.

Lemma X20_shim_preserves_level_witness :
  ∃ col,
    LoguruImpl.intercept_emit (expected_core (test_args "INFO")) env311
      (PyLogging.makeRecord "app" 25 call0)
    = Loguru.emit_all (expected_core (test_args "INFO"))
        (Loguru.make_record ("Level 25", 25, col)
           {| Loguru.c_time := t0; Loguru.c_msec := 124;
              Loguru.c_name := Some "logging";
              Loguru.c_function := "callHandlers";
              Loguru.c_line := 1706; Loguru.c_message := "Processing request";
              Loguru.c_exception := None |}).
Proof.
  apply (X20_shim_preserves_level (expected_core (test_args "INFO")) env311
           "app" 25 call0 "Processing request"); [lia|reflexivity].
Defined.

End Further.
